(** * Marketing CRM service: segment criteria evaluator, campaign lifecycle
      and analytics roll-ups.

    A shallow embedding of [marketing_service/models.py] and
    [marketing_service/services.py].

    Modelling conventions.
    - JSON documents and the values of customer attributes are values of
      [pyval]; a JSON object is an association list (first binding wins);
      [PObject] stands for any other object (a bound method, an attribute
      of the ORM), known by its identity only.
    - Python exceptions are explicit: every function that can raise returns a
      [result], and [try ... except (ValueError, TypeError)] is [catch_vt].
    - Python floats are modelled by rationals ([Q]): rounding is not
      modelled, but the finite range is, because converting an integer
      outside of it raises [OverflowError]; and division is partial, a
      zero divisor raises [ZeroDivisionError].
    - Library functions the service calls but does not define ([json.loads],
      [float] on strings, [str] on non-string values, [str.lower]) are the
      members of the class [PyBuiltins]; every definition and theorem is
      generic in them.
    - The relational store is a record of tables; [Campaign.results] (a
      one-to-one back reference) is a field of the campaign row.  Columns
      with a declared default are modelled at their declared type, columns
      the application can leave unset are options.
    - A commit writes a row when one of the columns the function assigned
      has a new value, and then the ORM sets the row's [updated_at]
      ([onupdate]); a row whose assigned columns all kept their value is
      not written.
    - [datetime.utcnow()], in the service code and in the column defaults
      of the ORM, and the draws of the [random] module are inputs. *)

From Stdlib Require Import ZArith QArith Qround String Ascii DecimalString Lia.
From stdpp Require Import base option list gmap strings pretty.

Set Warnings "-register-all".

Local Open Scope Z_scope.
Local Open Scope string_scope.
Local Open Scope list_scope.

(** ** Exceptions *)

Inductive exn : Set :=
| ValueError
| TypeError
| AttributeError
| OverflowError
| ZeroDivisionError.

Inductive result (A : Type) : Type :=
| Ok (a : A)
| Raise (e : exn).
Arguments Ok {A} a.
Arguments Raise {A} e.

#[global] Instance result_ret : MRet result := fun _ a => Ok a.
#[global] Instance result_bind : MBind result := fun _ _ f m =>
  match m with
  | Ok a => f a
  | Raise e => Raise e
  end.

(** [try: m except (ValueError, TypeError): return False] *)
Definition catch_vt (m : result bool) : result bool :=
  match m with
  | Raise ValueError | Raise TypeError => Ok false
  | other => other
  end.

Definition returns {A} (m : result A) : Prop := exists a, m = Ok a.

(** ** Python values *)

Inductive pyval : Type :=
| PNone
| PBool (b : bool)
| PInt (z : Z)
| PFloat (q : Q)
| PStr (s : string)
| PList (l : list pyval)
| PDict (d : list (string * pyval))
| PDateTime (t : Z)
| PObject (tag : Z).

Fixpoint assoc {A} (k : string) (d : list (string * A)) : option A :=
  match d with
  | [] => None
  | (k', v) :: rest => if String.eqb k k' then Some v else assoc k rest
  end.

(** [float(10**n)] fails as soon as the integer rounds to [2**1024]. *)
Definition float_overflow_bound : Z := 2 ^ 1024 - 2 ^ 970.

(** An integer far outside of the range of a float. *)
Definition huge_int : Z := 10 ^ 400.

Class PyBuiltins := {
  (** [json.loads]; [None] when decoding raises *)
  json_loads : string -> option pyval;
  (** [float(s)] for a string; [None] when it raises [ValueError] *)
  float_of_str : string -> option Q;
  (** [str(v)] for floats, containers and datetimes *)
  str_other : pyval -> string;
  (** [s.lower()] *)
  str_lower : string -> string
}.

(** Numeric view shared by [bool], [int] and [float] in comparisons. *)
Definition as_num (v : pyval) : option Q :=
  match v with
  | PBool b => Some (if b then 1%Q else 0%Q)
  | PInt z => Some (inject_Z z)
  | PFloat q => Some q
  | _ => None
  end.

(** [a == b] *)
Fixpoint py_eq (a b : pyval) : bool :=
  match a, b with
  | PNone, PNone => true
  | PStr s, PStr t => String.eqb s t
  | PDateTime s, PDateTime t => Z.eqb s t
  | PObject s, PObject t => Z.eqb s t
  | PList xs, PList ys =>
      (fix elems (xs ys : list pyval) : bool :=
         match xs, ys with
         | [], [] => true
         | x :: xs', y :: ys' => py_eq x y && elems xs' ys'
         | _, _ => false
         end) xs ys
  | PDict d1, PDict d2 =>
      Nat.eqb (length d1) (length d2) &&
      (fix items (d : list (string * pyval)) : bool :=
         match d with
         | [] => true
         | (k, v) :: d' =>
             match assoc k d2 with
             | Some v' => py_eq v v'
             | None => false
             end && items d'
         end) d1
  | _, _ =>
      match as_num a, as_num b with
      | Some x, Some y => Qeq_bool x y
      | _, _ => false
      end
  end.

(** truth value of [v] in a condition *)
Definition py_truthy (v : pyval) : bool :=
  match v with
  | PNone => false
  | PBool b => b
  | PInt z => negb (Z.eqb z 0)
  | PFloat q => negb (Qeq_bool q 0)
  | PStr s => negb (String.eqb s "")
  | PList l => match l with [] => false | _ => true end
  | PDict d => match d with [] => false | _ => true end
  | PDateTime _ => true
  | PObject _ => true
  end.

(** [for x in v] *)
Definition py_iter (v : pyval) : result (list pyval) :=
  match v with
  | PList l => Ok l
  | PDict d => Ok (map (fun kv => PStr (fst kv)) d)
  | PStr s => Ok (map (fun a => PStr (String a EmptyString)) (list_ascii_of_string s))
  | _ => Raise TypeError
  end.

(** [d.get(k, default)] *)
Definition py_get (d : pyval) (k : string) (default : pyval) : result pyval :=
  match d with
  | PDict kv => Ok (from_option id default (assoc k kv))
  | _ => Raise AttributeError
  end.

(** [s.split('.')]: the first part and the remaining ones *)
Fixpoint split_dot (s : string) : string * list string :=
  match s with
  | EmptyString => (EmptyString, [])
  | String a rest =>
      let '(h, t) := split_dot rest in
      if Ascii.eqb a "."%char then (EmptyString, h :: t) else (String a h, t)
  end.

(** [t in s] for two strings *)
Definition is_substring (t s : string) : bool :=
  match index 0 t s with
  | Some _ => true
  | None => false
  end.

Definition hashable (v : pyval) : bool :=
  match v with
  | PList _ | PDict _ => false
  | _ => true
  end.

(** [item in container] *)
Definition py_in (item container : pyval) : result bool :=
  match container with
  | PList l => Ok (existsb (py_eq item) l)
  | PStr s =>
      match item with
      | PStr t => Ok (is_substring t s)
      | _ => Raise TypeError
      end
  | PDict d =>
      if hashable item then Ok (existsb (fun kv => py_eq item (PStr (fst kv))) d)
      else Raise TypeError
  | _ => Raise TypeError
  end.

(** [float(v)] *)
Definition py_float `{PyBuiltins} (v : pyval) : result Q :=
  match v with
  | PBool b => Ok (if b then 1%Q else 0%Q)
  | PInt z =>
      if Z.ltb (Z.abs z) float_overflow_bound then Ok (inject_Z z)
      else Raise OverflowError
  | PFloat q => Ok q
  | PStr s =>
      match float_of_str s with
      | Some q => Ok q
      | None => Raise ValueError
      end
  | _ => Raise TypeError
  end.

(** [str(v)] *)
Definition py_str `{PyBuiltins} (v : pyval) : string :=
  match v with
  | PStr s => s
  | PNone => "None"
  | PBool true => "True"
  | PBool false => "False"
  | PInt z => pretty z
  | _ => str_other v
  end.

Definition opt_str (o : option string) : pyval :=
  match o with
  | Some s => PStr s
  | None => PNone
  end.

(** [json.loads(text) if text else fallback] *)
Definition loads_or `{PyBuiltins} (text : option string) (fallback : pyval)
  : result pyval :=
  match text with
  | None => Ok fallback
  | Some s =>
      if String.eqb s "" then Ok fallback
      else match json_loads s with
           | Some v => Ok v
           | None => Raise ValueError
           end
  end.

(** [int(x)] for a float: truncation towards zero *)
Definition py_int (x : Q) : Z := Z.quot (Qnum x) (Zpos (Qden x)).

(** [a / b] *)
Definition py_div (a b : Q) : result Q :=
  if Qeq_bool b 0 then Raise ZeroDivisionError else Ok (a / b)%Q.

(** [num / den * 100] *)
Definition percent (num den : Q) : result Q :=
  quotient ← py_div num den;
  Ok (quotient * 100)%Q.

(** [a == b] for two optional values of a column *)
Definition opt_eqb {A} (eqb : A -> A -> bool) (a b : option A) : bool :=
  match a, b with
  | Some x, Some y => eqb x y
  | None, None => true
  | _, _ => false
  end.

(** ** Rows of the store (models.py) *)

Module Customer.
Record t := mk {
  id : Z;
  name : string;
  email : string;
  phone : option string;
  demographics : option string;
  purchase_history : option string;
  behavioral_data : option string;
  total_spent : Q;
  lifetime_value : Q;
  engagement_score : Z;
  status : string;
  lead_source : option string;
  created_at : Z;
  updated_at : Z
}.

Definition get_demographics `{PyBuiltins} (self : t) : result pyval :=
  loads_or (demographics self) (PDict []).

Definition get_purchase_history `{PyBuiltins} (self : t) : result pyval :=
  loads_or (purchase_history self) (PList []).

Definition get_behavioral_data `{PyBuiltins} (self : t) : result pyval :=
  loads_or (behavioral_data self) (PDict []).

Definition columns : list string :=
  ["id"; "name"; "email"; "phone"; "demographics"; "purchase_history";
   "behavioral_data"; "total_spent"; "lifetime_value"; "engagement_score";
   "status"; "lead_source"; "created_at"; "updated_at"].

(** What the object has under the names that are not columns: the bound
    methods of the class ([to_dict], [get_demographics], ...) and the
    attributes the ORM adds ([query], [metadata], the [campaign_activities]
    back reference, ...); [None] for a name the object does not have. *)
Class attributes := { other_attribute : t -> string -> option pyval }.

(** [getattr(self, attr, default)] *)
Definition getattr `{attributes} (self : t) (attr : string) (default : pyval)
  : pyval :=
  if String.eqb attr "id" then PInt (id self)
  else if String.eqb attr "name" then PStr (name self)
  else if String.eqb attr "email" then PStr (email self)
  else if String.eqb attr "phone" then opt_str (phone self)
  else if String.eqb attr "demographics" then opt_str (demographics self)
  else if String.eqb attr "purchase_history" then opt_str (purchase_history self)
  else if String.eqb attr "behavioral_data" then opt_str (behavioral_data self)
  else if String.eqb attr "total_spent" then PFloat (total_spent self)
  else if String.eqb attr "lifetime_value" then PFloat (lifetime_value self)
  else if String.eqb attr "engagement_score" then PInt (engagement_score self)
  else if String.eqb attr "status" then PStr (status self)
  else if String.eqb attr "lead_source" then opt_str (lead_source self)
  else if String.eqb attr "created_at" then PDateTime (created_at self)
  else if String.eqb attr "updated_at" then PDateTime (updated_at self)
  else match other_attribute self attr with
       | Some value => value
       | None => default
       end.
End Customer.

Module Segment.
Record t := mk {
  id : Z;
  name : string;
  description : option string;
  criteria : string;
  segment_type : string;
  customer_count : Z;
  is_active : bool;
  created_at : Z;
  updated_at : Z
}.

Definition get_criteria `{PyBuiltins} (self : t) : result pyval :=
  loads_or (Some (criteria self)) (PDict []).

Definition set_customer_count (self : t) (n : Z) : t :=
  mk (id self) (name self) (description self) (criteria self)
     (segment_type self) n (is_active self) (created_at self)
     (updated_at self).

Definition set_updated_at (self : t) (stamp : Z) : t :=
  mk (id self) (name self) (description self) (criteria self)
     (segment_type self) (customer_count self) (is_active self)
     (created_at self) stamp.
End Segment.

Module CampaignResult.
Record t := mk {
  campaign_id : Z;
  total_sent : Z;
  delivered : Z;
  bounced : Z;
  opens : Z;
  clicks : Z;
  unsubscribes : Z;
  impressions : Z;
  conversions : Z;
  leads_generated : Z;
  leads_converted : Z;
  revenue_attributed : Q;
  total_cost : Q;
  updated_at : Z
}.

(** The row inserted by [CampaignResult(campaign=campaign)]: every
    counter and amount at its column default. *)
Definition default (campaign_id updated : Z) : t :=
  mk campaign_id 0 0 0 0 0 0 0 0 0 0 0%Q 0%Q updated.

Definition set_updated_at (self : t) (stamp : Z) : t :=
  mk (campaign_id self) (total_sent self) (delivered self) (bounced self)
     (opens self) (clicks self) (unsubscribes self) (impressions self)
     (conversions self) (leads_generated self) (leads_converted self)
     (revenue_attributed self) (total_cost self) stamp.

(** No column [launch_campaign] assigns differs between the two rows. *)
Definition same_counters (a b : t) : bool :=
  Z.eqb (total_sent a) (total_sent b)
  && Z.eqb (delivered a) (delivered b)
  && Z.eqb (bounced a) (bounced b)
  && Z.eqb (opens a) (opens b)
  && Z.eqb (clicks a) (clicks b)
  && Z.eqb (impressions a) (impressions b)
  && Z.eqb (conversions a) (conversions b)
  && Z.eqb (leads_generated a) (leads_generated b)
  && Z.eqb (leads_converted a) (leads_converted b)
  && Qeq_bool (revenue_attributed a) (revenue_attributed b)
  && Qeq_bool (total_cost a) (total_cost b).

(** The commit of a row whose counters were assigned: the row is written,
    and its [updated_at] set, when one of them has a new value. *)
Definition flush (old new : t) (stamp : Z) : t :=
  if same_counters old new then new else set_updated_at new stamp.

Record metrics := mk_metrics {
  m_campaign_id : Z;
  m_total_sent : Z;
  m_delivered : Z;
  m_bounced : Z;
  m_opens : Z;
  m_clicks : Z;
  m_conversions : Z;
  m_leads_generated : Z;
  m_leads_converted : Z;
  m_revenue_attributed : Q;
  m_total_cost : Q;
  delivery_rate : Q;
  open_rate : Q;
  click_rate : Q;
  ctr : Q;
  conversion_rate : Q;
  roi : Q
}.

Definition calculate_metrics (self : t) : result metrics :=
  delivery_rate ←
    (if Z.ltb 0 (total_sent self)
     then percent (inject_Z (delivered self)) (inject_Z (total_sent self))
     else Ok 0%Q);
  open_rate ←
    (if Z.ltb 0 (delivered self)
     then percent (inject_Z (opens self)) (inject_Z (delivered self))
     else Ok 0%Q);
  click_rate ←
    (if Z.ltb 0 (opens self)
     then percent (inject_Z (clicks self)) (inject_Z (opens self))
     else Ok 0%Q);
  ctr ←
    (if Z.ltb 0 (delivered self)
     then percent (inject_Z (clicks self)) (inject_Z (delivered self))
     else Ok 0%Q);
  conversion_rate ←
    (if Z.ltb 0 (clicks self)
     then percent (inject_Z (conversions self)) (inject_Z (clicks self))
     else Ok 0%Q);
  roi ←
    (if negb (Qle_bool (total_cost self) 0)
     then percent (revenue_attributed self - total_cost self) (total_cost self)
     else Ok 0%Q);
  Ok
  {| m_campaign_id := campaign_id self;
     m_total_sent := total_sent self;
     m_delivered := delivered self;
     m_bounced := bounced self;
     m_opens := opens self;
     m_clicks := clicks self;
     m_conversions := conversions self;
     m_leads_generated := leads_generated self;
     m_leads_converted := leads_converted self;
     m_revenue_attributed := revenue_attributed self;
     m_total_cost := total_cost self;
     delivery_rate := delivery_rate;
     open_rate := open_rate;
     click_rate := click_rate;
     ctr := ctr;
     conversion_rate := conversion_rate;
     roi := roi |}.
End CampaignResult.

Module Campaign.
Record t := mk {
  id : Z;
  name : string;
  description : option string;
  campaign_type : string;
  subject : option string;
  content : option string;
  segment_id : Z;
  status : string;
  schedule_time : option Z;
  start_date : option Z;
  end_date : option Z;
  budget : Q;
  cost_per_send : Q;
  workflow_steps : option string;
  created_at : Z;
  updated_at : Z;
  results : option CampaignResult.t
}.

Definition set_status (self : t) (s : string) : t :=
  mk (id self) (name self) (description self) (campaign_type self)
     (subject self) (content self) (segment_id self) s
     (schedule_time self) (start_date self) (end_date self)
     (budget self) (cost_per_send self) (workflow_steps self)
     (created_at self) (updated_at self) (results self).

Definition set_start_date (self : t) (d : option Z) : t :=
  mk (id self) (name self) (description self) (campaign_type self)
     (subject self) (content self) (segment_id self) (status self)
     (schedule_time self) d (end_date self)
     (budget self) (cost_per_send self) (workflow_steps self)
     (created_at self) (updated_at self) (results self).

Definition set_end_date (self : t) (d : option Z) : t :=
  mk (id self) (name self) (description self) (campaign_type self)
     (subject self) (content self) (segment_id self) (status self)
     (schedule_time self) (start_date self) d
     (budget self) (cost_per_send self) (workflow_steps self)
     (created_at self) (updated_at self) (results self).

Definition set_results (self : t) (r : option CampaignResult.t) : t :=
  mk (id self) (name self) (description self) (campaign_type self)
     (subject self) (content self) (segment_id self) (status self)
     (schedule_time self) (start_date self) (end_date self)
     (budget self) (cost_per_send self) (workflow_steps self)
     (created_at self) (updated_at self) r.

Definition set_updated_at (self : t) (stamp : Z) : t :=
  mk (id self) (name self) (description self) (campaign_type self)
     (subject self) (content self) (segment_id self) (status self)
     (schedule_time self) (start_date self) (end_date self)
     (budget self) (cost_per_send self) (workflow_steps self)
     (created_at self) stamp (results self).
End Campaign.

(** The tables.  [segment_customers] is the association table of the schema;
    no service function writes it. *)
Record Store := mkStore {
  customers : list Customer.t;
  segments : gmap Z Segment.t;
  campaigns : gmap Z Campaign.t;
  segment_customers : list (Z * Z)
}.

Definition set_segments (st : Store) (m : gmap Z Segment.t) : Store :=
  mkStore (customers st) m (campaigns st) (segment_customers st).

Definition set_campaigns (st : Store) (m : gmap Z Campaign.t) : Store :=
  mkStore (customers st) (segments st) m (segment_customers st).

(** ** Segment criteria evaluator (services.py) *)

Section Evaluator.
Context `{PyBuiltins} `{Customer.attributes}.

Definition get_nested_value (customer : Customer.t) (field_path : pyval)
  : result pyval :=
  match field_path with
  | PStr path =>
      let '(part0, parts) := split_dot path in
      if String.eqb part0 "demographics" then
        data ← Customer.get_demographics customer;
        match parts with
        | part1 :: _ => py_get data part1 PNone
        | [] => Ok data
        end
      else if String.eqb part0 "behavioral_data" then
        data ← Customer.get_behavioral_data customer;
        match parts with
        | part1 :: _ => py_get data part1 PNone
        | [] => Ok data
        end
      else if String.eqb part0 "purchase_history" then
        Customer.get_purchase_history customer
      else Ok (Customer.getattr customer part0 PNone)
  | _ => Raise AttributeError
  end.

Definition evaluate_rule (actual_value operator expected_value : pyval)
  : result bool :=
  match actual_value with
  | PNone => Ok false
  | _ =>
      catch_vt
        (if py_eq operator (PStr "eq") then
           Ok (py_eq actual_value expected_value)
         else if py_eq operator (PStr "neq") then
           Ok (negb (py_eq actual_value expected_value))
         else if py_eq operator (PStr "gt") then
           a ← py_float actual_value; b ← py_float expected_value;
           Ok (negb (Qle_bool a b))
         else if py_eq operator (PStr "gte") then
           a ← py_float actual_value; b ← py_float expected_value;
           Ok (Qle_bool b a)
         else if py_eq operator (PStr "lt") then
           a ← py_float actual_value; b ← py_float expected_value;
           Ok (negb (Qle_bool b a))
         else if py_eq operator (PStr "lte") then
           a ← py_float actual_value; b ← py_float expected_value;
           Ok (Qle_bool a b)
         else if py_eq operator (PStr "contains") then
           Ok (is_substring (str_lower (py_str expected_value))
                            (str_lower (py_str actual_value)))
         else if py_eq operator (PStr "in") then
           py_in actual_value expected_value
         else Ok false)
  end.

(** The document [{"field": ..., "operator": ..., "value": ...}]. *)
Definition rule_doc (field operator value : pyval) : pyval :=
  PDict [("field", field); ("operator", operator); ("value", value)].

(** One iteration of the loop of [evaluate_segment_criteria]. *)
Definition evaluate_one (customer : Customer.t) (rule : pyval) : result bool :=
  field_path ← py_get rule "field" (PStr "");
  operator ← py_get rule "operator" (PStr "eq");
  value ← py_get rule "value" PNone;
  actual_value ← get_nested_value customer field_path;
  evaluate_rule actual_value operator value.

(** The loop: results are collected eagerly, in order; the first rule that
    raises ends it. *)
Fixpoint evaluate_all (customer : Customer.t) (rules : list pyval)
  : result (list bool) :=
  match rules with
  | [] => Ok []
  | rule :: rest =>
      r ← evaluate_one customer rule;
      rs ← evaluate_all customer rest;
      Ok (r :: rs)
  end.

(** The part of [evaluate_segment_criteria] below the decoding step. *)
Definition evaluate_decoded (customer : Customer.t) (criteria : pyval)
  : result bool :=
  rules ← py_get criteria "rules" (PList []);
  match_type ← py_get criteria "match" (PStr "all");
  if negb (py_truthy rules) then Ok true
  else
    rule_list ← py_iter rules;
    results ← evaluate_all customer rule_list;
    if py_eq match_type (PStr "all") then Ok (forallb id results)
    else Ok (existsb id results).

Definition evaluate_segment_criteria (customer : Customer.t) (criteria : pyval)
  : result bool :=
  match criteria with
  | PStr text =>
      match json_loads text with
      | Some decoded => evaluate_decoded customer decoded
      | None => Ok true
      end
  | _ => evaluate_decoded customer criteria
  end.

End Evaluator.

(** ** Segmentation services *)

Section Segmentation.
Context `{PyBuiltins} `{Customer.attributes}.

(** The loop of [get_segment_customers]. *)
Fixpoint matching_customers (all_customers : list Customer.t) (criteria : pyval)
  : result (list Customer.t) :=
  match all_customers with
  | [] => Ok []
  | customer :: rest =>
      keep ← evaluate_segment_criteria customer criteria;
      others ← matching_customers rest criteria;
      Ok (if keep : bool then customer :: others else others)
  end.

(** The customer's record satisfies the criteria: the evaluator answers
    true. *)
Definition satisfies (customer : Customer.t) (criteria : pyval) : bool :=
  match evaluate_segment_criteria customer criteria with
  | Ok b => b
  | Raise _ => false
  end.

Definition get_segment_customers (st : Store) (segment_id : Z)
  : result (list Customer.t) :=
  match segments st !! segment_id with
  | None => Ok []
  | Some segment =>
      criteria ← Segment.get_criteria segment;
      matching_customers (customers st) criteria
  end.

(** [segment.customer_count = count; db.session.commit()]: the commit
    writes the row when the count has a new value, and [stamp] is the time
    the ORM reads then. *)
Definition refreshed (stamp count : Z) (segment : Segment.t) : Segment.t :=
  let segment' := Segment.set_customer_count segment count in
  if Z.eqb count (Segment.customer_count segment) then segment'
  else Segment.set_updated_at segment' stamp.

Definition refresh_segment (stamp : Z) (st : Store) (segment_id : Z)
  : result (Store * option Segment.t) :=
  match segments st !! segment_id with
  | None => Ok (st, None)
  | Some segment =>
      matching ← get_segment_customers st segment_id;
      let segment' := refreshed stamp (Z.of_nat (length matching)) segment in
      Ok (set_segments st (<[segment_id := segment']> (segments st)),
          Some segment')
  end.

End Segmentation.

(** ** Campaign services *)

(** The values returned by the calls to the [random] module in
    [launch_campaign], one field per call site. *)
Record Draws := mkDraws {
  fallback_audience : Z;   (* randint(100, 500) *)
  delivery : Q;            (* uniform(0.92, 0.98) *)
  email_open : Q;          (* uniform(0.15, 0.35) *)
  email_click : Q;         (* uniform(0.10, 0.25) *)
  social_reach : Z;        (* randint(2, 5) *)
  social_open : Q;         (* uniform(0.02, 0.08) *)
  social_click : Q;        (* uniform(0.20, 0.40) *)
  ads_reach : Z;           (* randint(5, 15) *)
  ads_click : Q;           (* uniform(0.01, 0.05) *)
  conversion : Q;          (* uniform(0.05, 0.20) *)
  coin : Q;                (* random() *)
  lead_gen : Q;            (* uniform(0.10, 0.30) *)
  lead_conv : Q;           (* uniform(0.20, 0.40) *)
  order_value : Q          (* uniform(50, 200) *)
}.

Definition between (lo x hi : Q) : Prop := (lo <= x)%Q /\ (x <= hi)%Q.

(** Every draw lies in the range its call asks for. *)
Record draws_in_range (d : Draws) : Prop := {
  fallback_audience_range : 100 <= fallback_audience d <= 500;
  delivery_range : between (92 # 100) (delivery d) (98 # 100);
  email_open_range : between (15 # 100) (email_open d) (35 # 100);
  email_click_range : between (10 # 100) (email_click d) (25 # 100);
  social_reach_range : 2 <= social_reach d <= 5;
  social_open_range : between (2 # 100) (social_open d) (8 # 100);
  social_click_range : between (20 # 100) (social_click d) (40 # 100);
  ads_reach_range : 5 <= ads_reach d <= 15;
  ads_click_range : between (1 # 100) (ads_click d) (5 # 100);
  conversion_range : between (5 # 100) (conversion d) (20 # 100);
  coin_range : (0 <= coin d)%Q /\ (coin d < 1)%Q;
  lead_gen_range : between (10 # 100) (lead_gen d) (30 # 100);
  lead_conv_range : between (20 # 100) (lead_conv d) (40 # 100);
  order_value_range : between 50 (order_value d) 200
}.

(** The body of [if campaign.results:] in [launch_campaign]. *)
Definition simulate (d : Draws) (audience_size : Z) (campaign : Campaign.t)
    (results : CampaignResult.t) : CampaignResult.t :=
  let total_sent := audience_size in
  let delivered := py_int (inject_Z audience_size * delivery d) in
  let bounced := total_sent - delivered in
  let '(impressions, opens, clicks) :=
    if String.eqb (Campaign.campaign_type campaign) "email" then
      let opens := py_int (inject_Z delivered * email_open d) in
      let clicks := py_int (inject_Z opens * email_click d) in
      (CampaignResult.impressions results, opens, clicks)
    else if String.eqb (Campaign.campaign_type campaign) "social" then
      let impressions := audience_size * social_reach d in
      let opens := py_int (inject_Z impressions * social_open d) in
      let clicks := py_int (inject_Z opens * social_click d) in
      (impressions, opens, clicks)
    else
      let impressions := audience_size * ads_reach d in
      let clicks := py_int (inject_Z impressions * ads_click d) in
      (impressions, clicks, clicks) in
  let raw_conversions := (inject_Z clicks * conversion d)%Q in
  let conversions :=
    if negb (Qle_bool 1 raw_conversions) && Z.ltb 0 clicks
       && negb (Qle_bool (coin d) (1 # 2))
    then 1
    else Qceiling raw_conversions in
  let leads_generated := Qceiling (inject_Z clicks * lead_gen d) in
  let leads_converted := Qceiling (inject_Z leads_generated * lead_conv d) in
  let avg_order_value := order_value d in
  {| CampaignResult.campaign_id := CampaignResult.campaign_id results;
     CampaignResult.total_sent := total_sent;
     CampaignResult.delivered := delivered;
     CampaignResult.bounced := bounced;
     CampaignResult.opens := opens;
     CampaignResult.clicks := clicks;
     CampaignResult.unsubscribes := CampaignResult.unsubscribes results;
     CampaignResult.impressions := impressions;
     CampaignResult.conversions := conversions;
     CampaignResult.leads_generated := leads_generated;
     CampaignResult.leads_converted := leads_converted;
     CampaignResult.revenue_attributed := (inject_Z conversions * avg_order_value)%Q;
     CampaignResult.total_cost :=
       (inject_Z total_sent * Campaign.cost_per_send campaign
        + Campaign.budget campaign * (1 # 2))%Q;
     CampaignResult.updated_at := CampaignResult.updated_at results |}.

(** [len(segment_customers) if segment_customers else random.randint(100, 500)] *)
Definition audience_of (d : Draws) (segment_customers : list Customer.t) : Z :=
  match segment_customers with
  | [] => fallback_audience d
  | _ => Z.of_nat (length segment_customers)
  end.

(** The campaign row as [launch_campaign] leaves a draft: [stamp] and
    [stamp_results] are the times the ORM reads when the commit writes the
    campaign row (its status is new) and the result row. *)
Definition launched (now stamp stamp_results : Z) (d : Draws)
    (audience_size : Z) (campaign : Campaign.t) : Campaign.t :=
  let campaign := Campaign.set_status campaign "active" in
  let campaign := Campaign.set_start_date campaign (Some now) in
  let campaign :=
    match Campaign.results campaign with
    | Some results =>
        let simulated := simulate d audience_size campaign results in
        Campaign.set_results campaign
          (Some (CampaignResult.flush results simulated stamp_results))
    | None => campaign
    end in
  Campaign.set_updated_at campaign stamp.

Section Campaigns.
Context `{PyBuiltins} `{Customer.attributes}.

(** [create_campaign], with the primary key the store assigns and the
    times the column defaults read ([created], [updated] for the campaign
    row, [results_updated] for the result row) as inputs; the event it
    publishes is not modelled. *)
Definition create_campaign (new_id created updated results_updated : Z)
    (name : string) (segment_id : Z)
    (campaign_type : string) (subject content : option string)
    (schedule_time : option Z) (budget : Q) (description : option string)
    (st : Store) : Store * Campaign.t :=
  let campaign :=
    {| Campaign.id := new_id; Campaign.name := name;
       Campaign.description := description;
       Campaign.campaign_type := campaign_type;
       Campaign.subject := subject; Campaign.content := content;
       Campaign.segment_id := segment_id; Campaign.status := "draft";
       Campaign.schedule_time := schedule_time;
       Campaign.start_date := None; Campaign.end_date := None;
       Campaign.budget := budget; Campaign.cost_per_send := (1 # 100)%Q;
       Campaign.workflow_steps := None;
       Campaign.created_at := created; Campaign.updated_at := updated;
       Campaign.results :=
         Some (CampaignResult.default new_id results_updated) |} in
  (set_campaigns st (<[new_id := campaign]> (campaigns st)), campaign).

Definition launch_campaign (now stamp stamp_results : Z) (d : Draws)
    (campaign_id : Z) (st : Store) : result (Store * option Campaign.t) :=
  match campaigns st !! campaign_id with
  | None => Ok (st, None)
  | Some campaign =>
      if negb (String.eqb (Campaign.status campaign) "draft") then
        Ok (st, Some campaign)
      else
        segment_customers ← get_segment_customers st (Campaign.segment_id campaign);
        let audience_size := audience_of d segment_customers in
        let campaign :=
          launched now stamp stamp_results d audience_size campaign in
        Ok (set_campaigns st (<[campaign_id := campaign]> (campaigns st)),
            Some campaign)
  end.

(** [pause_campaign]; the commit writes the row, whose status is new, and
    the ORM sets [updated_at] to the time [stamp] it reads then. *)
Definition pause_campaign (stamp : Z) (campaign_id : Z) (st : Store)
  : Store * option Campaign.t :=
  match campaigns st !! campaign_id with
  | Some campaign =>
      if String.eqb (Campaign.status campaign) "active" then
        let campaign := Campaign.set_status campaign "paused" in
        let campaign := Campaign.set_updated_at campaign stamp in
        (set_campaigns st (<[campaign_id := campaign]> (campaigns st)),
         Some campaign)
      else (st, Some campaign)
  | None => (st, None)
  end.

Definition resume_campaign (stamp : Z) (campaign_id : Z) (st : Store)
  : Store * option Campaign.t :=
  match campaigns st !! campaign_id with
  | Some campaign =>
      if String.eqb (Campaign.status campaign) "paused" then
        let campaign := Campaign.set_status campaign "active" in
        let campaign := Campaign.set_updated_at campaign stamp in
        (set_campaigns st (<[campaign_id := campaign]> (campaigns st)),
         Some campaign)
      else (st, Some campaign)
  | None => (st, None)
  end.

(** [complete_campaign]; the commit writes the row unless the status and
    the end date it assigned are the ones the row had. *)
Definition complete_campaign (now stamp : Z) (campaign_id : Z) (st : Store)
  : Store * option Campaign.t :=
  match campaigns st !! campaign_id with
  | Some old =>
      let campaign := Campaign.set_status old "completed" in
      let campaign := Campaign.set_end_date campaign (Some now) in
      let campaign :=
        if String.eqb (Campaign.status old) "completed"
           && opt_eqb Z.eqb (Campaign.end_date old) (Some now)
        then campaign
        else Campaign.set_updated_at campaign stamp in
      (set_campaigns st (<[campaign_id := campaign]> (campaigns st)),
       Some campaign)
  | None => (st, None)
  end.

End Campaigns.

(** ** Analytics services *)

Module Analytics.
Record overview := mk {
  total_campaigns : Z;
  active_campaigns : Z;
  completed_campaigns : Z;
  draft_campaigns : Z;
  total_sent : Z;
  total_opens : Z;
  total_clicks : Z;
  total_conversions : Z;
  overall_open_rate : Q;
  overall_click_rate : Q;
  overall_conversion_rate : Q;
  total_revenue : Q;
  total_cost : Q;
  overall_roi : Q;
  total_customers : Z;
  total_segments : Z;
  total_leads : Z
}.

(** [sum(...)] over integers and over floats *)
Definition sum_Z (l : list Z) : Z := fold_left Z.add l 0.
Definition sum_Q (l : list Q) : Q := fold_left Qplus l 0%Q.

(** [len([x for x in l if p(x)])] *)
Definition count {A} (p : A -> bool) (l : list A) : Z :=
  Z.of_nat (length (filter (fun x => p x = true) l)).

(** [Campaign.query.all()], [CampaignResult.query.all()] and
    [Segment.query] *)
Definition all_campaigns (st : Store) : list Campaign.t :=
  (map_to_list (campaigns st)).*2.
Definition all_results (st : Store) : list CampaignResult.t :=
  omap Campaign.results (all_campaigns st).
Definition all_segments (st : Store) : list Segment.t :=
  (map_to_list (segments st)).*2.

Definition has_status (s : string) (c : Campaign.t) : bool :=
  String.eqb (Campaign.status c) s.

Definition get_analytics_overview (st : Store) : result overview :=
  let campaigns := all_campaigns st in
  let results := all_results st in
  let total_campaigns := Z.of_nat (length campaigns) in
  let active_campaigns := count (has_status "active") campaigns in
  let total_sent := sum_Z (map CampaignResult.total_sent results) in
  let total_opens := sum_Z (map CampaignResult.opens results) in
  let total_clicks := sum_Z (map CampaignResult.clicks results) in
  let total_conversions := sum_Z (map CampaignResult.conversions results) in
  let total_revenue := sum_Q (map CampaignResult.revenue_attributed results) in
  let total_cost := sum_Q (map CampaignResult.total_cost results) in
  overall_open_rate ←
    (if Z.ltb 0 total_sent
     then percent (inject_Z total_opens) (inject_Z total_sent) else Ok 0%Q);
  overall_click_rate ←
    (if Z.ltb 0 total_opens
     then percent (inject_Z total_clicks) (inject_Z total_opens) else Ok 0%Q);
  overall_conversion_rate ←
    (if Z.ltb 0 total_clicks
     then percent (inject_Z total_conversions) (inject_Z total_clicks)
     else Ok 0%Q);
  overall_roi ←
    (if negb (Qle_bool total_cost 0)
     then percent (total_revenue - total_cost) total_cost else Ok 0%Q);
  Ok
  {| total_campaigns := total_campaigns;
     active_campaigns := active_campaigns;
     completed_campaigns := count (has_status "completed") campaigns;
     draft_campaigns := count (has_status "draft") campaigns;
     total_sent := total_sent;
     total_opens := total_opens;
     total_clicks := total_clicks;
     total_conversions := total_conversions;
     overall_open_rate := overall_open_rate;
     overall_click_rate := overall_click_rate;
     overall_conversion_rate := overall_conversion_rate;
     total_revenue := total_revenue;
     total_cost := total_cost;
     overall_roi := overall_roi;
     total_customers := Z.of_nat (length (customers st));
     total_segments := count Segment.is_active (all_segments st);
     total_leads :=
       count (fun c => String.eqb (Customer.status c) "lead") (customers st) |}.

(** The sum the overview does not compute: delivered messages over all
    results (as [get_conversion_funnel] has it). *)
Definition total_delivered (st : Store) : Z :=
  sum_Z (map CampaignResult.delivered (all_results st)).
End Analytics.

(** ** A concrete instance of the library functions

    Used to run the model on the scenarios below.  The decoder knows the
    documents of those scenarios; [float] reads plain decimal integers;
    lower-casing is the ASCII one. *)

Module Demo.
Definition dq : string := String (ascii_of_nat 34) EmptyString.
Definition quoted (s : string) : string := dq ++ s ++ dq.

(** [json.dumps] of the criteria of the "New Leads" segment *)
Definition lead_text : string :=
  "{" ++ quoted "rules" ++ ": [{" ++ quoted "field" ++ ": " ++ quoted "status"
  ++ ", " ++ quoted "operator" ++ ": " ++ quoted "eq" ++ ", "
  ++ quoted "value" ++ ": " ++ quoted "lead" ++ "}], "
  ++ quoted "match" ++ ": " ++ quoted "all" ++ "}".

Definition lead_criteria : pyval :=
  PDict [("rules", PList [PDict [("field", PStr "status");
                                 ("operator", PStr "eq");
                                 ("value", PStr "lead")]]);
         ("match", PStr "all")].

Definition lower_ascii (a : ascii) : ascii :=
  let n := nat_of_ascii a in
  if (Nat.leb 65 n && Nat.leb n 90)%bool then ascii_of_nat (n + 32) else a.

Fixpoint lower (s : string) : string :=
  match s with
  | EmptyString => EmptyString
  | String a rest => String (lower_ascii a) (lower rest)
  end.

#[export] Instance builtins : PyBuiltins := {|
  json_loads s := assoc s [(lead_text, lead_criteria)];
  float_of_str s :=
    match NilZero.int_of_string s with
    | Some i => Some (inject_Z (Z.of_int i))
    | None => None
    end;
  str_other _ := "object";
  str_lower := lower
|}.

(** The names, other than the columns, that [getattr] finds on a customer
    in the scenarios: the methods of the class and the attributes the ORM
    gives every model are objects, the back reference to the activity log
    is a list, empty here.  Names that start with an underscore are not
    used. *)
Definition object_names : list string :=
  ["get_demographics"; "set_demographics"; "get_purchase_history";
   "set_purchase_history"; "get_behavioral_data"; "set_behavioral_data";
   "to_dict"; "query"; "metadata"; "registry"].

#[export] Instance attributes : Customer.attributes := {|
  Customer.other_attribute c attr :=
    if existsb (String.eqb attr) object_names then Some (PObject (Customer.id c))
    else if String.eqb attr "campaign_activities" then Some (PList [])
    else None
|}.

Definition customer (id : Z) (status : string) (phone : option string)
  : Customer.t :=
  {| Customer.id := id; Customer.name := "Ada";
     Customer.email := "ada" ++ pretty id ++ "@example.com";
     Customer.phone := phone; Customer.demographics := None;
     Customer.purchase_history := None; Customer.behavioral_data := None;
     Customer.total_spent := 0%Q; Customer.lifetime_value := 0%Q;
     Customer.engagement_score := 50; Customer.status := status;
     Customer.lead_source := None; Customer.created_at := 0;
     Customer.updated_at := 0 |}.

Definition new_leads : Segment.t :=
  {| Segment.id := 1; Segment.name := "New Leads";
     Segment.description := None; Segment.criteria := lead_text;
     Segment.segment_type := "manual"; Segment.customer_count := 0;
     Segment.is_active := true; Segment.created_at := 0;
     Segment.updated_at := 0 |}.

(** Three customers: lead, customer, lead. *)
Definition store : Store :=
  {| customers := [customer 1 "lead" None; customer 2 "customer" None;
                   customer 3 "lead" (Some "555-0100")];
     segments := {[ 1 := new_leads ]};
     campaigns := ∅;
     segment_customers := [] |}.

(** One admissible outcome of every call to the [random] module. *)
Definition draws : Draws :=
  {| fallback_audience := 200; delivery := 95 # 100;
     email_open := 20 # 100; email_click := 20 # 100;
     social_reach := 3; social_open := 5 # 100; social_click := 30 # 100;
     ads_reach := 10; ads_click := 3 # 100;
     conversion := 10 # 100; coin := 3 # 4;
     lead_gen := 20 # 100; lead_conv := 30 # 100; order_value := 100 |}.

(** The store after [create_campaign] of an e-mail campaign (key 7) for
    the "New Leads" segment at time 100, and of one (key 8) for a segment
    that does not exist, with a negative budget, at time 200. *)
Definition with_campaign : Store :=
  (create_campaign 7 100 100 100 "Summer Sale" 1 "email" None None None 500
     None store).1.

Definition summer_sale : Campaign.t :=
  (create_campaign 7 100 100 100 "Summer Sale" 1 "email" None None None 500
     None store).2.

Definition with_campaigns : Store :=
  (create_campaign 8 200 200 200 "Refund" 99 "email" None None None (-1000)
     None with_campaign).1.

Definition refund : Campaign.t :=
  (create_campaign 8 200 200 200 "Refund" 99 "email" None None None (-1000)
     None with_campaign).2.

(** Two rules combined with [any]: [status eq customer], [status eq lead]. *)
Definition either_rules : list pyval :=
  [rule_doc (PStr "status") (PStr "eq") (PStr "customer");
   rule_doc (PStr "status") (PStr "eq") (PStr "lead")].

Definition either_criteria : list (string * pyval) :=
  [("rules", PList either_rules); ("match", PStr "any")].

(** The result row of campaign 8 once launched with [draws] and written
    at time 1001: segment 99 has no customer, 200 messages are simulated,
    and the cost is [200 * 0.01 + (-1000) * 0.5]. *)
Definition overspent : CampaignResult.t :=
  {| CampaignResult.campaign_id := 8;
     CampaignResult.total_sent := 200; CampaignResult.delivered := 190;
     CampaignResult.bounced := 10; CampaignResult.opens := 38;
     CampaignResult.clicks := 7; CampaignResult.unsubscribes := 0;
     CampaignResult.impressions := 0; CampaignResult.conversions := 1;
     CampaignResult.leads_generated := 2; CampaignResult.leads_converted := 1;
     CampaignResult.revenue_attributed := 100;
     CampaignResult.total_cost := -99600 # 200;
     CampaignResult.updated_at := 1001 |}.

(** The launch at time 1000, both rows written at time 1001. *)
Definition after_launch (st : Store) (campaign_id : Z) : Store :=
  match launch_campaign 1000 1001 1001 draws campaign_id st with
  | Ok (st', _) => st'
  | Raise _ => st
  end.
End Demo.

From Stdlib Require Import Sorted.

(** ** Reports (services.py, analytics section) *)

(** [sorted(rows, key=..., reverse=True)]: the stable sort by decreasing
    key.  A stable sort has one result, so insertion computes it: an
    element goes in front of the first one whose key is not larger. *)
Fixpoint insert_desc {A} (key : A -> Q) (x : A) (l : list A) : list A :=
  match l with
  | [] => [x]
  | y :: rest =>
      if Qle_bool (key y) (key x) then x :: y :: rest
      else y :: insert_desc key x rest
  end.

Fixpoint sorted_desc {A} (key : A -> Q) (l : list A) : list A :=
  match l with
  | [] => []
  | x :: rest => insert_desc key x (sorted_desc key rest)
  end.

(** [a] may stand before [b] in a list sorted by decreasing [key]. *)
Definition key_ge {A} (key : A -> Q) (a b : A) : Prop := (key b <= key a)%Q.

Module Reports.







Record stage := mk_stage {
  stage_name : string;
  count : Z;
  percentage : Q
}.

Definition get_conversion_funnel (st : Store) : result (list stage) :=
  let results := Analytics.all_results st in
  let total_sent := Analytics.sum_Z (map CampaignResult.total_sent results) in
  let total_delivered := Analytics.sum_Z (map CampaignResult.delivered results) in
  let total_opens := Analytics.sum_Z (map CampaignResult.opens results) in
  let total_clicks := Analytics.sum_Z (map CampaignResult.clicks results) in
  let total_leads := Analytics.sum_Z (map CampaignResult.leads_generated results) in
  let total_conversions := Analytics.sum_Z (map CampaignResult.conversions results) in
  let share (n : Z) : result Q :=
    if Z.ltb 0 total_sent then percent (inject_Z n) (inject_Z total_sent)
    else Ok 0%Q in
  delivered ← share total_delivered;
  opened ← share total_opens;
  clicked ← share total_clicks;
  leads ← share total_leads;
  converted ← share total_conversions;
  Ok [ mk_stage "Sent" total_sent 100%Q;
       mk_stage "Delivered" total_delivered delivered;
       mk_stage "Opened" total_opens opened;
       mk_stage "Clicked" total_clicks clicked;
       mk_stage "Leads" total_leads leads;
       mk_stage "Converted" total_conversions converted ].

Record segment_row := mk_segment_row {
  segment_id : Z;
  segment_name : string;
  customer_count : Z;
  total_campaigns : Z;
  total_conversions : Z;
  total_revenue : Q
}.

(** The inner loop of [get_segment_performance]: the two running totals. *)
Definition add_campaign (totals : Z * Q) (campaign : Campaign.t) : Z * Q :=
  match Campaign.results campaign with
  | Some results =>
      (totals.1 + CampaignResult.conversions results,
       (totals.2 + CampaignResult.revenue_attributed results)%Q)
  | None => totals
  end.

Definition segment_row_of (st : Store) (segment : Segment.t) : segment_row :=
  let campaigns :=
    List.filter (fun c => Z.eqb (Campaign.segment_id c) (Segment.id segment))
                (Analytics.all_campaigns st) in
  let totals := fold_left add_campaign campaigns (0, 0%Q) in
  {| segment_id := Segment.id segment;
     segment_name := Segment.name segment;
     customer_count := Segment.customer_count segment;
     total_campaigns := Z.of_nat (length campaigns);
     total_conversions := totals.1;
     total_revenue := totals.2 |}.

Definition get_segment_performance (st : Store) : list segment_row :=
  let segments := List.filter Segment.is_active (Analytics.all_segments st) in
  let performance := map (segment_row_of st) segments in
  sorted_desc total_revenue performance.

End Reports.

(** ** Accounts, customers and segment creation (services.py) *)

(** A [db.session.commit()] that a uniqueness constraint can reject. *)
Inductive commit (A : Type) : Type :=
| Committed (a : A)
| IntegrityError.
Arguments Committed {A} a.
Arguments IntegrityError {A}.

(** [hashlib.sha256(s.encode()).hexdigest()] and [json.dumps] *)
Class Sha256 := { sha256_hex : string -> string }.
Class JsonEncoder := { json_dumps : pyval -> string }.

Module User.
Record t := mk {
  id : Z;
  username : string;
  password_hash : string;
  email : option string;
  role : string;
  created_at : Z
}.
End User.

Section Authentication.
Context `{Sha256}.

Definition hash_password (password : string) : string := sha256_hex password.

Definition verify_password (password password_hash : string) : bool :=
  String.eqb (hash_password password) password_hash.

(** A row with this user name, or with this (non-null) e-mail, exists. *)
Definition username_taken (users : list User.t) (username : string) : bool :=
  existsb (fun u => String.eqb (User.username u) username) users.

Definition email_taken (users : list User.t) (email : option string) : bool :=
  match email with
  | Some e => existsb (fun u => match User.email u with
                                | Some e' => String.eqb e' e
                                | None => false
                                end) users
  | None => false
  end.

(** [create_user]; the key and the creation time are inputs, the table is
    the state. *)
Definition create_user (new_id now : Z) (username password : string)
    (email : option string) (role : string) (users : list User.t)
  : commit (list User.t * User.t) :=
  let user :=
    {| User.id := new_id; User.username := username;
       User.password_hash := hash_password password;
       User.email := email; User.role := role; User.created_at := now |} in
  if username_taken users username || email_taken users email
  then IntegrityError
  else Committed (users ++ [user], user).

(** [User.query.filter_by(username=username).first()] *)
Definition first_by_username (users : list User.t) (username : string)
  : option User.t :=
  List.find (fun u => String.eqb (User.username u) username) users.

Definition authenticate_user (username password : string) (users : list User.t)
  : option User.t :=
  match first_by_username users username with
  | Some user =>
      if verify_password password (User.password_hash user) then Some user
      else None
  | None => None
  end.

Definition get_user_by_id (user_id : Z) (users : list User.t) : option User.t :=
  List.find (fun u => Z.eqb (User.id u) user_id) users.

End Authentication.

Definition set_customers (st : Store) (l : list Customer.t) : Store :=
  mkStore l (segments st) (campaigns st) (segment_customers st).

Section Creation.
Context `{PyBuiltins} `{Customer.attributes} `{JsonEncoder}.

(** [Customer.set_demographics] *)
Definition set_demographics (self : Customer.t) (data : pyval) : Customer.t :=
  {| Customer.id := Customer.id self; Customer.name := Customer.name self;
     Customer.email := Customer.email self; Customer.phone := Customer.phone self;
     Customer.demographics := Some (json_dumps data);
     Customer.purchase_history := Customer.purchase_history self;
     Customer.behavioral_data := Customer.behavioral_data self;
     Customer.total_spent := Customer.total_spent self;
     Customer.lifetime_value := Customer.lifetime_value self;
     Customer.engagement_score := Customer.engagement_score self;
     Customer.status := Customer.status self;
     Customer.lead_source := Customer.lead_source self;
     Customer.created_at := Customer.created_at self;
     Customer.updated_at := Customer.updated_at self |}.

(** [create_customer]; the key and the two timestamps the column defaults
    produce are inputs. *)
Definition create_customer (new_id created updated : Z) (name email : string)
    (phone : option string) (demographics : pyval) (status : string)
    (lead_source : option string) (st : Store) : commit (Store * Customer.t) :=
  let customer :=
    {| Customer.id := new_id; Customer.name := name; Customer.email := email;
       Customer.phone := phone; Customer.demographics := None;
       Customer.purchase_history := None; Customer.behavioral_data := None;
       Customer.total_spent := 0%Q; Customer.lifetime_value := 0%Q;
       Customer.engagement_score := 0; Customer.status := status;
       Customer.lead_source := lead_source;
       Customer.created_at := created; Customer.updated_at := updated |} in
  let customer :=
    if py_truthy demographics then set_demographics customer demographics
    else customer in
  if existsb (fun c => String.eqb (Customer.email c) email) (customers st)
  then IntegrityError
  else Committed (set_customers st (customers st ++ [customer]), customer).

Definition get_customer_by_id (customer_id : Z) (st : Store) : option Customer.t :=
  List.find (fun c => Z.eqb (Customer.id c) customer_id) (customers st).

(** The text [create_segment] stores for the criteria it is given. *)
Definition criteria_text (criteria : pyval) : string :=
  match criteria with
  | PDict _ => json_dumps criteria
  | PStr text => text
  | _ => json_dumps criteria
  end.

(** [create_segment]: the row is committed first, then refreshed.  When the
    refresh raises, the committed row stays; the store returned is the one
    the database holds at the end of the call.  The key, the times the
    column defaults read ([created], [updated]) and the time of the commit
    of the refresh ([stamp]) are inputs. *)
Definition create_segment (new_id created updated stamp : Z) (name : string)
    (criteria : pyval) (description : option string) (segment_type : string)
    (st : Store) : Store * result Segment.t :=
  let segment :=
    {| Segment.id := new_id; Segment.name := name;
       Segment.description := description;
       Segment.criteria := criteria_text criteria;
       Segment.segment_type := segment_type;
       Segment.customer_count := 0; Segment.is_active := true;
       Segment.created_at := created; Segment.updated_at := updated |} in
  let st1 := set_segments st (<[new_id := segment]> (segments st)) in
  match refresh_segment stamp st1 new_id with
  | Ok (st2, Some refreshed) => (st2, Ok refreshed)
  | Ok (st2, None) => (st2, Ok segment)
  | Raise e => (st1, Raise e)
  end.

Definition get_all_segments (st : Store) : list Segment.t :=
  List.filter Segment.is_active (Analytics.all_segments st).

Definition get_segment_by_id (segment_id : Z) (st : Store) : option Segment.t :=
  segments st !! segment_id.

(** The criteria the [POST /segments] handler passes on (routes.py): a
    string is wrapped into a rule-less document. *)
Definition request_criteria (data : pyval) : result pyval :=
  criteria ← py_get data "criteria" (PDict []);
  match criteria with
  | PStr text =>
      Ok (PDict [("rules", PList []); ("match", PStr "all");
                 ("description", PStr text)])
  | _ => Ok criteria
  end.

End Creation.

(** ** The campaign operations as transitions *)

Section Transitions.
Context `{PyBuiltins} `{Customer.attributes}.

(** One service call that changes the store. *)
Inductive step : Store -> Store -> Prop :=
| step_create (st : Store) (new_id created updated results_updated : Z)
    (name : string) (segment_id : Z)
    (campaign_type : string) (subject content : option string)
    (schedule_time : option Z) (budget : Q) (description : option string) :
    campaigns st !! new_id = None ->
    step st (create_campaign new_id created updated results_updated name
               segment_id campaign_type subject content schedule_time budget
               description st).1
| step_launch (st st' : Store) (now stamp stamp_results : Z) (d : Draws)
    (campaign_id : Z) (r : option Campaign.t) :
    draws_in_range d ->
    launch_campaign now stamp stamp_results d campaign_id st = Ok (st', r) ->
    step st st'
| step_pause (st : Store) (stamp : Z) (campaign_id : Z) :
    step st (pause_campaign stamp campaign_id st).1
| step_resume (st : Store) (stamp : Z) (campaign_id : Z) :
    step st (resume_campaign stamp campaign_id st).1
| step_complete (st : Store) (now stamp : Z) (campaign_id : Z) :
    step st (complete_campaign now stamp campaign_id st).1
| step_refresh (st st' : Store) (stamp : Z) (segment_id : Z)
    (r : option Segment.t) :
    refresh_segment stamp st segment_id = Ok (st', r) ->
    step st st'.

End Transitions.

(** The ordering of the counters of a result row. *)
Record funnel_ordered (r : CampaignResult.t) : Prop := {
  clicks_nonneg : 0 <= CampaignResult.clicks r;
  clicks_le_opens : CampaignResult.clicks r <= CampaignResult.opens r;
  opens_le_delivered : CampaignResult.opens r <= CampaignResult.delivered r;
  delivered_le_sent : CampaignResult.delivered r <= CampaignResult.total_sent r;
  bounced_rest :
    CampaignResult.bounced r
    = CampaignResult.total_sent r - CampaignResult.delivered r;
  conversions_bounds :
    0 <= CampaignResult.conversions r <= CampaignResult.clicks r;
  leads_generated_bounds :
    0 <= CampaignResult.leads_generated r <= CampaignResult.clicks r;
  leads_converted_bounds :
    0 <= CampaignResult.leads_converted r <= CampaignResult.leads_generated r;
  revenue_nonneg : (0 <= CampaignResult.revenue_attributed r)%Q
}.

(** What holds of the campaign row stored under [key]: it carries its key,
    its status is one of the four the operations write, it owns a result
    row with ordered counters, which is still the default one as long as
    the campaign was never started, and its dates follow its status. *)
Record campaign_ok (key : Z) (c : Campaign.t) : Prop := {
  key_is_id : Campaign.id c = key;
  status_known :
    In (Campaign.status c) ["draft"; "active"; "paused"; "completed"];
  has_results :
    exists r, Campaign.results c = Some r
              /\ CampaignResult.campaign_id r = key
              /\ funnel_ordered r
              /\ (Campaign.start_date c = None ->
                  r = CampaignResult.default key (CampaignResult.updated_at r));
  draft_unstarted :
    Campaign.status c = "draft" -> Campaign.start_date c = None;
  running_started :
    Campaign.status c = "active" \/ Campaign.status c = "paused" ->
    is_Some (Campaign.start_date c);
  ended : is_Some (Campaign.end_date c) <-> Campaign.status c = "completed"
}.

Definition store_ok (st : Store) : Prop :=
  map_Forall campaign_ok (campaigns st).

(** No character of [s] is a dot. *)
Definition dot_free (s : string) : Prop :=
  forallb (fun a => negb (Ascii.eqb a "."%char)) (list_ascii_of_string s) = true.


(** The three counters the channel decides, as [simulate] computes them. *)
Definition engagement (d : Draws) (n : Z) (campaign_type : string) : Z * Z :=
  let delivered := py_int (inject_Z n * delivery d) in
  if String.eqb campaign_type "email" then
    let opens := py_int (inject_Z delivered * email_open d) in
    (opens, py_int (inject_Z opens * email_click d))
  else if String.eqb campaign_type "social" then
    let opens := py_int (inject_Z (n * social_reach d) * social_open d) in
    (opens, py_int (inject_Z opens * social_click d))
  else
    let clicks := py_int (inject_Z (n * ads_reach d) * ads_click d) in
    (clicks, clicks).


(** The draws [d] with another outcome of [random.random()]. *)
Definition set_coin (d : Draws) (q : Q) : Draws :=
  {| fallback_audience := fallback_audience d; delivery := delivery d;
     email_open := email_open d; email_click := email_click d;
     social_reach := social_reach d; social_open := social_open d;
     social_click := social_click d; ads_reach := ads_reach d;
     ads_click := ads_click d; conversion := conversion d; coin := q;
     lead_gen := lead_gen d; lead_conv := lead_conv d;
     order_value := order_value d |}.

(** Modelled from the spec: the simulation model of the launch.  [new] is
    the result row [old] once populated for [sent] messages of a campaign
    of channel [channel], with the given cost per send and budget and the
    draws [d]: delivered = sent x uniform(0.92, 0.98), bounced = sent -
    delivered, the engagement of the channel (email, social, other), the
    conversions (one conversion with probability one half when the raw
    figure is below 1 and there are clicks, its ceiling otherwise), the
    leads, revenue = conversions x the order value, cost = sent x cost per
    send + half of the budget.  Counters are whole numbers: a product by a
    rate is cut to its integer part. *)
Record populated (d : Draws) (channel : string) (cost_per_send budget : Q)
    (sent : Z) (old new : CampaignResult.t) : Prop := {
  populated_sent : CampaignResult.total_sent new = sent;
  populated_delivered :
    CampaignResult.delivered new = py_int (inject_Z sent * delivery d);
  populated_bounced :
    CampaignResult.bounced new = sent - CampaignResult.delivered new;
  populated_email :
    channel = "email" ->
    CampaignResult.opens new
    = py_int (inject_Z (CampaignResult.delivered new) * email_open d)
    /\ CampaignResult.clicks new
       = py_int (inject_Z (CampaignResult.opens new) * email_click d)
    /\ CampaignResult.impressions new = CampaignResult.impressions old;
  populated_social :
    channel = "social" ->
    CampaignResult.impressions new = sent * social_reach d
    /\ CampaignResult.opens new
       = py_int (inject_Z (CampaignResult.impressions new) * social_open d)
    /\ CampaignResult.clicks new
       = py_int (inject_Z (CampaignResult.opens new) * social_click d);
  populated_other :
    channel <> "email" -> channel <> "social" ->
    CampaignResult.impressions new = sent * ads_reach d
    /\ CampaignResult.clicks new
       = py_int (inject_Z (CampaignResult.impressions new) * ads_click d)
    /\ CampaignResult.opens new = CampaignResult.clicks new;
  populated_one_conversion :
    (inject_Z (CampaignResult.clicks new) * conversion d < 1)%Q ->
    0 < CampaignResult.clicks new ->
    (1 # 2 < coin d)%Q ->
    CampaignResult.conversions new = 1;
  populated_conversions :
    ~ ((inject_Z (CampaignResult.clicks new) * conversion d < 1)%Q
       /\ 0 < CampaignResult.clicks new /\ (1 # 2 < coin d)%Q) ->
    CampaignResult.conversions new
    = Qceiling (inject_Z (CampaignResult.clicks new) * conversion d);
  populated_leads_generated :
    CampaignResult.leads_generated new
    = Qceiling (inject_Z (CampaignResult.clicks new) * lead_gen d);
  populated_leads_converted :
    CampaignResult.leads_converted new
    = Qceiling (inject_Z (CampaignResult.leads_generated new) * lead_conv d);
  populated_revenue :
    CampaignResult.revenue_attributed new
    = (inject_Z (CampaignResult.conversions new) * order_value d)%Q;
  populated_cost :
    CampaignResult.total_cost new
    = (inject_Z sent * cost_per_send + budget * (1 # 2))%Q;
  populated_unsubscribes :
    CampaignResult.unsubscribes new = CampaignResult.unsubscribes old;
  populated_campaign_id :
    CampaignResult.campaign_id new = CampaignResult.campaign_id old
}.

(** The two campaign rows agree on every column except [status] and
    [updated_at], and own the same result row. *)
Record same_but_status (a b : Campaign.t) : Prop := {
  same_id : Campaign.id b = Campaign.id a;
  same_name : Campaign.name b = Campaign.name a;
  same_description : Campaign.description b = Campaign.description a;
  same_campaign_type : Campaign.campaign_type b = Campaign.campaign_type a;
  same_subject : Campaign.subject b = Campaign.subject a;
  same_content : Campaign.content b = Campaign.content a;
  same_segment_id : Campaign.segment_id b = Campaign.segment_id a;
  same_schedule_time : Campaign.schedule_time b = Campaign.schedule_time a;
  same_start_date : Campaign.start_date b = Campaign.start_date a;
  same_end_date : Campaign.end_date b = Campaign.end_date a;
  same_budget : Campaign.budget b = Campaign.budget a;
  same_cost_per_send : Campaign.cost_per_send b = Campaign.cost_per_send a;
  same_workflow_steps : Campaign.workflow_steps b = Campaign.workflow_steps a;
  same_created_at : Campaign.created_at b = Campaign.created_at a;
  same_results : Campaign.results b = Campaign.results a
}.


(** The campaigns the ROI report is about: active or completed, with a
    result row. *)
Definition in_roi_report (campaign : Campaign.t) : Prop :=
  (Campaign.status campaign = "active"
   \/ Campaign.status campaign = "completed")
  /\ is_Some (Campaign.results campaign).

#[global] Instance in_roi_report_dec (campaign : Campaign.t) :
  Decision (in_roi_report campaign).
Proof. unfold in_roi_report. apply _. Defined.

(** The two stores differ at most in the campaign row [campaign_id]. *)
Definition only_campaign_changed (campaign_id : Z) (st st' : Store) : Prop :=
  customers st' = customers st
  /\ segments st' = segments st
  /\ segment_customers st' = segment_customers st
  /\ (forall other, other <> campaign_id ->
      campaigns st' !! other = campaigns st !! other).

(** ** More concrete data for the scenarios *)

Module Demo2.

(** The refresh whose commit happens at time 50. *)
Definition after_refresh (st : Store) (segment_id : Z) : Store :=
  match refresh_segment (H := Demo.builtins) (H0 := Demo.attributes) 50 st
          segment_id with
  | Ok (st', _) => st'
  | Raise _ => st
  end.

(** Campaign 8 as the launch with [Demo.draws] leaves it. *)
Definition launched_refund : Campaign.t :=
  launched 1000 1001 1001 Demo.draws 200 Demo.refund.

Definition lead_rule : pyval :=
  rule_doc (PStr "status") (PStr "eq") (PStr "lead").

Definition customer_rule : pyval :=
  rule_doc (PStr "status") (PStr "eq") (PStr "customer").



(** [json.dumps({"age": 30})] *)
Definition age_text : string := "{" ++ Demo.quoted "age" ++ ": 30}".
Definition age_doc : pyval := PDict [("age", PInt 30)].

(** A decoder and an encoder that know the documents of the scenarios,
    and an injective stand-in for the digest. *)
Definition decoder : PyBuiltins := {|
  json_loads s :=
    assoc s [(Demo.lead_text, Demo.lead_criteria); ("{}", PDict []);
             (age_text, age_doc)];
  float_of_str := float_of_str (PyBuiltins := Demo.builtins);
  str_other := str_other (PyBuiltins := Demo.builtins);
  str_lower := Demo.lower
|}.

Definition encoder : JsonEncoder := {|
  json_dumps v :=
    if py_eq v age_doc then age_text
    else if py_eq v Demo.lead_criteria then Demo.lead_text
    else match v with
         | PDict [] => "{}"
         | _ => "null"
         end
|}.

Definition hasher : Sha256 := {| sha256_hex s := ("sha256:" ++ s)%string |}.

Definition admin : User.t :=
  {| User.id := 1; User.username := "admin";
     User.password_hash := "sha256:admin123";
     User.email := Some "admin@example.com"; User.role := "admin";
     User.created_at := 0 |}.

(** The customer [create_customer] stores for Grace, with [{"age": 30}]. *)
Definition grace : Customer.t :=
  {| Customer.id := 4; Customer.name := "Grace";
     Customer.email := "grace@example.com"; Customer.phone := None;
     Customer.demographics := Some age_text;
     Customer.purchase_history := None; Customer.behavioral_data := None;
     Customer.total_spent := 0%Q; Customer.lifetime_value := 0%Q;
     Customer.engagement_score := 0; Customer.status := "lead";
     Customer.lead_source := None; Customer.created_at := 10;
     Customer.updated_at := 10 |}.

Definition with_grace : Store :=
  set_customers Demo.store (customers Demo.store ++ [grace]).

End Demo2.

(** * Properties *)

(** ** The rule interpreter *)

Section EvaluatorFacts.
Context `{PyBuiltins} `{Customer.attributes}.

Lemma py_eq_str (v : pyval) (s : string) :
  py_eq v (PStr s) = true <-> v = PStr s.
Proof.
  destruct v; simpl; try (split; [discriminate | congruence]).
  rewrite String.eqb_eq. split; congruence.
Qed.

Lemma evaluate_rule_None (operator expected_value : pyval) :
  evaluate_rule PNone operator expected_value = Ok false.
Proof. reflexivity. Qed.

Lemma py_get_dict (rule : pyval) (k : string) (dflt v : pyval) :
  py_get rule k dflt = Ok v -> exists d, rule = PDict d.
Proof. destruct rule; simpl; try discriminate. eauto. Qed.

Lemma evaluate_one_doc (c : Customer.t) (field operator value : pyval) :
  evaluate_one c (rule_doc field operator value)
  = (actual ← get_nested_value c field; evaluate_rule actual operator value).
Proof. reflexivity. Qed.

(** The exceptions the interpreter of a single comparison lets through. *)
Lemma py_float_raises (v : pyval) (e : exn) :
  py_float v = Raise e -> e = ValueError \/ e = TypeError \/ e = OverflowError.
Proof.
  destruct v; simpl; try (intros [= <-]; auto); try discriminate.
  - destruct (Z.ltb _ _); [discriminate | intros [= <-]; auto].
  - destruct (float_of_str s); [discriminate | intros [= <-]; auto].
Qed.

Lemma py_in_raises (a b : pyval) (e : exn) : py_in a b = Raise e -> e = TypeError.
Proof.
  destruct b; simpl; try (intros [= <-]; reflexivity); try discriminate.
  - destruct a; try discriminate; intros [= <-]; reflexivity.
  - destruct (hashable a); [discriminate | intros [= <-]; reflexivity].
Qed.

Lemma compare_raises (a b : pyval) (f : Q -> Q -> bool) (e : exn) :
  (x ← py_float a; y ← py_float b; Ok (f x y)) = Raise e ->
  e = ValueError \/ e = TypeError \/ e = OverflowError.
Proof.
  destruct (py_float a) eqn:Ea; simpl.
  - destruct (py_float b) eqn:Eb; simpl; [discriminate |].
    intros [= <-]. eapply py_float_raises; eassumption.
  - intros [= <-]. eapply py_float_raises; eassumption.
Qed.

(** [evaluate_rule] swallows [ValueError] and [TypeError]; the one
    exception that leaves it is [OverflowError]. *)
Lemma evaluate_rule_raises (actual operator expected : pyval) (e : exn) :
  evaluate_rule actual operator expected = Raise e -> e = OverflowError.
Proof.
  unfold evaluate_rule.
  assert (Hc : forall m : result bool,
    (forall x, m = Raise x -> x = ValueError \/ x = TypeError \/ x = OverflowError) ->
    catch_vt m = Raise e -> e = OverflowError).
  { intros [b | x] Hm; simpl; [discriminate |].
    destruct (Hm x eq_refl) as [-> | [-> | ->]]; simpl;
      try discriminate; congruence. }
  destruct actual; try discriminate; apply Hc; intros x;
    repeat match goal with
           | |- context [if ?b then _ else _] => destruct b
           end;
    try discriminate;
    try (apply compare_raises);
    try (intros Hx; apply py_in_raises in Hx; auto).
Qed.

(** A numeric comparison whose coercion fails with [ValueError] or
    [TypeError] is false. *)
Lemma numeric_coercion_failure (actual operator expected : pyval) (e : exn) :
  In operator [PStr "gt"; PStr "gte"; PStr "lt"; PStr "lte"] ->
  e = ValueError \/ e = TypeError ->
  py_float actual = Raise e \/
    (returns (py_float actual) /\ py_float expected = Raise e) ->
  evaluate_rule actual operator expected = Ok false.
Proof.
  intros Hop He Hfail. unfold evaluate_rule.
  destruct actual; try reflexivity;
    simpl in Hop; destruct Hop as [<- | [<- | [<- | [<- | []]]]]; simpl py_eq; cbv iota;
    (destruct Hfail as [-> | [[a ->] ->]]; simpl;
     destruct He as [-> | ->]; reflexivity).
Qed.

(** An operator outside of the eight known names is false. *)
Lemma unknown_operator (actual operator expected : pyval) :
  ~ In operator [PStr "eq"; PStr "neq"; PStr "gt"; PStr "gte"; PStr "lt";
                 PStr "lte"; PStr "contains"; PStr "in"] ->
  evaluate_rule actual operator expected = Ok false.
Proof.
  intros Hop. unfold evaluate_rule.
  assert (Hne : forall s, In (PStr s)
      [PStr "eq"; PStr "neq"; PStr "gt"; PStr "gte"; PStr "lt";
       PStr "lte"; PStr "contains"; PStr "in"] ->
      py_eq operator (PStr s) = false).
  { intros s Hs. destruct (py_eq operator (PStr s)) eqn:E; [| reflexivity].
    apply py_eq_str in E. subst. contradiction. }
  rewrite !Hne by (simpl; tauto).
  destruct actual; reflexivity.
Qed.

(** A path whose first part names neither a column nor anything else the
    object has, and a key that a bag does not hold, resolve to [None]. *)
Lemma other_name (c : Customer.t) (attr : string) (default : pyval) :
  ~ In attr Customer.columns ->
  Customer.getattr c attr default
  = match Customer.other_attribute c attr with
    | Some value => value
    | None => default
    end.
Proof.
  intros Hn. unfold Customer.getattr.
  repeat match goal with
         | |- context [String.eqb attr ?s] =>
             destruct (String.eqb_spec attr s) as [-> | _];
             [exfalso; apply Hn; simpl; tauto |]
         end.
  reflexivity.
Qed.

Lemma unknown_attribute (c : Customer.t) (attr : string) (default : pyval) :
  ~ In attr Customer.columns ->
  Customer.other_attribute c attr = None ->
  Customer.getattr c attr default = default.
Proof. intros Hn Ho. rewrite other_name, Ho by assumption. reflexivity. Qed.

(** A method or another object of the ORM is not null: it differs from
    every value a document can hold, and it is no number. *)
Lemma object_attribute (operator expected : pyval) (tag : Z) :
  (forall t, expected <> PObject t) ->
  evaluate_rule (PObject tag) operator expected
  = Ok (if py_eq operator (PStr "eq") then false
        else if py_eq operator (PStr "neq") then true
        else if py_eq operator (PStr "gt") then false
        else if py_eq operator (PStr "gte") then false
        else if py_eq operator (PStr "lt") then false
        else if py_eq operator (PStr "lte") then false
        else if py_eq operator (PStr "contains") then
          is_substring (str_lower (py_str expected))
                       (str_lower (str_other (PObject tag)))
        else if py_eq operator (PStr "in") then
          match expected with
          | PList l => existsb (py_eq (PObject tag)) l
          | _ => false
          end
        else false).
Proof.
  intros Hne. unfold evaluate_rule.
  assert (Heq : py_eq (PObject tag) expected = false).
  { destruct expected; try reflexivity. destruct (Hne tag0); reflexivity. }
  rewrite Heq.
  repeat match goal with
         | |- context [if ?b then _ else _] => destruct b; try reflexivity
         end.
  - destruct expected; try reflexivity. simpl. clear.
    induction d as [| [k v] d IH]; simpl; [reflexivity |]. exact IH.
Qed.

Lemma missing_key (kv : list (string * pyval)) (k : string) :
  assoc k kv = None -> py_get (PDict kv) k PNone = Ok PNone.
Proof. intros E. simpl. rewrite E. reflexivity. Qed.

(** Resolution itself is outside of the handler: a bag that decodes to a
    list has no [get], and the lookup of one of its keys raises. *)
Lemma list_bag_raises (c : Customer.t) (text : string) (l : list pyval) :
  Customer.demographics c = Some text ->
  text <> "" ->
  json_loads text = Some (PList l) ->
  get_nested_value c (PStr "demographics.age") = Raise AttributeError.
Proof.
  intros Hd Hne Hj.
  change (get_nested_value c (PStr "demographics.age"))
    with (data ← Customer.get_demographics c; py_get data "age" PNone).
  unfold Customer.get_demographics, loads_or. rewrite Hd.
  destruct (String.eqb_spec text ""); [contradiction |].
  rewrite Hj. reflexivity.
Qed.

(** C10. A rule whose field resolves to [None] is false, whatever its
    operator and expected value: [evaluate_rule] answers false on [None]
    before it looks at the operator, so a column that exists but holds
    null (a null [phone], say) satisfies no rule, [neq] included. *)
Theorem null_value_never_matches (c : Customer.t)
    (rule field_path operator expected_value : pyval) :
  py_get rule "field" (PStr "") = Ok field_path ->
  get_nested_value c field_path = Ok PNone ->
  evaluate_rule PNone operator expected_value = Ok false
  /\ evaluate_one c rule = Ok false.
Proof.
  intros Hf Hv. split; [reflexivity |].
  destruct (py_get_dict _ _ _ _ Hf) as [d ->].
  unfold evaluate_one. rewrite Hf. simpl. rewrite Hv. reflexivity.
Qed.

Lemma huge_int_out_of_range :
  Z.ltb (Z.abs huge_int) float_overflow_bound = false.
Proof. vm_compute. reflexivity. Qed.

Lemma py_float_huge : py_float (PInt huge_int) = Raise OverflowError.
Proof. unfold py_float. rewrite huge_int_out_of_range. reflexivity. Qed.

Lemma engagement_score_resolves (c : Customer.t) :
  get_nested_value c (PStr "engagement_score")
  = Ok (PInt (Customer.engagement_score c)).
Proof. reflexivity. Qed.

Lemma gte_on_int (z : Z) (expected : pyval) :
  evaluate_rule (PInt z) (PStr "gte") expected
  = catch_vt (a ← py_float (PInt z); b ← py_float expected; Ok (Qle_bool b a)).
Proof. reflexivity. Qed.

(** C2, at the input where the code departs from it.  The rule
    [engagement_score gte 10**400] raises [OverflowError] on every
    customer: [float(10**400)] fails with an exception that the handler
    of [evaluate_rule], which names [ValueError] and [TypeError], does
    not catch. *)
Theorem huge_operand_raises (c : Customer.t) :
  evaluate_one c (rule_doc (PStr "engagement_score") (PStr "gte") (PInt huge_int))
  = Raise OverflowError.
Proof.
  rewrite evaluate_one_doc, engagement_score_resolves.
  change (evaluate_rule (PInt (Customer.engagement_score c)) (PStr "gte")
            (PInt huge_int) = Raise OverflowError).
  rewrite gte_on_int, py_float_huge.
  unfold py_float. destruct (Z.ltb _ _); reflexivity.
Qed.

End EvaluatorFacts.

(** ** Combination of the rules of a criteria document *)

Section CriteriaFacts.
Context `{PyBuiltins} `{Customer.attributes}.

Lemma evaluate_all_cons (c : Customer.t) (r : pyval) (rs : list pyval) :
  evaluate_all c (r :: rs)
  = (b ← evaluate_one c r; bs ← evaluate_all c rs; Ok (b :: bs)).
Proof. reflexivity. Qed.

(** When no rule raises, the loop returns the list of the verdicts. *)
Lemma evaluate_all_returns (c : Customer.t) (rs : list pyval) :
  Forall (fun r => returns (evaluate_one c r)) rs ->
  returns (evaluate_all c rs).
Proof.
  induction 1 as [| r rs [b Hb] _ [bs Hbs]].
  - exists []. reflexivity.
  - exists (b :: bs). rewrite evaluate_all_cons, Hb, Hbs. reflexivity.
Qed.

Lemma all_verdicts (c : Customer.t) (rs : list pyval) :
  (bs ← evaluate_all c rs; Ok (forallb id bs)) = Ok true
  <-> Forall (fun r => evaluate_one c r = Ok true) rs.
Proof.
  induction rs as [| r rs IH].
  - split; [constructor | reflexivity].
  - rewrite evaluate_all_cons.
    destruct (evaluate_one c r) as [b | e] eqn:Er; simpl.
    + destruct (evaluate_all c rs) as [bs | e] eqn:Ers; simpl in *.
      * destruct b; simpl.
        -- rewrite IH. split; [intros; constructor; auto |].
           inversion 1; assumption.
        -- split; [discriminate |]. inversion 1; congruence.
      * split; [discriminate |]. inversion 1 as [| ? ? _ Hrs]; subst.
        apply IH in Hrs. discriminate.
    + split; [discriminate |]. inversion 1; congruence.
Qed.


Lemma evaluate_decoded_rules (c : Customer.t) (d : list (string * pyval))
    (r : pyval) (rs : list pyval) (match_type : pyval) :
  py_get (PDict d) "rules" (PList []) = Ok (PList (r :: rs)) ->
  py_get (PDict d) "match" (PStr "all") = Ok match_type ->
  evaluate_decoded c (PDict d)
  = (results ← evaluate_all c (r :: rs);
     if py_eq match_type (PStr "all") then Ok (forallb id results)
     else Ok (existsb id results)).
Proof. intros Hr Hm. unfold evaluate_decoded. rewrite Hr, Hm. reflexivity. Qed.

Lemma evaluate_decoded_no_rules (c : Customer.t) (d : list (string * pyval)) :
  py_get (PDict d) "rules" (PList []) = Ok (PList []) ->
  evaluate_decoded c (PDict d) = Ok true.
Proof. intros Hr. unfold evaluate_decoded. rewrite Hr. reflexivity. Qed.


(** C4. A criteria string that [json.loads] rejects matches every
    customer: the decoding error is swallowed and the answer is true. *)
Theorem malformed_criteria_match_everything (c : Customer.t) (text : string) :
  json_loads text = None ->
  evaluate_segment_criteria c (PStr text) = Ok true.
Proof. intros Hbad. simpl. rewrite Hbad. reflexivity. Qed.

(** The fallback is the evaluator's own.  [get_segment_customers] decodes
    the stored text first, through [Segment.get_criteria], and there a
    text that does not decode raises. *)
Lemma malformed_stored_criteria_raise (st : Store) (segment_id : Z)
    (segment : Segment.t) :
  segments st !! segment_id = Some segment ->
  Segment.criteria segment <> "" ->
  json_loads (Segment.criteria segment) = None ->
  get_segment_customers st segment_id = Raise ValueError.
Proof.
  intros Hs Hne Hbad. unfold get_segment_customers. rewrite Hs.
  unfold Segment.get_criteria, loads_or.
  destruct (String.eqb_spec (Segment.criteria segment) ""); [contradiction |].
  rewrite Hbad. reflexivity.
Qed.

End CriteriaFacts.

(** ** Segment refresh *)

Section SegmentFacts.
Context `{PyBuiltins} `{Customer.attributes}.

Lemma matching_customers_filter (cs : list Customer.t) (criteria : pyval) :
  Forall (fun c => returns (evaluate_segment_criteria c criteria)) cs ->
  matching_customers cs criteria
  = Ok (List.filter (fun c => satisfies c criteria) cs).
Proof.
  induction 1 as [| c cs [b Hb] _ IH]; [reflexivity |].
  simpl. unfold satisfies at 1. rewrite Hb, IH. simpl.
  destruct b; reflexivity.
Qed.

Lemma get_segment_customers_filter (st : Store) (segment_id : Z)
    (segment : Segment.t) (criteria : pyval) :
  segments st !! segment_id = Some segment ->
  Segment.get_criteria segment = Ok criteria ->
  Forall (fun c => returns (evaluate_segment_criteria c criteria)) (customers st) ->
  get_segment_customers st segment_id
  = Ok (List.filter (fun c => satisfies c criteria) (customers st)).
Proof.
  intros Hs Hc Hret. unfold get_segment_customers. rewrite Hs, Hc. simpl.
  apply matching_customers_filter; assumption.
Qed.

(** The "New Leads" criteria test the status column and nothing else. *)
Lemma lead_criteria_verdict (c : Customer.t) :
  evaluate_segment_criteria c Demo.lead_criteria
  = Ok (String.eqb (Customer.status c) "lead").
Proof.
  change (evaluate_segment_criteria c Demo.lead_criteria)
    with (Ok (String.eqb (Customer.status c) "lead" && true) : result bool).
  rewrite andb_true_r. reflexivity.
Qed.

(** The columns of the segment row that [refresh_segment] writes, for a
    matching list of [n] customers. *)
Lemma refreshed_columns (stamp n : Z) (segment : Segment.t) :
  let segment' := refreshed stamp n segment in
  Segment.customer_count segment' = n
  /\ Segment.updated_at segment'
     = (if Z.eqb n (Segment.customer_count segment)
        then Segment.updated_at segment else stamp)
  /\ Segment.id segment' = Segment.id segment
  /\ Segment.name segment' = Segment.name segment
  /\ Segment.description segment' = Segment.description segment
  /\ Segment.criteria segment' = Segment.criteria segment
  /\ Segment.segment_type segment' = Segment.segment_type segment
  /\ Segment.is_active segment' = Segment.is_active segment
  /\ Segment.created_at segment' = Segment.created_at segment.
Proof.
  cbv zeta. unfold refreshed.
  destruct (Z.eqb n (Segment.customer_count segment));
    repeat split; reflexivity.
Qed.

(** C8, amended.  [refresh_segment] on a stored segment whose criteria
    decode, and evaluate without raising on every customer, writes into
    that segment's [customer_count] the number of customers of the store
    that satisfy the criteria and, when this count is not the one the row
    held, the time of the commit into its [updated_at]; the other columns
    of the row ([id], [name], [description], [criteria], [segment_type],
    [is_active], [created_at]), the other segments, the customers, the
    campaigns and the membership table are as before.  With the criteria
    [status eq lead] and three customers of status lead, customer, lead,
    the count written is 2. *)
Theorem refresh_segment_counts (stamp : Z) (st : Store) (segment_id : Z)
    (segment : Segment.t) (criteria : pyval) :
  segments st !! segment_id = Some segment ->
  Segment.get_criteria segment = Ok criteria ->
  (Forall (fun c => returns (evaluate_segment_criteria c criteria)) (customers st) ->
   exists st' segment',
     refresh_segment stamp st segment_id = Ok (st', Some segment')
     /\ segments st' !! segment_id = Some segment'
     /\ Segment.customer_count segment'
        = Z.of_nat (length (List.filter (fun c => satisfies c criteria)
                                        (customers st)))
     /\ Segment.updated_at segment'
        = (if Z.eqb (Segment.customer_count segment')
                    (Segment.customer_count segment)
           then Segment.updated_at segment else stamp)
     /\ Segment.id segment' = Segment.id segment
     /\ Segment.name segment' = Segment.name segment
     /\ Segment.description segment' = Segment.description segment
     /\ Segment.criteria segment' = Segment.criteria segment
     /\ Segment.segment_type segment' = Segment.segment_type segment
     /\ Segment.is_active segment' = Segment.is_active segment
     /\ Segment.created_at segment' = Segment.created_at segment
     /\ customers st' = customers st
     /\ campaigns st' = campaigns st
     /\ segment_customers st' = segment_customers st
     /\ (forall other, other <> segment_id ->
         segments st' !! other = segments st !! other))
  /\ (criteria = Demo.lead_criteria ->
      map Customer.status (customers st) = ["lead"; "customer"; "lead"] ->
      exists st' segment',
        refresh_segment stamp st segment_id = Ok (st', Some segment')
        /\ Segment.customer_count segment' = 2
        /\ segments st' !! segment_id = Some segment').
Proof.
  intros Hs Hc. split.
  - intros Hret.
    unfold refresh_segment. rewrite Hs.
    rewrite (get_segment_customers_filter st segment_id segment criteria)
      by assumption.
    cbn [mbind result_bind].
    set (n := Z.of_nat (length (List.filter (fun c => satisfies c criteria)
                                            (customers st)))).
    destruct (refreshed_columns stamp n segment)
      as (Hn & Hu & Hid & Hname & Hdesc & Hcrit & Hty & Hact & Hcr).
    cbv zeta in Hn, Hu, Hid, Hname, Hdesc, Hcrit, Hty, Hact, Hcr.
    eexists _, _. split; [reflexivity |].
    split; [apply lookup_insert_eq |].
    split; [exact Hn |].
    split; [rewrite Hn; exact Hu |].
    repeat (split; [assumption || reflexivity |]).
    intros other Hne. simpl. apply lookup_insert_ne. congruence.
  - intros -> Hst.
    assert (Hret : Forall (fun c => returns
              (evaluate_segment_criteria c Demo.lead_criteria)) (customers st)).
    { apply Forall_forall. intros c _. rewrite lead_criteria_verdict.
      eexists; reflexivity. }
    unfold refresh_segment. rewrite Hs.
    rewrite (get_segment_customers_filter st segment_id segment _ Hs Hc Hret).
    cbn [mbind result_bind].
    eexists _, _. split; [reflexivity |]. split.
    + etransitivity; [exact (proj1 (refreshed_columns stamp _ segment)) |].
      destruct (customers st) as [| c1 [| c2 [| c3 [| c4 cs]]]];
        try discriminate Hst.
      injection Hst as H1 H2 H3.
      simpl List.filter. unfold satisfies.
      rewrite !lead_criteria_verdict, H1, H2, H3.
      reflexivity.
    + apply lookup_insert_eq.
Qed.

End SegmentFacts.

(** ** Campaign lifecycle *)

Lemma py_int_scale_le (n : Z) (u : Q) :
  0 <= n -> (0 <= u)%Q -> (u <= 1)%Q -> py_int (inject_Z n * u) <= n.
Proof.
  intros Hn Hlo Hhi. destruct u as [p q].
  unfold Qle in Hlo, Hhi. simpl in Hlo, Hhi.
  unfold py_int. simpl.
  rewrite Z.quot_div_nonneg by nia.
  apply Z.div_le_upper_bound; nia.
Qed.

Lemma audience_positive (d : Draws) (l : list Customer.t) :
  100 <= fallback_audience d -> 1 <= audience_of d l.
Proof. intros Hd. destruct l; simpl; lia. Qed.

Lemma between_weaken (lo hi x lo' hi' : Q) :
  (lo' <= lo)%Q -> (hi <= hi')%Q -> between lo x hi -> between lo' x hi'.
Proof.
  intros Hl Hh [H1 H2]. split.
  - eapply Qle_trans; eassumption.
  - eapply Qle_trans; eassumption.
Qed.

Lemma simulate_delivery (d : Draws) (n : Z) (campaign : Campaign.t)
    (r : CampaignResult.t) :
  CampaignResult.total_sent (simulate d n campaign r) = n
  /\ CampaignResult.delivered (simulate d n campaign r)
     = py_int (inject_Z n * delivery d)
  /\ CampaignResult.bounced (simulate d n campaign r)
     = CampaignResult.total_sent (simulate d n campaign r)
       - CampaignResult.delivered (simulate d n campaign r).
Proof.
  unfold simulate.
  destruct (String.eqb (Campaign.campaign_type campaign) "email");
    [| destruct (String.eqb (Campaign.campaign_type campaign) "social")];
    simpl; auto.
Qed.

Section LifecycleFacts.
Context `{PyBuiltins} `{Customer.attributes}.

Lemma launch_from_draft (now stamp stamp_results : Z) (d : Draws) (st : Store)
    (campaign_id : Z) (campaign : Campaign.t) (audience : list Customer.t) :
  campaigns st !! campaign_id = Some campaign ->
  Campaign.status campaign = "draft" ->
  get_segment_customers st (Campaign.segment_id campaign) = Ok audience ->
  launch_campaign now stamp stamp_results d campaign_id st
  = Ok (set_campaigns st
          (<[campaign_id :=
               launched now stamp stamp_results d (audience_of d audience)
                 campaign]> (campaigns st)),
        Some (launched now stamp stamp_results d (audience_of d audience)
                campaign)).
Proof.
  intros Hc Hs Ha. unfold launch_campaign. rewrite Hc, Hs, Ha. reflexivity.
Qed.

Lemma launched_fields (now stamp stamp_results : Z) (d : Draws) (n : Z)
    (campaign : Campaign.t) :
  Campaign.status (launched now stamp stamp_results d n campaign) = "active"
  /\ Campaign.start_date (launched now stamp stamp_results d n campaign)
     = Some now
  /\ Campaign.results (launched now stamp stamp_results d n campaign)
     = (fun r => CampaignResult.flush r (simulate d n campaign r) stamp_results)
         <$> Campaign.results campaign.
Proof.
  unfold launched. simpl.
  destruct (Campaign.results campaign) as [r |] eqn:Er; simpl;
    rewrite ?Er; auto.
Qed.


(** The result row the launch stores is the simulated one, up to the time
    of its last write. *)
Lemma flush_populated (d : Draws) (n stamp : Z) (campaign : Campaign.t)
    (r : CampaignResult.t) :
  populated d (Campaign.campaign_type campaign)
    (Campaign.cost_per_send campaign) (Campaign.budget campaign) n r
    (CampaignResult.flush r (simulate d n campaign r) stamp).
Proof.
  assert (Hcases : forall clicks : Z,
    let raw := (inject_Z clicks * conversion d)%Q in
    let conversions :=
      if negb (Qle_bool 1 raw) && Z.ltb 0 clicks
         && negb (Qle_bool (coin d) (1 # 2))
      then 1 else Qceiling raw in
    ((raw < 1)%Q -> 0 < clicks -> (1 # 2 < coin d)%Q -> conversions = 1)
    /\ (~ ((raw < 1)%Q /\ 0 < clicks /\ (1 # 2 < coin d)%Q) ->
        conversions = Qceiling raw)).
  { intros clicks raw conversions. subst conversions.
    destruct (Qle_bool 1 raw) eqn:E1; simpl.
    - apply Qle_bool_iff in E1. split.
      + intros Hraw. exfalso. eapply Qlt_not_le; eassumption.
      + reflexivity.
    - assert (Hraw : (raw < 1)%Q).
      { apply Qnot_le_lt. rewrite <- Qle_bool_iff. congruence. }
      destruct (Z.ltb_spec 0 clicks) as [Hpos | Hnone]; simpl.
      + destruct (Qle_bool (coin d) (1 # 2)) eqn:E2; simpl.
        * apply Qle_bool_iff in E2. split; [| reflexivity].
          intros _ _ Hcoin. exfalso. eapply Qlt_not_le; eassumption.
        * split; [reflexivity |]. intros Hn. exfalso. apply Hn.
          repeat split; try assumption.
          apply Qnot_le_lt. rewrite <- Qle_bool_iff. congruence.
      + split; [lia | reflexivity]. }
  unfold CampaignResult.flush.
  destruct (CampaignResult.same_counters r (simulate d n campaign r));
    unfold simulate;
    (destruct (String.eqb_spec (Campaign.campaign_type campaign) "email")
       as [He | He];
     [| destruct (String.eqb_spec (Campaign.campaign_type campaign) "social")
          as [Hs | Hs]]);
    (constructor; cbn;
     try reflexivity;
     try (intros; congruence);
     try (intros; repeat split; reflexivity);
     try (intros; apply Hcases; assumption)).
Qed.


(** C6. Launching a draft campaign that has a result row, with every
    draw in its range and an audience query that returns: the new row
    has [delivered <= total_sent] and
    [bounced = total_sent - delivered], and when the segment matches no
    customer its [total_sent] lies in [100, 500]. *)
Theorem launch_delivery_bounds (now stamp stamp_results : Z) (d : Draws)
    (st : Store) (campaign_id : Z) (campaign : Campaign.t)
    (results : CampaignResult.t) (audience : list Customer.t) :
  draws_in_range d ->
  campaigns st !! campaign_id = Some campaign ->
  Campaign.status campaign = "draft" ->
  Campaign.results campaign = Some results ->
  get_segment_customers st (Campaign.segment_id campaign) = Ok audience ->
  exists st' campaign' results',
    launch_campaign now stamp stamp_results d campaign_id st
    = Ok (st', Some campaign')
    /\ campaigns st' !! campaign_id = Some campaign'
    /\ Campaign.results campaign' = Some results'
    /\ (audience = [] ->
        100 <= CampaignResult.total_sent results' <= 500)
    /\ CampaignResult.delivered results' <= CampaignResult.total_sent results'
    /\ CampaignResult.bounced results'
       = CampaignResult.total_sent results' - CampaignResult.delivered results'.
Proof.
  intros Hd Hc Hs Hr Ha.
  set (n := audience_of d audience).
  exists (set_campaigns st
            (<[campaign_id := launched now stamp stamp_results d n campaign]>
               (campaigns st))),
         (launched now stamp stamp_results d n campaign),
         (CampaignResult.flush results (simulate d n campaign results)
            stamp_results).
  destruct (launched_fields now stamp stamp_results d n campaign)
    as (_ & _ & Hres).
  pose proof (flush_populated d n stamp_results campaign results) as Hp.
  pose proof (populated_sent _ _ _ _ _ _ _ Hp) as Hsent.
  pose proof (populated_delivered _ _ _ _ _ _ _ Hp) as Hdel.
  pose proof (populated_bounced _ _ _ _ _ _ _ Hp) as Hb.
  split; [apply launch_from_draft; assumption |].
  split; [apply lookup_insert_eq |].
  split; [rewrite Hres, Hr; reflexivity |].
  split; [| split; [| rewrite Hsent; exact Hb]].
  - intros ->. rewrite Hsent. apply (fallback_audience_range d Hd).
  - rewrite Hsent, Hdel.
    destruct (delivery_range d Hd) as [Hlo Hhi].
    apply py_int_scale_le.
    + pose proof (audience_positive d audience
                    (proj1 (fallback_audience_range d Hd))). lia.
    + eapply Qle_trans; [| exact Hlo]. discriminate.
    + eapply Qle_trans; [exact Hhi |]. discriminate.
Qed.

(** What [create_campaign] stores: a draft with a result row at its
    defaults. *)
Lemma create_campaign_row (new_id created updated results_updated : Z)
    (name : string) (segment_id : Z)
    (campaign_type : string) (subject content : option string)
    (schedule_time : option Z) (budget : Q) (description : option string)
    (st : Store) :
  let '(st', campaign) :=
    create_campaign new_id created updated results_updated name segment_id
      campaign_type subject content schedule_time budget description st in
  campaigns st' !! new_id = Some campaign
  /\ Campaign.status campaign = "draft"
  /\ Campaign.results campaign
     = Some (CampaignResult.default new_id results_updated).
Proof. simpl. split; [apply lookup_insert_eq | auto]. Qed.

(** C9. [complete_campaign] on a stored draft whose result row is the one
    [create_campaign] inserted (never launched): the campaign is stored
    and returned with status completed and [end_date] the call time; its
    result row is the same, every counter and amount still zero; no other
    campaign, segment or customer changes. *)
Theorem complete_draft_campaign (now stamp : Z) (st : Store) (campaign_id : Z)
    (campaign : Campaign.t) (key updated : Z) :
  campaigns st !! campaign_id = Some campaign ->
  Campaign.status campaign = "draft" ->
  Campaign.results campaign = Some (CampaignResult.default key updated) ->
  exists st' campaign',
    complete_campaign now stamp campaign_id st = (st', Some campaign')
    /\ campaigns st' !! campaign_id = Some campaign'
    /\ Campaign.status campaign' = "completed"
    /\ Campaign.end_date campaign' = Some now
    /\ Campaign.results campaign' = Some (CampaignResult.default key updated)
    /\ (forall other, other <> campaign_id ->
        campaigns st' !! other = campaigns st !! other)
    /\ segments st' = segments st
    /\ customers st' = customers st.
Proof.
  intros Hc Hs Hr. unfold complete_campaign. rewrite Hc, Hs.
  change (String.eqb "draft" "completed") with false. cbv iota beta.
  eexists _, _. split; [reflexivity |].
  split; [apply lookup_insert_eq |].
  repeat split; try assumption.
  intros other Hne. simpl. apply lookup_insert_ne. congruence.
Qed.

End LifecycleFacts.

(** ** Derived metrics and the overview *)

Lemma percent_defined (num den : Q) :
  ~ (den == 0)%Q -> percent num den = Ok (num / den * 100)%Q.
Proof.
  intros Hden. unfold percent, py_div.
  destruct (Qeq_bool den 0) eqn:E; [| reflexivity].
  apply Qeq_bool_iff in E. contradiction.
Qed.

(** A rate guarded by [den > 0] is computed without a division by zero. *)
Lemma ltb_guard (n : Z) (num : Q) :
  exists rate,
    (if Z.ltb 0 n then percent num (inject_Z n) else Ok 0%Q) = Ok rate
    /\ (0 < n -> rate = (num / inject_Z n * 100)%Q)
    /\ (n <= 0 -> rate = 0%Q).
Proof.
  destruct (Z.ltb_spec 0 n) as [Hpos | Hle].
  - eexists. split; [apply percent_defined | split; [reflexivity | lia]].
    unfold Qeq. simpl. lia.
  - eexists. split; [reflexivity | split; [lia | reflexivity]].
Qed.

Lemma cost_guard (cost num : Q) :
  exists rate,
    (if negb (Qle_bool cost 0) then percent num cost else Ok 0%Q) = Ok rate
    /\ ((0 < cost)%Q -> rate = (num / cost * 100)%Q)
    /\ ((cost <= 0)%Q -> rate = 0%Q).
Proof.
  destruct (Qle_bool cost 0) eqn:E; simpl.
  - apply Qle_bool_iff in E.
    eexists. split; [reflexivity | split; [| reflexivity]].
    intros Hc. exfalso. eapply Qlt_not_le; eassumption.
  - assert (Hpos : (0 < cost)%Q).
    { apply Qnot_le_lt. rewrite <- Qle_bool_iff. congruence. }
    eexists. split; [apply percent_defined | split; [reflexivity |]].
    + intros Hz. rewrite Hz in Hpos. exact (Qlt_irrefl 0 Hpos).
    + intros Hle. exfalso. eapply Qlt_not_le; eassumption.
Qed.

(** [calculate_metrics] returns, and what it returns. *)
Lemma calculate_metrics_returns (r : CampaignResult.t) :
  exists delivery_rate open_rate click_rate ctr conversion_rate roi,
    CampaignResult.calculate_metrics r
    = Ok (CampaignResult.mk_metrics
            (CampaignResult.campaign_id r) (CampaignResult.total_sent r)
            (CampaignResult.delivered r) (CampaignResult.bounced r)
            (CampaignResult.opens r) (CampaignResult.clicks r)
            (CampaignResult.conversions r) (CampaignResult.leads_generated r)
            (CampaignResult.leads_converted r)
            (CampaignResult.revenue_attributed r) (CampaignResult.total_cost r)
            delivery_rate open_rate click_rate ctr conversion_rate roi)
    /\ ((0 < CampaignResult.total_sent r ->
         delivery_rate = (inject_Z (CampaignResult.delivered r)
                          / inject_Z (CampaignResult.total_sent r) * 100)%Q)
        /\ (CampaignResult.total_sent r <= 0 -> delivery_rate = 0%Q))
    /\ ((0 < CampaignResult.delivered r ->
         open_rate = (inject_Z (CampaignResult.opens r)
                      / inject_Z (CampaignResult.delivered r) * 100)%Q)
        /\ (CampaignResult.delivered r <= 0 -> open_rate = 0%Q))
    /\ ((0 < CampaignResult.opens r ->
         click_rate = (inject_Z (CampaignResult.clicks r)
                       / inject_Z (CampaignResult.opens r) * 100)%Q)
        /\ (CampaignResult.opens r <= 0 -> click_rate = 0%Q))
    /\ ((0 < CampaignResult.delivered r ->
         ctr = (inject_Z (CampaignResult.clicks r)
                / inject_Z (CampaignResult.delivered r) * 100)%Q)
        /\ (CampaignResult.delivered r <= 0 -> ctr = 0%Q))
    /\ ((0 < CampaignResult.clicks r ->
         conversion_rate = (inject_Z (CampaignResult.conversions r)
                            / inject_Z (CampaignResult.clicks r) * 100)%Q)
        /\ (CampaignResult.clicks r <= 0 -> conversion_rate = 0%Q))
    /\ (((0 < CampaignResult.total_cost r)%Q ->
         roi = ((CampaignResult.revenue_attributed r
                 - CampaignResult.total_cost r)
                / CampaignResult.total_cost r * 100)%Q)
        /\ ((CampaignResult.total_cost r <= 0)%Q -> roi = 0%Q)).
Proof.
  unfold CampaignResult.calculate_metrics.
  destruct (ltb_guard (CampaignResult.total_sent r)
              (inject_Z (CampaignResult.delivered r))) as (q1 & -> & H1).
  destruct (ltb_guard (CampaignResult.delivered r)
              (inject_Z (CampaignResult.opens r))) as (q2 & -> & H2).
  destruct (ltb_guard (CampaignResult.opens r)
              (inject_Z (CampaignResult.clicks r))) as (q3 & -> & H3).
  destruct (ltb_guard (CampaignResult.delivered r)
              (inject_Z (CampaignResult.clicks r))) as (q4 & -> & H4).
  destruct (ltb_guard (CampaignResult.clicks r)
              (inject_Z (CampaignResult.conversions r))) as (q5 & -> & H5).
  destruct (cost_guard (CampaignResult.total_cost r)
              (CampaignResult.revenue_attributed r
               - CampaignResult.total_cost r)) as (q6 & -> & H6).
  exists q1, q2, q3, q4, q5, q6. split; [reflexivity | tauto].
Qed.

(** C5, as the code has it.  [calculate_metrics] returns on every result
    row: no division by zero is evaluated, the guards being [> 0].  Each
    rate it returns is its quotient times 100 when the denominator is
    positive and exactly 0 when the denominator is zero or negative. *)
Theorem metrics_guarded (r : CampaignResult.t) :
  let sent := CampaignResult.total_sent r in
  let delivered := CampaignResult.delivered r in
  let opens := CampaignResult.opens r in
  let clicks := CampaignResult.clicks r in
  let conversions := CampaignResult.conversions r in
  let revenue := CampaignResult.revenue_attributed r in
  let cost := CampaignResult.total_cost r in
  exists m,
    CampaignResult.calculate_metrics r = Ok m
    /\ ((0 < sent -> CampaignResult.delivery_rate m
                     = (inject_Z delivered / inject_Z sent * 100)%Q)
        /\ (sent <= 0 -> CampaignResult.delivery_rate m = 0%Q))
    /\ ((0 < delivered -> CampaignResult.open_rate m
                          = (inject_Z opens / inject_Z delivered * 100)%Q)
        /\ (delivered <= 0 -> CampaignResult.open_rate m = 0%Q))
    /\ ((0 < opens -> CampaignResult.click_rate m
                      = (inject_Z clicks / inject_Z opens * 100)%Q)
        /\ (opens <= 0 -> CampaignResult.click_rate m = 0%Q))
    /\ ((0 < delivered -> CampaignResult.ctr m
                          = (inject_Z clicks / inject_Z delivered * 100)%Q)
        /\ (delivered <= 0 -> CampaignResult.ctr m = 0%Q))
    /\ ((0 < clicks -> CampaignResult.conversion_rate m
                       = (inject_Z conversions / inject_Z clicks * 100)%Q)
        /\ (clicks <= 0 -> CampaignResult.conversion_rate m = 0%Q))
    /\ (((0 < cost)%Q -> CampaignResult.roi m
                         = ((revenue - cost) / cost * 100)%Q)
        /\ ((cost <= 0)%Q -> CampaignResult.roi m = 0%Q)).
Proof.
  cbv zeta.
  destruct (calculate_metrics_returns r)
    as (q1 & q2 & q3 & q4 & q5 & q6 & -> & Hrates).
  eexists. split; [reflexivity | exact Hrates].
Qed.

(** [get_analytics_overview] returns, and the rates it returns. *)
Lemma overview_returns (st : Store) :
  let results := Analytics.all_results st in
  let campaigns := Analytics.all_campaigns st in
  let sent := Analytics.sum_Z (map CampaignResult.total_sent results) in
  let opens := Analytics.sum_Z (map CampaignResult.opens results) in
  let clicks := Analytics.sum_Z (map CampaignResult.clicks results) in
  let conversions := Analytics.sum_Z (map CampaignResult.conversions results) in
  let revenue :=
    Analytics.sum_Q (map CampaignResult.revenue_attributed results) in
  let cost := Analytics.sum_Q (map CampaignResult.total_cost results) in
  exists open_rate click_rate conversion_rate roi,
    Analytics.get_analytics_overview st
    = Ok (Analytics.mk
            (Z.of_nat (length campaigns))
            (Analytics.count (Analytics.has_status "active") campaigns)
            (Analytics.count (Analytics.has_status "completed") campaigns)
            (Analytics.count (Analytics.has_status "draft") campaigns)
            sent opens clicks conversions
            open_rate click_rate conversion_rate revenue cost roi
            (Z.of_nat (length (customers st)))
            (Analytics.count Segment.is_active (Analytics.all_segments st))
            (Analytics.count (fun c => String.eqb (Customer.status c) "lead")
               (customers st)))
    /\ ((0 < sent -> open_rate = (inject_Z opens / inject_Z sent * 100)%Q)
        /\ (sent <= 0 -> open_rate = 0%Q))
    /\ ((0 < opens -> click_rate = (inject_Z clicks / inject_Z opens * 100)%Q)
        /\ (opens <= 0 -> click_rate = 0%Q))
    /\ ((0 < clicks ->
         conversion_rate = (inject_Z conversions / inject_Z clicks * 100)%Q)
        /\ (clicks <= 0 -> conversion_rate = 0%Q))
    /\ (((0 < cost)%Q -> roi = ((revenue - cost) / cost * 100)%Q)
        /\ ((cost <= 0)%Q -> roi = 0%Q)).
Proof.
  unfold Analytics.get_analytics_overview. cbv zeta.
  set (results := Analytics.all_results st).
  destruct (ltb_guard
              (Analytics.sum_Z (map CampaignResult.total_sent results))
              (inject_Z (Analytics.sum_Z (map CampaignResult.opens results))))
    as (q1 & -> & H1).
  destruct (ltb_guard
              (Analytics.sum_Z (map CampaignResult.opens results))
              (inject_Z (Analytics.sum_Z (map CampaignResult.clicks results))))
    as (q2 & -> & H2).
  destruct (ltb_guard
              (Analytics.sum_Z (map CampaignResult.clicks results))
              (inject_Z (Analytics.sum_Z
                           (map CampaignResult.conversions results))))
    as (q3 & -> & H3).
  destruct (cost_guard
              (Analytics.sum_Q (map CampaignResult.total_cost results))
              (Analytics.sum_Q (map CampaignResult.revenue_attributed results)
               - Analytics.sum_Q (map CampaignResult.total_cost results)))
    as (q4 & -> & H4).
  exists q1, q2, q3, q4. split; [reflexivity | tauto].
Qed.

(** C7, as the code has it.  [get_analytics_overview] returns.  The totals
    of the overview are sums over all result rows.  The overall open rate
    divides the opens by the messages sent, the click rate the clicks by
    the opens, the conversion rate the conversions by the clicks, and the
    ROI the revenue less the cost by the cost; each is that quotient times
    100 when its denominator is positive and 0 otherwise. *)
Theorem overview_rates (st : Store) :
  exists o,
  Analytics.get_analytics_overview st = Ok o /\
  let results := Analytics.all_results st in
  let sent := Analytics.total_sent o in
  let opens := Analytics.total_opens o in
  let clicks := Analytics.total_clicks o in
  let conversions := Analytics.total_conversions o in
  let revenue := Analytics.total_revenue o in
  let cost := Analytics.total_cost o in
  (sent = Analytics.sum_Z (map CampaignResult.total_sent results)
   /\ opens = Analytics.sum_Z (map CampaignResult.opens results)
   /\ clicks = Analytics.sum_Z (map CampaignResult.clicks results)
   /\ conversions = Analytics.sum_Z (map CampaignResult.conversions results)
   /\ revenue = Analytics.sum_Q (map CampaignResult.revenue_attributed results)
   /\ cost = Analytics.sum_Q (map CampaignResult.total_cost results))
  /\ ((0 < sent -> Analytics.overall_open_rate o
                   = (inject_Z opens / inject_Z sent * 100)%Q)
      /\ (sent <= 0 -> Analytics.overall_open_rate o = 0%Q))
  /\ ((0 < opens -> Analytics.overall_click_rate o
                    = (inject_Z clicks / inject_Z opens * 100)%Q)
      /\ (opens <= 0 -> Analytics.overall_click_rate o = 0%Q))
  /\ ((0 < clicks -> Analytics.overall_conversion_rate o
                     = (inject_Z conversions / inject_Z clicks * 100)%Q)
      /\ (clicks <= 0 -> Analytics.overall_conversion_rate o = 0%Q))
  /\ (((0 < cost)%Q -> Analytics.overall_roi o
                       = ((revenue - cost) / cost * 100)%Q)
      /\ ((cost <= 0)%Q -> Analytics.overall_roi o = 0%Q)).
Proof.
  destruct (overview_returns st) as (q1 & q2 & q3 & q4 & Ho & Hrates).
  cbv zeta in Ho, Hrates.
  eexists. split; [exact Ho |].
  cbv zeta. cbn [Analytics.total_sent Analytics.total_opens
    Analytics.total_clicks Analytics.total_conversions Analytics.total_revenue
    Analytics.total_cost Analytics.overall_open_rate
    Analytics.overall_click_rate Analytics.overall_conversion_rate
    Analytics.overall_roi].
  split; [repeat split | exact Hrates].
Qed.

From Stdlib Require Import Lqa.

(** ** More on the rule interpreter *)

Lemma split_dot_cons (a : ascii) (s : string) :
  split_dot (String a s)
  = (if Ascii.eqb a "."%char
     then (EmptyString, (split_dot s).1 :: (split_dot s).2)
     else (String a (split_dot s).1, (split_dot s).2)).
Proof. simpl. destruct (split_dot s). reflexivity. Qed.

Lemma split_dot_prefix (a s : string) :
  dot_free a ->
  split_dot (a ++ String "."%char s) = (a, (split_dot s).1 :: (split_dot s).2).
Proof.
  unfold dot_free. induction a as [| ch a IH]; intros Hfree.
  - change (EmptyString ++ String "."%char s)%string with (String "."%char s).
    rewrite split_dot_cons. reflexivity.
  - simpl in Hfree. apply andb_prop in Hfree as [Hch Ha].
    change (String ch a ++ String "."%char s)%string
      with (String ch (a ++ String "."%char s)%string).
    rewrite split_dot_cons, (IH Ha).
    destruct (Ascii.eqb ch "."%char); [discriminate | reflexivity].
Qed.

Lemma split_dot_dot_free (a : string) : dot_free a -> split_dot a = (a, []).
Proof.
  unfold dot_free. induction a as [| ch a IH]; intros Hfree; [reflexivity |].
  simpl in Hfree. apply andb_prop in Hfree as [Hch Ha].
  rewrite split_dot_cons, (IH Ha).
  destruct (Ascii.eqb ch "."%char); [discriminate | reflexivity].
Qed.

Section EvaluatorMore.
Context `{PyBuiltins} `{Customer.attributes}.

Lemma get_nested_value_parts (c : Customer.t) (p q : string) :
  (split_dot p).1 = (split_dot q).1 ->
  head (split_dot p).2 = head (split_dot q).2 ->
  get_nested_value c (PStr p) = get_nested_value c (PStr q).
Proof.
  unfold get_nested_value.
  destruct (split_dot p) as [p0 ps], (split_dot q) as [q0 qs]. simpl.
  intros <- Hhd.
  destruct ps as [| p1 ps], qs as [| q1 qs]; simpl in Hhd;
    try discriminate; try reflexivity.
  injection Hhd as <-. reflexivity.
Qed.

(** X1. Only the first two parts of a dotted path are read.  A path
    [a.b.rest] resolves as [a.b]; and a path [a.rest] whose first part is
    neither [demographics] nor [behavioral_data] resolves as [a], so that
    [purchase_history.amount] is the whole purchase history and
    [status.x] is the status. *)
Theorem path_depth_ignored (c : Customer.t) (a b rest : string) :
  dot_free a -> dot_free b ->
  get_nested_value c (PStr (a ++ String "."%char (b ++ String "."%char rest)))
  = get_nested_value c (PStr (a ++ String "."%char b))
  /\ (a <> "demographics" -> a <> "behavioral_data" ->
      get_nested_value c (PStr (a ++ String "."%char rest))
      = get_nested_value c (PStr a)).
Proof.
  intros Ha Hb. split.
  - apply get_nested_value_parts;
      rewrite (split_dot_prefix a _ Ha), (split_dot_prefix a b Ha),
        (split_dot_prefix b rest Hb), (split_dot_dot_free b Hb);
      reflexivity.
  - intros Hd Hbd. unfold get_nested_value.
    rewrite (split_dot_prefix a rest Ha), (split_dot_dot_free a Ha).
    destruct (String.eqb_spec a "demographics"); [contradiction |].
    destruct (String.eqb_spec a "behavioral_data"); [contradiction |].
    reflexivity.
Qed.

Lemma evaluate_all_perm (c : Customer.t) (rs rs' : list pyval) :
  Permutation rs rs' ->
  Forall (fun r => returns (evaluate_one c r)) rs ->
  exists bs bs', evaluate_all c rs = Ok bs /\ evaluate_all c rs' = Ok bs'
                 /\ Permutation bs bs'.
Proof.
  induction 1 as [| r rs rs' Hp IH | r1 r2 rs | rs1 rs2 rs3 Hp1 IH1 Hp2 IH2];
    intros Hret.
  - exists [], []. auto.
  - inversion Hret as [| ? ? [b Hb] Hrs]; subst.
    destruct (IH Hrs) as (bs & bs' & E1 & E2 & Hperm).
    exists (b :: bs), (b :: bs').
    rewrite !evaluate_all_cons, Hb, E1, E2. simpl. auto.
  - inversion Hret as [| ? ? [b2 Hb2] Hrs]; subst.
    inversion Hrs as [| ? ? [b1 Hb1] Hrs']; subst.
    destruct (evaluate_all_returns c rs Hrs') as [bs Hbs].
    exists (b2 :: b1 :: bs), (b1 :: b2 :: bs).
    rewrite !evaluate_all_cons, Hb1, Hb2, Hbs. simpl.
    split; [reflexivity | split; [reflexivity | apply perm_swap]].
  - destruct (IH1 Hret) as (bs1 & bs2 & E1 & E2 & P12).
    assert (Hret2 : Forall (fun r => returns (evaluate_one c r)) rs2).
    { rewrite Forall_forall in *. intros r Hr. apply Hret.
      apply list_elem_of_In. apply list_elem_of_In in Hr.
      eapply Permutation_in; [symmetry; exact Hp1 | exact Hr]. }
    destruct (IH2 Hret2) as (bs2' & bs3 & E2' & E3 & P23).
    rewrite E2 in E2'. injection E2' as <-.
    exists bs1, bs3. split; [exact E1 | split; [exact E3 |]].
    etransitivity; eassumption.
Qed.

Lemma forallb_perm (l l' : list bool) :
  Permutation l l' -> forallb id l = forallb id l'.
Proof.
  induction 1 as [| b l l' _ IH | b1 b2 l | l1 l2 l3 _ IH1 _ IH2]; simpl.
  - reflexivity.
  - rewrite IH. reflexivity.
  - destruct b1, b2; reflexivity.
  - congruence.
Qed.

Lemma existsb_perm (l l' : list bool) :
  Permutation l l' -> existsb id l = existsb id l'.
Proof.
  induction 1 as [| b l l' _ IH | b1 b2 l | l1 l2 l3 _ IH1 _ IH2]; simpl.
  - reflexivity.
  - rewrite IH. reflexivity.
  - destruct b1, b2; reflexivity.
  - congruence.
Qed.

(** X2. The order of the rules does not matter: two criteria documents
    with the same [match] whose rule lists are permutations of each other
    give the same verdict on a customer, as long as no rule raises on
    that customer. *)
Theorem rule_order_irrelevant (c : Customer.t) (d d' : list (string * pyval))
    (rs rs' : list pyval) (match_type : pyval) :
  py_get (PDict d) "rules" (PList []) = Ok (PList rs) ->
  py_get (PDict d') "rules" (PList []) = Ok (PList rs') ->
  py_get (PDict d) "match" (PStr "all") = Ok match_type ->
  py_get (PDict d') "match" (PStr "all") = Ok match_type ->
  Permutation rs rs' ->
  Forall (fun r => returns (evaluate_one c r)) rs ->
  evaluate_segment_criteria c (PDict d) = evaluate_segment_criteria c (PDict d').
Proof.
  intros Hr Hr' Hm Hm' Hperm Hret.
  change (evaluate_decoded c (PDict d) = evaluate_decoded c (PDict d')).
  destruct rs as [| r rs].
  - apply Permutation_nil in Hperm. subst rs'.
    rewrite !evaluate_decoded_no_rules by assumption. reflexivity.
  - destruct rs' as [| r' rs'].
    { symmetry in Hperm. apply Permutation_nil in Hperm. discriminate. }
    rewrite (evaluate_decoded_rules c d r rs match_type Hr Hm).
    rewrite (evaluate_decoded_rules c d' r' rs' match_type Hr' Hm').
    destruct (evaluate_all_perm c _ _ Hperm Hret) as (bs & bs' & -> & -> & Hp).
    simpl. rewrite (forallb_perm _ _ Hp), (existsb_perm _ _ Hp). reflexivity.
Qed.

(** X3. Adding a rule narrows an [all] segment and widens an [any]
    segment that already has a rule: with [match] equal to ["all"], a
    customer who matches the rules [r :: rs] matches the rules [rs]; with
    any other [match], a customer who matches the non-empty rules [rs]
    matches [r :: rs] when [r] does not raise. *)
Theorem extra_rule_monotone (c : Customer.t) (d d' : list (string * pyval))
    (r : pyval) (rs : list pyval) (match_type : pyval) :
  py_get (PDict d) "rules" (PList []) = Ok (PList (r :: rs)) ->
  py_get (PDict d') "rules" (PList []) = Ok (PList rs) ->
  py_get (PDict d) "match" (PStr "all") = Ok match_type ->
  py_get (PDict d') "match" (PStr "all") = Ok match_type ->
  (match_type = PStr "all" ->
   evaluate_segment_criteria c (PDict d) = Ok true ->
   evaluate_segment_criteria c (PDict d') = Ok true)
  /\ (match_type <> PStr "all" -> rs <> [] -> returns (evaluate_one c r) ->
      evaluate_segment_criteria c (PDict d') = Ok true ->
      evaluate_segment_criteria c (PDict d) = Ok true).
Proof.
  intros Hr Hr' Hm Hm'.
  change (evaluate_segment_criteria c (PDict d)) with (evaluate_decoded c (PDict d)).
  change (evaluate_segment_criteria c (PDict d')) with (evaluate_decoded c (PDict d')).
  rewrite (evaluate_decoded_rules c d r rs match_type Hr Hm).
  split.
  - intros ->. simpl py_eq. cbv iota. intros Hall.
    apply all_verdicts in Hall. inversion Hall as [| ? ? _ Hrs]; subst.
    destruct rs as [| r2 rs].
    + apply evaluate_decoded_no_rules; assumption.
    + rewrite (evaluate_decoded_rules c d' r2 rs (PStr "all") Hr' Hm').
      apply all_verdicts; assumption.
  - intros Hne Hrs [b Hb]. destruct rs as [| r2 rs]; [contradiction |].
    rewrite (evaluate_decoded_rules c d' r2 rs match_type Hr' Hm').
    destruct (py_eq match_type (PStr "all")) eqn:E.
    { apply py_eq_str in E. contradiction. }
    rewrite (evaluate_all_cons c r), Hb.
    destruct (evaluate_all c (r2 :: rs)) as [bs | e]; simpl; [| discriminate].
    intros [= Hex]. rewrite Hex. rewrite orb_true_r. reflexivity.
Qed.

End EvaluatorMore.

(** ** More on segments *)

Section SegmentMore.
Context `{PyBuiltins} `{Customer.attributes}.

Lemma matching_customers_inv (cs l : list Customer.t) (criteria : pyval) :
  matching_customers cs criteria = Ok l ->
  l = List.filter (fun c => satisfies c criteria) cs.
Proof.
  revert l. induction cs as [| c cs IH]; intros l; simpl.
  - intros [= <-]. reflexivity.
  - unfold satisfies at 1.
    destruct (evaluate_segment_criteria c criteria) as [b | e]; simpl;
      [| discriminate].
    destruct (matching_customers cs criteria) as [l' | e]; simpl;
      [| discriminate].
    intros [= <-]. rewrite <- (IH l' eq_refl). destruct b; reflexivity.
Qed.

Lemma filter_length_le {A} (p : A -> bool) (l : list A) :
  (length (List.filter p l) <= length l)%nat.
Proof. induction l as [| x l IH]; simpl; [lia |]. destruct (p x); simpl; lia. Qed.

Lemma get_segment_customers_length (st : Store) (segment_id : Z)
    (l : list Customer.t) :
  get_segment_customers st segment_id = Ok l ->
  (length l <= length (customers st))%nat.
Proof.
  unfold get_segment_customers.
  destruct (segments st !! segment_id) as [segment |].
  - destruct (Segment.get_criteria segment) as [criteria | e]; simpl;
      [| discriminate].
    intros Hm. rewrite (matching_customers_inv _ _ _ Hm).
    apply filter_length_le.
  - intros [= <-]. simpl. lia.
Qed.

Lemma refresh_segment_inv (stamp : Z) (st st' : Store) (segment_id : Z)
    (segment' : Segment.t) :
  refresh_segment stamp st segment_id = Ok (st', Some segment') ->
  exists segment l,
    segments st !! segment_id = Some segment
    /\ get_segment_customers st segment_id = Ok l
    /\ segment' = refreshed stamp (Z.of_nat (length l)) segment
    /\ st' = set_segments st (<[segment_id := segment']> (segments st)).
Proof.
  unfold refresh_segment.
  destruct (segments st !! segment_id) as [segment |] eqn:Hs; [| discriminate].
  destruct (get_segment_customers st segment_id) as [l | e]; simpl;
    [| discriminate].
  intros [= <- <-]. exists segment, l. auto.
Qed.

Lemma refreshed_count (stamp n : Z) (segment : Segment.t) :
  Segment.customer_count (refreshed stamp n segment) = n.
Proof.
  unfold refreshed. destruct (Z.eqb n (Segment.customer_count segment));
    reflexivity.
Qed.

Lemma refreshed_criteria (stamp n : Z) (segment : Segment.t) :
  Segment.criteria (refreshed stamp n segment) = Segment.criteria segment.
Proof.
  unfold refreshed. destruct (Z.eqb n (Segment.customer_count segment));
    reflexivity.
Qed.

(** Once the count is [n], a refresh that finds [n] customers writes
    nothing. *)
Lemma refreshed_again (stamp stamp' n : Z) (segment : Segment.t) :
  refreshed stamp' n (refreshed stamp n segment) = refreshed stamp n segment.
Proof.
  unfold refreshed at 1. rewrite refreshed_count, Z.eqb_refl.
  unfold refreshed.
  destruct (Z.eqb_spec n (Segment.customer_count segment)) as [-> | _];
    reflexivity.
Qed.

(** Rewriting a segment without touching its criteria does not change any
    audience. *)
Lemma get_segment_customers_recount (st : Store) (segment_id other : Z)
    (segment segment' : Segment.t) :
  segments st !! segment_id = Some segment ->
  Segment.criteria segment' = Segment.criteria segment ->
  get_segment_customers
    (set_segments st (<[segment_id := segment']> (segments st))) other
  = get_segment_customers st other.
Proof.
  intros Hs Hcrit. unfold get_segment_customers. simpl.
  destruct (decide (segment_id = other)) as [<- | Hne].
  - rewrite lookup_insert_eq, Hs. unfold Segment.get_criteria.
    rewrite Hcrit. reflexivity.
  - rewrite lookup_insert_ne by assumption. reflexivity.
Qed.

Lemma set_segments_twice (st : Store) (m m' : gmap Z Segment.t) :
  set_segments (set_segments st m) m' = set_segments st m'.
Proof. reflexivity. Qed.

(** X4. A refresh that returns a segment has written a count between 0
    and the number of stored customers, and refreshing again, whenever
    that is, changes nothing: the same store and the same segment come
    back. *)
Theorem refresh_segment_idempotent (stamp stamp' : Z) (st st' : Store)
    (segment_id : Z) (segment' : Segment.t) :
  refresh_segment stamp st segment_id = Ok (st', Some segment') ->
  0 <= Segment.customer_count segment' <= Z.of_nat (length (customers st))
  /\ refresh_segment stamp' st' segment_id = Ok (st', Some segment').
Proof.
  intros Href.
  destruct (refresh_segment_inv _ _ _ _ _ Href)
    as (segment & l & Hs & Hl & -> & ->).
  split.
  - pose proof (get_segment_customers_length _ _ _ Hl).
    rewrite refreshed_count. lia.
  - unfold refresh_segment at 1. simpl.
    rewrite lookup_insert_eq.
    rewrite (get_segment_customers_recount st segment_id segment_id segment _ Hs)
      by apply refreshed_criteria.
    rewrite Hl. cbn [mbind result_bind].
    rewrite refreshed_again, insert_insert_eq. reflexivity.
Qed.

Lemma audience_of_nonempty (d : Draws) (l : list Customer.t) :
  l <> [] -> audience_of d l = Z.of_nat (length l).
Proof. destruct l; [contradiction | reflexivity]. Qed.

(** X5. The audience of a launch is the count a refresh has just written:
    when [refresh_segment] stores a positive [customer_count] for a
    segment, launching a draft campaign of that segment right after
    simulates exactly that many messages sent, whatever the draws. *)
Theorem launch_sends_refreshed_count (now stamp stamp_results refreshed_at : Z)
    (d : Draws) (st st1 : Store)
    (segment' : Segment.t) (campaign_id : Z) (campaign : Campaign.t)
    (results : CampaignResult.t) :
  refresh_segment refreshed_at st (Campaign.segment_id campaign)
  = Ok (st1, Some segment') ->
  0 < Segment.customer_count segment' ->
  campaigns st1 !! campaign_id = Some campaign ->
  Campaign.status campaign = "draft" ->
  Campaign.results campaign = Some results ->
  exists st2 campaign' results',
    launch_campaign now stamp stamp_results d campaign_id st1
    = Ok (st2, Some campaign')
    /\ Campaign.results campaign' = Some results'
    /\ CampaignResult.total_sent results' = Segment.customer_count segment'.
Proof.
  intros Href Hpos Hc Hdraft Hres.
  destruct (refresh_segment_inv _ _ _ _ _ Href)
    as (segment & l & Hs & Hl & -> & ->).
  rewrite refreshed_count in Hpos |- *.
  assert (Hl1 : get_segment_customers
            (set_segments st
               (<[Campaign.segment_id campaign :=
                    refreshed refreshed_at (Z.of_nat (length l)) segment]>
                  (segments st)))
            (Campaign.segment_id campaign) = Ok l).
  { rewrite (get_segment_customers_recount st _ _ segment _ Hs)
      by apply refreshed_criteria.
    exact Hl. }
  pose proof (launch_from_draft now stamp stamp_results d _ campaign_id
                campaign l Hc Hdraft Hl1) as Hlaunch.
  destruct (launched_fields now stamp stamp_results d (audience_of d l) campaign)
    as (_ & _ & Hr).
  eexists _, _, _. split; [exact Hlaunch |].
  split; [rewrite Hr, Hres; reflexivity |].
  rewrite (populated_sent _ _ _ _ _ _ _
             (flush_populated d (audience_of d l) stamp_results campaign
                results)).
  apply audience_of_nonempty.
  intros ->. simpl in Hpos. lia.
Qed.

End SegmentMore.

Section CreationFacts.
Context `{PyBuiltins} `{Customer.attributes} `{JsonEncoder}.

Lemma ruleless_matches (c : Customer.t) (d : list (string * pyval)) (rules : pyval) :
  py_get (PDict d) "rules" (PList []) = Ok rules ->
  py_truthy rules = false ->
  evaluate_segment_criteria c (PDict d) = Ok true.
Proof.
  intros Hr Hf.
  change (evaluate_decoded c (PDict d) = Ok true).
  unfold evaluate_decoded. rewrite Hr. simpl. rewrite Hf. reflexivity.
Qed.

Lemma matching_everyone (cs : list Customer.t) (criteria : pyval) :
  (forall c, evaluate_segment_criteria c criteria = Ok true) ->
  matching_customers cs criteria = Ok cs.
Proof.
  intros Hall. induction cs as [| c cs IH]; [reflexivity |].
  simpl. rewrite Hall, IH. reflexivity.
Qed.

(** X6. A segment created from a criteria document without rules (no
    [rules] entry, or an empty one) counts every stored customer: provided
    the stored text decodes back to the document, [create_segment] returns
    the new segment with [customer_count] the number of customers, and the
    store holds it under its key. *)
Theorem create_ruleless_segment_counts_everyone
    (new_id created updated stamp : Z) (name : string)
    (d : list (string * pyval)) (rules : pyval) (description : option string)
    (segment_type : string) (st : Store) :
  json_dumps (PDict d) <> "" ->
  json_loads (json_dumps (PDict d)) = Some (PDict d) ->
  py_get (PDict d) "rules" (PList []) = Ok rules ->
  py_truthy rules = false ->
  exists st' segment,
    create_segment new_id created updated stamp name (PDict d) description
      segment_type st
    = (st', Ok segment)
    /\ Segment.customer_count segment = Z.of_nat (length (customers st))
    /\ segments st' !! new_id = Some segment
    /\ customers st' = customers st.
Proof.
  intros Hne Hrt Hr Hf. unfold create_segment.
  set (segment := Segment.mk new_id name description (criteria_text (PDict d))
                    segment_type 0 true created updated).
  set (st1 := set_segments st (<[new_id := segment]> (segments st))).
  assert (Hl : get_segment_customers st1 new_id = Ok (customers st)).
  { unfold get_segment_customers. subst st1. simpl.
    rewrite lookup_insert_eq.
    unfold Segment.get_criteria, loads_or. simpl.
    destruct (String.eqb_spec (json_dumps (PDict d)) ""); [contradiction |].
    rewrite Hrt. simpl. apply matching_everyone.
    intros c. eapply ruleless_matches; eassumption. }
  unfold refresh_segment.
  replace (segments st1 !! new_id) with (Some segment)
    by (subst st1; simpl; rewrite lookup_insert_eq; reflexivity).
  rewrite Hl. cbn [mbind result_bind].
  eexists _, _. split; [reflexivity |].
  split; [apply refreshed_count |].
  split; [apply lookup_insert_eq | reflexivity].
Qed.

(** X7. A criteria string that does not decode leaves a half-made
    segment: [create_segment] raises [ValueError] from its refresh, but the
    row it committed before stays in the store, with the text as given and
    a count of 0. *)
Theorem create_segment_undecodable_text (new_id created updated stamp : Z)
    (name text : string)
    (description : option string) (segment_type : string) (st : Store) :
  text <> "" ->
  json_loads text = None ->
  exists st',
    create_segment new_id created updated stamp name (PStr text) description
      segment_type st
    = (st', Raise ValueError)
    /\ segments st' !! new_id
       = Some (Segment.mk new_id name description text segment_type 0 true
                 created updated)
    /\ (forall other, other <> new_id ->
        segments st' !! other = segments st !! other).
Proof.
  intros Hne Hbad. unfold create_segment. simpl criteria_text.
  set (segment := Segment.mk new_id name description text segment_type 0 true
                    created updated).
  set (st1 := set_segments st (<[new_id := segment]> (segments st))).
  assert (Hs : segments st1 !! new_id = Some segment)
    by (subst st1; simpl; apply lookup_insert_eq).
  unfold refresh_segment. rewrite Hs.
  rewrite (malformed_stored_criteria_raise st1 new_id segment Hs Hne Hbad).
  simpl. exists st1. split; [reflexivity |]. split; [exact Hs |].
  intros other Ho. subst st1. simpl. apply lookup_insert_ne. congruence.
Qed.

(** X8. Through the [POST /segments] handler a criteria string never
    reaches the evaluator as a string: the handler wraps it into a
    document without rules, which matches every customer. *)
Theorem request_string_criteria_match_everyone (data : pyval) (text : string)
    (c : Customer.t) :
  py_get data "criteria" (PDict []) = Ok (PStr text) ->
  exists criteria,
    request_criteria data = Ok criteria
    /\ (forall s, criteria <> PStr s)
    /\ py_get criteria "description" PNone = Ok (PStr text)
    /\ evaluate_segment_criteria c criteria = Ok true.
Proof.
  intros Hget. unfold request_criteria. rewrite Hget. simpl.
  eexists. split; [reflexivity |]. split; [discriminate |].
  split; reflexivity.
Qed.

End CreationFacts.

(** ** The simulated counters *)

Lemma inject_Z_nonneg (k : Z) : 0 <= k -> (0 <= inject_Z k)%Q.
Proof. intros Hk. rewrite Zle_Qle in Hk. exact Hk. Qed.

Lemma py_int_floor (x : Q) : (0 <= x)%Q -> py_int x = Qfloor x.
Proof.
  destruct x as [p q]. unfold Qle. simpl. intros Hp.
  unfold py_int. simpl. apply Z.quot_div_nonneg; lia.
Qed.

Lemma py_int_nonneg (x : Q) : (0 <= x)%Q -> 0 <= py_int x.
Proof.
  intros Hx. rewrite py_int_floor by assumption.
  rewrite <- (Qfloor_Z 0). apply Qfloor_resp_le. exact Hx.
Qed.

Lemma py_int_mono (x y : Q) : (0 <= x)%Q -> (x <= y)%Q -> py_int x <= py_int y.
Proof.
  intros Hx Hxy. rewrite !py_int_floor.
  - apply Qfloor_resp_le. exact Hxy.
  - eapply Qle_trans; eassumption.
  - exact Hx.
Qed.

(** A share [u] of [k] items, truncated: between 0 and [k]. *)
Lemma share_bounds (k : Z) (u : Q) :
  0 <= k -> (0 <= u)%Q -> (u <= 1)%Q -> 0 <= py_int (inject_Z k * u) <= k.
Proof.
  intros Hk Hlo Hhi. split.
  - apply py_int_nonneg. apply Qmult_le_0_compat; [apply inject_Z_nonneg |]; assumption.
  - apply py_int_scale_le; assumption.
Qed.

Lemma ceiling_share_bounds (k : Z) (u : Q) :
  0 <= k -> (0 <= u)%Q -> (u <= 1)%Q -> 0 <= Qceiling (inject_Z k * u) <= k.
Proof.
  intros Hk Hlo Hhi. pose proof (inject_Z_nonneg k Hk) as Hk'. split.
  - rewrite <- (Qceiling_Z 0). apply Qceiling_resp_le.
    apply Qmult_le_0_compat; assumption.
  - rewrite <- (Qceiling_Z k) at 2. apply Qceiling_resp_le. nra.
Qed.

Lemma ceiling_positive (x : Q) : (0 < x)%Q -> 1 <= Qceiling x.
Proof.
  intros Hx. pose proof (Qle_ceiling x) as Hc.
  assert (H0 : (inject_Z 0 < inject_Z (Qceiling x))%Q)
    by (eapply Qlt_le_trans; eassumption).
  rewrite <- Zlt_Qlt in H0. lia.
Qed.

Lemma ceiling_unit (x : Q) : (0 < x)%Q -> (x < 1)%Q -> Qceiling x = 1.
Proof.
  intros Hlo Hhi. pose proof (ceiling_positive x Hlo) as H1.
  assert (H2 : Qceiling x <= Qceiling 1)
    by (apply Qceiling_resp_le, Qlt_le_weak; exact Hhi).
  change (Qceiling 1) with 1 in H2. lia.
Qed.

(** The views of an audience of [n]: [n * reach] impressions, of which a
    share [u] engages; as long as [reach * u] stays below the delivery
    rate, the engaged are not more than the delivered. *)
Lemma engaged_le_delivered (n reach : Z) (u delta : Q) :
  0 <= n -> 0 <= reach -> (0 <= u)%Q -> (inject_Z reach * u <= delta)%Q ->
  0 <= py_int (inject_Z (n * reach) * u) <= py_int (inject_Z n * delta).
Proof.
  intros Hn Hr Hu Hle.
  pose proof (inject_Z_nonneg n Hn) as Hn'.
  pose proof (inject_Z_nonneg reach Hr) as Hr'.
  assert (H0 : (0 <= inject_Z (n * reach) * u)%Q).
  { rewrite inject_Z_mult. apply Qmult_le_0_compat; [| assumption].
    apply Qmult_le_0_compat; assumption. }
  split; [apply py_int_nonneg; exact H0 |].
  apply py_int_mono; [exact H0 |].
  rewrite inject_Z_mult. nra.
Qed.

Lemma reach_share (reach hi : Z) (u top delta : Q) :
  0 <= reach <= hi -> (0 <= u)%Q -> (u <= top)%Q ->
  (inject_Z hi * top <= delta)%Q ->
  (inject_Z reach * u <= delta)%Q.
Proof.
  intros [Hr0 Hr1] Hu Hut Hd.
  pose proof (inject_Z_nonneg reach Hr0) as Hr0'.
  rewrite Zle_Qle in Hr1.
  eapply Qle_trans; [| exact Hd].
  apply Qmult_le_compat_nonneg; split; assumption.
Qed.

Lemma default_funnel_ordered (key updated : Z) :
  funnel_ordered (CampaignResult.default key updated).
Proof. constructor; simpl; try lia; try reflexivity. discriminate. Qed.

(** The time of the last write is no counter. *)
Lemma flush_ordered (old new : CampaignResult.t) (stamp : Z) :
  funnel_ordered new -> funnel_ordered (CampaignResult.flush old new stamp).
Proof.
  intros [? ? ? ? ? ? ? ? ?]. unfold CampaignResult.flush.
  destruct (CampaignResult.same_counters old new); constructor; assumption.
Qed.

Lemma flush_campaign_id (old new : CampaignResult.t) (stamp : Z) :
  CampaignResult.campaign_id (CampaignResult.flush old new stamp)
  = CampaignResult.campaign_id new.
Proof.
  unfold CampaignResult.flush.
  destruct (CampaignResult.same_counters old new); reflexivity.
Qed.

Section Unit_interval.
Variable d : Draws.
Hypothesis Hd : draws_in_range d.

Lemma delivery_unit : (0 <= delivery d)%Q /\ (delivery d <= 1)%Q.
Proof.
  destruct (delivery_range d Hd) as [Hlo Hhi]. split.
  - eapply Qle_trans; [| exact Hlo]. discriminate.
  - eapply Qle_trans; [exact Hhi |]. discriminate.
Qed.

Lemma email_open_unit : (0 <= email_open d)%Q /\ (email_open d <= 1)%Q.
Proof.
  destruct (email_open_range d Hd) as [Hlo Hhi]. split.
  - eapply Qle_trans; [| exact Hlo]. discriminate.
  - eapply Qle_trans; [exact Hhi |]. discriminate.
Qed.

Lemma email_click_unit : (0 <= email_click d)%Q /\ (email_click d <= 1)%Q.
Proof.
  destruct (email_click_range d Hd) as [Hlo Hhi]. split.
  - eapply Qle_trans; [| exact Hlo]. discriminate.
  - eapply Qle_trans; [exact Hhi |]. discriminate.
Qed.

Lemma social_click_unit : (0 <= social_click d)%Q /\ (social_click d <= 1)%Q.
Proof.
  destruct (social_click_range d Hd) as [Hlo Hhi]. split.
  - eapply Qle_trans; [| exact Hlo]. discriminate.
  - eapply Qle_trans; [exact Hhi |]. discriminate.
Qed.

Lemma conversion_unit : (0 < conversion d)%Q /\ (conversion d <= 1)%Q.
Proof.
  destruct (conversion_range d Hd) as [Hlo Hhi]. split.
  - eapply Qlt_le_trans; [| exact Hlo]. reflexivity.
  - eapply Qle_trans; [exact Hhi |]. discriminate.
Qed.

Lemma lead_gen_unit : (0 < lead_gen d)%Q /\ (lead_gen d <= 1)%Q.
Proof.
  destruct (lead_gen_range d Hd) as [Hlo Hhi]. split.
  - eapply Qlt_le_trans; [| exact Hlo]. reflexivity.
  - eapply Qle_trans; [exact Hhi |]. discriminate.
Qed.

Lemma lead_conv_unit : (0 < lead_conv d)%Q /\ (lead_conv d <= 1)%Q.
Proof.
  destruct (lead_conv_range d Hd) as [Hlo Hhi]. split.
  - eapply Qlt_le_trans; [| exact Hlo]. reflexivity.
  - eapply Qle_trans; [exact Hhi |]. discriminate.
Qed.

Lemma social_engaged : (inject_Z (social_reach d) * social_open d <= delivery d)%Q
                       /\ 0 <= social_reach d /\ (0 <= social_open d)%Q.
Proof.
  destruct (social_reach_range d Hd) as [Hr0 Hr1].
  destruct (social_open_range d Hd) as [Ho0 Ho1].
  destruct (delivery_range d Hd) as [Hd0 _].
  assert (Hu : (0 <= social_open d)%Q)
    by (eapply Qle_trans; [| exact Ho0]; discriminate).
  split; [| split; [lia | exact Hu]].
  eapply Qle_trans; [| exact Hd0].
  apply (reach_share _ 5 _ (8 # 100)); [lia | exact Hu | exact Ho1 | discriminate].
Qed.

Lemma ads_engaged : (inject_Z (ads_reach d) * ads_click d <= delivery d)%Q
                    /\ 0 <= ads_reach d /\ (0 <= ads_click d)%Q.
Proof.
  destruct (ads_reach_range d Hd) as [Hr0 Hr1].
  destruct (ads_click_range d Hd) as [Ho0 Ho1].
  destruct (delivery_range d Hd) as [Hd0 _].
  assert (Hu : (0 <= ads_click d)%Q)
    by (eapply Qle_trans; [| exact Ho0]; discriminate).
  split; [| split; [lia | exact Hu]].
  eapply Qle_trans; [| exact Hd0].
  apply (reach_share _ 15 _ (5 # 100)); [lia | exact Hu | exact Ho1 | discriminate].
Qed.

End Unit_interval.

Lemma simulate_engagement (d : Draws) (n : Z) (campaign : Campaign.t)
    (r : CampaignResult.t) :
  CampaignResult.opens (simulate d n campaign r)
  = (engagement d n (Campaign.campaign_type campaign)).1
  /\ CampaignResult.clicks (simulate d n campaign r)
     = (engagement d n (Campaign.campaign_type campaign)).2.
Proof.
  unfold simulate, engagement.
  destruct (String.eqb (Campaign.campaign_type campaign) "email");
    [| destruct (String.eqb (Campaign.campaign_type campaign) "social")];
    simpl; auto.
Qed.

Lemma simulate_conversions (d : Draws) (n : Z) (campaign : Campaign.t)
    (r : CampaignResult.t) :
  let clicks := CampaignResult.clicks (simulate d n campaign r) in
  let raw := (inject_Z clicks * conversion d)%Q in
  CampaignResult.conversions (simulate d n campaign r)
  = (if negb (Qle_bool 1 raw) && Z.ltb 0 clicks && negb (Qle_bool (coin d) (1 # 2))
     then 1 else Qceiling raw)
  /\ CampaignResult.leads_generated (simulate d n campaign r)
     = Qceiling (inject_Z clicks * lead_gen d)
  /\ CampaignResult.leads_converted (simulate d n campaign r)
     = Qceiling (inject_Z (CampaignResult.leads_generated (simulate d n campaign r))
                 * lead_conv d)
  /\ CampaignResult.revenue_attributed (simulate d n campaign r)
     = (inject_Z (CampaignResult.conversions (simulate d n campaign r))
        * order_value d)%Q
  /\ CampaignResult.campaign_id (simulate d n campaign r)
     = CampaignResult.campaign_id r.
Proof.
  unfold simulate.
  destruct (String.eqb (Campaign.campaign_type campaign) "email");
    [| destruct (String.eqb (Campaign.campaign_type campaign) "social")];
    simpl; auto 10.
Qed.

Lemma engagement_ordered (d : Draws) (n : Z) (campaign_type : string) :
  draws_in_range d -> 0 <= n ->
  let '(opens, clicks) := engagement d n campaign_type in
  0 <= clicks /\ clicks <= opens /\ opens <= py_int (inject_Z n * delivery d).
Proof.
  intros Hd Hn. unfold engagement.
  destruct (delivery_unit d Hd) as [Hd0 Hd1].
  destruct (share_bounds n (delivery d) Hn Hd0 Hd1) as [Hdel0 _].
  destruct (String.eqb campaign_type "email").
  - destruct (email_open_unit d Hd) as [Ho0 Ho1].
    destruct (email_click_unit d Hd) as [Hc0 Hc1].
    destruct (share_bounds _ (email_open d) Hdel0 Ho0 Ho1) as [Hop0 Hop1].
    destruct (share_bounds _ (email_click d) Hop0 Hc0 Hc1) as [Hcl0 Hcl1].
    auto.
  - destruct (String.eqb campaign_type "social").
    + destruct (social_engaged d Hd) as (Hle & Hr & Hu).
      destruct (social_click_unit d Hd) as [Hc0 Hc1].
      destruct (engaged_le_delivered n _ _ _ Hn Hr Hu Hle) as [Hop0 Hop1].
      destruct (share_bounds _ (social_click d) Hop0 Hc0 Hc1) as [Hcl0 Hcl1].
      auto.
    + destruct (ads_engaged d Hd) as (Hle & Hr & Hu).
      destruct (engaged_le_delivered n _ _ _ Hn Hr Hu Hle) as [Hop0 Hop1].
      split; [exact Hop0 | split; [lia | exact Hop1]].
Qed.

Lemma coin_branch (clicks : Z) (rate toss : Q) :
  (0 < rate)%Q ->
  (if negb (Qle_bool 1 (inject_Z clicks * rate)) && Z.ltb 0 clicks
      && negb (Qle_bool toss (1 # 2))
   then 1 else Qceiling (inject_Z clicks * rate))
  = Qceiling (inject_Z clicks * rate).
Proof.
  intros Hc.
  destruct (Qle_bool 1 (inject_Z clicks * rate)) eqn:Eraw; [reflexivity |].
  destruct (Z.ltb_spec 0 clicks) as [Hpos | _]; [| reflexivity].
  destruct (negb (Qle_bool toss (1 # 2))); [| reflexivity].
  simpl. symmetry. apply ceiling_unit.
  - assert (Hk : (0 < inject_Z clicks)%Q)
      by (rewrite Zlt_Qlt in Hpos; exact Hpos).
    nra.
  - apply Qnot_le_lt. intros Hge. apply Qle_bool_iff in Hge. congruence.
Qed.

Lemma conversion_positive (d : Draws) :
  between (5 # 100) (conversion d) (20 # 100) -> (0 < conversion d)%Q.
Proof. intros [Hlo _]. eapply Qlt_le_trans; [| exact Hlo]. reflexivity. Qed.

Lemma conversions_ceiling (d : Draws) (n : Z) (campaign : Campaign.t)
    (r : CampaignResult.t) :
  between (5 # 100) (conversion d) (20 # 100) ->
  CampaignResult.conversions (simulate d n campaign r)
  = Qceiling (inject_Z (CampaignResult.clicks (simulate d n campaign r))
              * conversion d).
Proof.
  intros Hr. destruct (simulate_conversions d n campaign r) as (-> & _).
  apply coin_branch, conversion_positive, Hr.
Qed.

(** X9. The coin of the conversion step never decides anything.  For a
    conversion draw in its range, a launch simulates the same result row
    whatever [random.random()] returns, and its conversions are the
    ceiling of [clicks * rate]: when the special case applies ([raw < 1]
    with a click), that ceiling is 1 already. *)
Theorem conversions_ignore_coin (d : Draws) (toss : Q) (n : Z)
    (campaign : Campaign.t) (r : CampaignResult.t) :
  between (5 # 100) (conversion d) (20 # 100) ->
  simulate (set_coin d toss) n campaign r = simulate d n campaign r
  /\ CampaignResult.conversions (simulate d n campaign r)
     = Qceiling (inject_Z (CampaignResult.clicks (simulate d n campaign r))
                 * conversion d).
Proof.
  intros Hr. split; [| apply conversions_ceiling; exact Hr].
  pose proof (conversion_positive d Hr) as Hc.
  unfold simulate. cbn [set_coin delivery email_open email_click social_reach
    social_open social_click ads_reach ads_click conversion coin lead_gen
    lead_conv order_value].
  destruct (String.eqb (Campaign.campaign_type campaign) "email");
    [| destruct (String.eqb (Campaign.campaign_type campaign) "social")];
    cbv zeta; rewrite !coin_branch by exact Hc; reflexivity.
Qed.

(** The counters [simulate] writes are ordered. *)
Lemma simulate_ordered (d : Draws) (n : Z) (campaign : Campaign.t)
    (r : CampaignResult.t) :
  draws_in_range d -> 1 <= n ->
  funnel_ordered (simulate d n campaign r).
Proof.
  intros Hd Hn.
  destruct (simulate_delivery d n campaign r) as (Hsent & Hdel & Hb).
  destruct (simulate_engagement d n campaign r) as (Hop & Hcl).
  pose proof (engagement_ordered d n (Campaign.campaign_type campaign) Hd
                ltac:(lia)) as Heng.
  destruct (engagement d n (Campaign.campaign_type campaign)) as [opens clicks].
  simpl in Hop, Hcl. destruct Heng as (Hc0 & Hco & Hod).
  destruct (delivery_unit d Hd) as [Hd0 Hd1].
  destruct (conversion_unit d Hd) as [Hcv0 Hcv1].
  destruct (lead_gen_unit d Hd) as [Hlg0 Hlg1].
  destruct (lead_conv_unit d Hd) as [Hlc0 Hlc1].
  destruct (simulate_conversions d n campaign r) as (_ & Hlg & Hlcv & Hrev & _).
  pose proof (conversions_ceiling d n campaign r (conversion_range d Hd)) as Hcv.
  cbv zeta in Hlg. rewrite Hcl in Hcv, Hlg.
  destruct (ceiling_share_bounds clicks (conversion d) Hc0
              (Qlt_le_weak _ _ Hcv0) Hcv1) as [Hv0 Hv1].
  destruct (ceiling_share_bounds clicks (lead_gen d) Hc0
              (Qlt_le_weak _ _ Hlg0) Hlg1) as [Hg0 Hg1].
  rewrite <- Hlg in Hg0, Hg1. rewrite <- Hcv in Hv0, Hv1.
  destruct (ceiling_share_bounds _ (lead_conv d) Hg0
              (Qlt_le_weak _ _ Hlc0) Hlc1) as [Hlv0 Hlv1].
  rewrite <- Hlcv in Hlv0, Hlv1.
  constructor.
  - rewrite Hcl. exact Hc0.
  - rewrite Hcl, Hop. exact Hco.
  - rewrite Hop, Hdel. exact Hod.
  - rewrite Hdel, Hsent. apply py_int_scale_le; [lia | assumption | assumption].
  - exact Hb.
  - rewrite Hcl. lia.
  - rewrite Hcl. lia.
  - lia.
  - rewrite Hrev. apply Qmult_le_0_compat; [apply inject_Z_nonneg; exact Hv0 |].
    destruct (order_value_range d Hd) as [Ho _].
    eapply Qle_trans; [| exact Ho]. discriminate.
Qed.

(** X11. A launch with a click has a conversion and a lead: for draws in
    their ranges, if the simulated clicks are positive then the
    conversions, the leads generated and the leads converted are all at
    least 1. *)
Theorem clicks_always_convert (d : Draws) (n : Z) (campaign : Campaign.t)
    (r : CampaignResult.t) :
  draws_in_range d ->
  0 < CampaignResult.clicks (simulate d n campaign r) ->
  1 <= CampaignResult.conversions (simulate d n campaign r)
  /\ 1 <= CampaignResult.leads_generated (simulate d n campaign r)
  /\ 1 <= CampaignResult.leads_converted (simulate d n campaign r).
Proof.
  intros Hd Hpos.
  destruct (conversion_unit d Hd) as [Hcv0 _].
  destruct (lead_gen_unit d Hd) as [Hlg0 _].
  destruct (lead_conv_unit d Hd) as [Hlc0 _].
  destruct (simulate_conversions d n campaign r) as (_ & Hlg & Hlcv & _).
  cbv zeta in Hlg.
  rewrite (conversions_ceiling d n campaign r (conversion_range d Hd)).
  assert (Hk : (0 < inject_Z (CampaignResult.clicks (simulate d n campaign r)))%Q)
    by (rewrite Zlt_Qlt in Hpos; exact Hpos).
  assert (Hg : 1 <= CampaignResult.leads_generated (simulate d n campaign r)).
  { rewrite Hlg. apply ceiling_positive. nra. }
  split; [apply ceiling_positive; nra |]. split; [exact Hg |].
  rewrite Hlcv. apply ceiling_positive.
  assert (Hg0 : 0 < CampaignResult.leads_generated (simulate d n campaign r))
    by lia.
  rewrite Zlt_Qlt in Hg0. change (inject_Z 0) with 0%Q in Hg0. nra.
Qed.

(** ** The lifecycle as a whole *)

Lemma set_campaigns_twice (st : Store) (m m' : gmap Z Campaign.t) :
  set_campaigns (set_campaigns st m) m' = set_campaigns st m'.
Proof. reflexivity. Qed.

(** X12. Pausing and resuming cancel out, up to the time of the update.
    On an active campaign, [pause_campaign] followed by [resume_campaign]
    stores and returns a row with the status it had, active, and with
    every other column and the result row as they were, except
    [updated_at], which holds the time of the second commit; no other row
    of the store changes.  And so does resume followed by pause on a
    paused campaign. *)
Theorem pause_resume_round_trip (first second : Z) (st : Store)
    (campaign_id : Z) (campaign : Campaign.t) :
  campaigns st !! campaign_id = Some campaign ->
  (Campaign.status campaign = "active" ->
   exists st' campaign',
     resume_campaign second campaign_id
       (pause_campaign first campaign_id st).1
     = (st', Some campaign')
     /\ campaigns st' !! campaign_id = Some campaign'
     /\ Campaign.status campaign' = "active"
     /\ Campaign.updated_at campaign' = second
     /\ same_but_status campaign campaign'
     /\ only_campaign_changed campaign_id st st')
  /\ (Campaign.status campaign = "paused" ->
      exists st' campaign',
        pause_campaign second campaign_id
          (resume_campaign first campaign_id st).1
        = (st', Some campaign')
        /\ campaigns st' !! campaign_id = Some campaign'
        /\ Campaign.status campaign' = "paused"
        /\ Campaign.updated_at campaign' = second
        /\ same_but_status campaign campaign'
        /\ only_campaign_changed campaign_id st st').
Proof.
  intros Hc. split; intros Hs.
  - unfold pause_campaign. rewrite Hc, Hs.
    change (String.eqb "active" "active") with true. cbv iota. cbn [fst].
    unfold resume_campaign. cbn [campaigns set_campaigns].
    rewrite lookup_insert_eq.
    change (String.eqb
              (Campaign.status
                 (Campaign.set_updated_at
                    (Campaign.set_status campaign "paused") first))
              "paused") with true.
    cbv iota. rewrite set_campaigns_twice, insert_insert_eq.
    eexists _, _. split; [reflexivity |].
    split; [apply lookup_insert_eq |].
    split; [reflexivity |]. split; [reflexivity |].
    split; [constructor; reflexivity |].
    repeat split. intros other Hne. simpl. apply lookup_insert_ne. congruence.
  - unfold resume_campaign. rewrite Hc, Hs.
    change (String.eqb "paused" "paused") with true. cbv iota. cbn [fst].
    unfold pause_campaign. cbn [campaigns set_campaigns].
    rewrite lookup_insert_eq.
    change (String.eqb
              (Campaign.status
                 (Campaign.set_updated_at
                    (Campaign.set_status campaign "active") first))
              "active") with true.
    cbv iota. rewrite set_campaigns_twice, insert_insert_eq.
    eexists _, _. split; [reflexivity |].
    split; [apply lookup_insert_eq |].
    split; [reflexivity |]. split; [reflexivity |].
    split; [constructor; reflexivity |].
    repeat split. intros other Hne. simpl. apply lookup_insert_ne. congruence.
Qed.

(** The row [complete_campaign] stores, written or not. *)
Lemma complete_campaign_stored (now stamp : Z) (st : Store) (campaign_id : Z)
    (campaign : Campaign.t) :
  campaigns st !! campaign_id = Some campaign ->
  let completed :=
    Campaign.set_end_date (Campaign.set_status campaign "completed") (Some now) in
  exists stored,
    complete_campaign now stamp campaign_id st
    = (set_campaigns st (<[campaign_id := stored]> (campaigns st)),
       Some stored)
    /\ (stored = completed \/ stored = Campaign.set_updated_at completed stamp).
Proof.
  intros Hc. unfold complete_campaign. rewrite Hc.
  destruct (String.eqb (Campaign.status campaign) "completed"
            && opt_eqb Z.eqb (Campaign.end_date campaign) (Some now));
    eexists; split; try reflexivity; auto.
Qed.

Section LifecycleMore.
Context `{PyBuiltins} `{Customer.attributes}.

Lemma launch_inv (now stamp stamp_results : Z) (d : Draws) (campaign_id : Z)
    (st st' : Store) (r : option Campaign.t) :
  launch_campaign now stamp stamp_results d campaign_id st = Ok (st', r) ->
  (campaigns st !! campaign_id = None /\ st' = st /\ r = None)
  \/ (exists c, campaigns st !! campaign_id = Some c
                /\ Campaign.status c <> "draft" /\ st' = st /\ r = Some c)
  \/ (exists c l, campaigns st !! campaign_id = Some c
                  /\ Campaign.status c = "draft"
                  /\ get_segment_customers st (Campaign.segment_id c) = Ok l
                  /\ st' = set_campaigns st
                             (<[campaign_id :=
                                  launched now stamp stamp_results d
                                    (audience_of d l) c]>
                                (campaigns st))
                  /\ r = Some (launched now stamp stamp_results d
                                 (audience_of d l) c)).
Proof.
  unfold launch_campaign.
  destruct (campaigns st !! campaign_id) as [c |] eqn:Hc.
  - destruct (String.eqb_spec (Campaign.status c) "draft") as [Hs | Hs]; simpl.
    + destruct (get_segment_customers st (Campaign.segment_id c)) as [l | e] eqn:Hl;
        simpl; [| discriminate].
      intros [= <- <-]. right. right. exists c, l. auto.
    + intros [= <- <-]. right. left. exists c. auto.
  - intros [= <- <-]. left. auto.
Qed.


(** X13. Launching is idempotent: whatever a launch returned, a second
    launch of the same campaign on the store it left, at any time and with
    any draws, returns the same and changes nothing; no campaign is
    simulated twice. *)
Theorem launch_idempotent (now stamp stamp_results now' stamp' stamp_results' : Z)
    (d d' : Draws) (campaign_id : Z)
    (st st' : Store) (r : option Campaign.t) :
  launch_campaign now stamp stamp_results d campaign_id st = Ok (st', r) ->
  launch_campaign now' stamp' stamp_results' d' campaign_id st' = Ok (st', r).
Proof.
  intros Hl.
  destruct (launch_inv _ _ _ _ _ _ _ _ Hl)
    as [(Hc & -> & ->) | [(c & Hc & Hs & -> & ->) | (c & l & Hc & Hs & Ha & -> & ->)]].
  - unfold launch_campaign. rewrite Hc. reflexivity.
  - unfold launch_campaign. rewrite Hc.
    destruct (String.eqb_spec (Campaign.status c) "draft");
      [contradiction | reflexivity].
  - unfold launch_campaign at 1. simpl. rewrite lookup_insert_eq.
    destruct (launched_fields now stamp stamp_results d (audience_of d l) c)
      as (-> & _).
    reflexivity.
Qed.

(** X14. Completed is final for the three other operations: on the store
    [complete_campaign] leaves, [launch_campaign], [pause_campaign] and
    [resume_campaign] of that campaign change nothing and return the
    completed campaign. *)
Theorem completed_is_final (now stamp now' stamp' stamp_results' : Z)
    (d : Draws) (st : Store)
    (campaign_id : Z) (campaign : Campaign.t) :
  campaigns st !! campaign_id = Some campaign ->
  exists st' completed,
    complete_campaign now stamp campaign_id st = (st', Some completed)
    /\ launch_campaign now' stamp' stamp_results' d campaign_id st'
       = Ok (st', Some completed)
    /\ pause_campaign stamp' campaign_id st' = (st', Some completed)
    /\ resume_campaign stamp' campaign_id st' = (st', Some completed).
Proof.
  intros Hc.
  destruct (complete_campaign_stored now stamp st campaign_id campaign Hc)
    as (stored & -> & Hstored).
  assert (Hs : Campaign.status stored = "completed")
    by (destruct Hstored as [-> | ->]; reflexivity).
  eexists _, _. split; [reflexivity |].
  unfold launch_campaign, pause_campaign, resume_campaign. simpl.
  rewrite lookup_insert_eq, Hs. simpl. auto.
Qed.

Lemma launched_ok (now stamp stamp_results : Z) (d : Draws)
    (l : list Customer.t) (key : Z) (c : Campaign.t) :
  draws_in_range d -> Campaign.status c = "draft" -> campaign_ok key c ->
  campaign_ok key (launched now stamp stamp_results d (audience_of d l) c).
Proof.
  intros Hd Hs [Hid _ (r & Hr & Hrid & _ & _) _ _ Hend].
  destruct (launched_fields now stamp stamp_results d (audience_of d l) c)
    as (Hst & Hsd & Hres).
  assert (Hend' : Campaign.end_date
                    (launched now stamp stamp_results d (audience_of d l) c)
                  = Campaign.end_date c).
  { unfold launched. simpl. destruct (Campaign.results c); reflexivity. }
  assert (Hid' : Campaign.id
                   (launched now stamp stamp_results d (audience_of d l) c)
                 = Campaign.id c).
  { unfold launched. simpl. destruct (Campaign.results c); reflexivity. }
  constructor.
  - congruence.
  - rewrite Hst. simpl. tauto.
  - exists (CampaignResult.flush r (simulate d (audience_of d l) c r)
              stamp_results).
    split; [rewrite Hres, Hr; reflexivity |].
    destruct (simulate_conversions d (audience_of d l) c r) as (_ & _ & _ & _ & Hcid).
    split; [rewrite flush_campaign_id; congruence |]. split.
    + apply flush_ordered. apply simulate_ordered; [exact Hd |].
      apply audience_positive. apply (fallback_audience_range d Hd).
    + rewrite Hsd. discriminate.
  - rewrite Hst. discriminate.
  - intros _. rewrite Hsd. eauto.
  - rewrite Hend', Hst, Hend, Hs. split; discriminate.
Qed.

Lemma restamp_ok (key stamp : Z) (c : Campaign.t) :
  campaign_ok key c -> campaign_ok key (Campaign.set_updated_at c stamp).
Proof.
  intros [Hid Hknown Hres Hdraft Hrun Hend]. constructor; assumption.
Qed.

Lemma restatus_ok (key : Z) (c : Campaign.t) (s : string) :
  campaign_ok key c ->
  (Campaign.status c = "active" \/ Campaign.status c = "paused") ->
  s = "active" \/ s = "paused" ->
  campaign_ok key (Campaign.set_status c s).
Proof.
  intros [Hid Hknown Hres Hdraft Hrun Hend] Hold Hnew.
  constructor; simpl.
  - exact Hid.
  - destruct Hnew as [-> | ->]; tauto.
  - exact Hres.
  - destruct Hnew as [-> | ->]; discriminate.
  - intros _. apply Hrun. exact Hold.
  - rewrite Hend. destruct Hold as [-> | ->], Hnew as [-> | ->];
      split; discriminate.
Qed.

Lemma completed_ok (now key : Z) (c : Campaign.t) :
  campaign_ok key c ->
  campaign_ok key
    (Campaign.set_end_date (Campaign.set_status c "completed") (Some now)).
Proof.
  intros [Hid Hknown Hres Hdraft Hrun Hend].
  constructor; simpl.
  - exact Hid.
  - tauto.
  - exact Hres.
  - discriminate.
  - intros [|]; discriminate.
  - split; eauto.
Qed.

Lemma created_ok (new_id created updated results_updated : Z) (name : string)
    (segment_id : Z)
    (campaign_type : string) (subject content : option string)
    (schedule_time : option Z) (budget : Q) (description : option string)
    (st : Store) :
  campaign_ok new_id
    (create_campaign new_id created updated results_updated name segment_id
       campaign_type subject content schedule_time budget description st).2.
Proof.
  constructor; simpl.
  - reflexivity.
  - tauto.
  - exists (CampaignResult.default new_id results_updated).
    split; [reflexivity |]. split; [reflexivity |].
    split; [apply default_funnel_ordered | reflexivity].
  - reflexivity.
  - intros [|]; discriminate.
  - split; [intros [? ?] |]; discriminate.
Qed.

Lemma step_keeps_ok (st st' : Store) :
  step st st' -> store_ok st -> store_ok st' /\ customers st' = customers st.
Proof.
  unfold store_ok.
  intros Hstep Hok. destruct Hstep as
    [st new_id created updated results_updated name segment_id campaign_type
       subject content schedule_time budget description Hfresh
    | st st' now stamp stamp_results d campaign_id r Hd Hl
    | st stamp campaign_id | st stamp campaign_id | st now stamp campaign_id
    | st st' stamp segment_id r Hr].
  - split; [| reflexivity]. simpl.
    apply map_Forall_insert_2; [| exact Hok].
    apply (created_ok new_id created updated results_updated name segment_id
             campaign_type subject content schedule_time budget description st).
  - destruct (launch_inv _ _ _ _ _ _ _ _ Hl)
      as [(_ & -> & _) | [(c & _ & _ & -> & _) | (c & l & Hc & Hs & _ & -> & _)]];
      [auto | auto |].
    split; [| reflexivity]. simpl.
    apply map_Forall_insert_2; [| exact Hok].
    apply launched_ok; [exact Hd | exact Hs |].
    apply (map_Forall_lookup_1 _ _ _ _ Hok Hc).
  - unfold pause_campaign.
    destruct (campaigns st !! campaign_id) as [c |] eqn:Hc; [| auto].
    destruct (String.eqb_spec (Campaign.status c) "active") as [Hs | _]; [| auto].
    split; [| reflexivity]. simpl.
    apply map_Forall_insert_2; [| exact Hok].
    apply restamp_ok.
    apply restatus_ok; [apply (map_Forall_lookup_1 _ _ _ _ Hok Hc) | auto | auto].
  - unfold resume_campaign.
    destruct (campaigns st !! campaign_id) as [c |] eqn:Hc; [| auto].
    destruct (String.eqb_spec (Campaign.status c) "paused") as [Hs | _]; [| auto].
    split; [| reflexivity]. simpl.
    apply map_Forall_insert_2; [| exact Hok].
    apply restamp_ok.
    apply restatus_ok; [apply (map_Forall_lookup_1 _ _ _ _ Hok Hc) | auto | auto].
  - destruct (campaigns st !! campaign_id) as [c |] eqn:Hc.
    + destruct (complete_campaign_stored now stamp st campaign_id c Hc)
        as (stored & -> & Hstored).
      split; [| reflexivity]. simpl.
      apply map_Forall_insert_2; [| exact Hok].
      pose proof (completed_ok now _ c (map_Forall_lookup_1 _ _ _ _ Hok Hc))
        as Hdone.
      destruct Hstored as [-> | ->]; [exact Hdone | apply restamp_ok, Hdone].
    + unfold complete_campaign. rewrite Hc. auto.
  - unfold refresh_segment in Hr.
    destruct (segments st !! segment_id) as [segment |].
    + destruct (get_segment_customers st segment_id) as [l | e]; simpl in Hr;
        [| discriminate].
      injection Hr as <- _. auto.
    + injection Hr as <- _. auto.
Qed.

Lemma steps_keep_ok (st0 st : Store) :
  store_ok st0 -> rtc step st0 st ->
  store_ok st /\ customers st = customers st0.
Proof.
  intros Hok Hsteps. induction Hsteps as [st | st1 st2 st3 Hstep _ IH].
  - auto.
  - destruct (step_keeps_ok _ _ Hstep Hok) as [H2 Hc2].
    destruct (IH H2) as [H3 Hc3]. split; [exact H3 | congruence].
Qed.

(** X15. What every reachable store satisfies.  Starting from a store
    without campaigns, after any sequence of [create_campaign] (with a
    fresh key), [launch_campaign] (draws in range), [pause_campaign],
    [resume_campaign], [complete_campaign] and [refresh_segment] calls,
    every stored campaign carries its key, has one of the four statuses,
    owns a result row with ordered counters that is still the default one
    if the campaign was never started, has a start date when active or
    paused and none when draft, and has an end date exactly when
    completed; the customers are untouched. *)
Theorem reachable_store_ok (st0 st : Store) :
  campaigns st0 = ∅ ->
  rtc step st0 st ->
  store_ok st /\ customers st = customers st0.
Proof.
  intros Hempty. apply steps_keep_ok.
  unfold store_ok. rewrite Hempty. apply map_Forall_empty.
Qed.

End LifecycleMore.

(** ** Reports *)

(** A guarded rate of two ordered counters is a percentage. *)
Lemma rate_bounds (a b : Z) (rate : Q) :
  0 <= a <= b ->
  (0 < b -> rate = (inject_Z a / inject_Z b * 100)%Q) ->
  (b <= 0 -> rate = 0%Q) ->
  (0 <= rate)%Q /\ (rate <= 100)%Q.
Proof.
  intros [Ha Hab] Hpos Hzero.
  destruct (Z.ltb_spec 0 b) as [Hb | Hb].
  - rewrite (Hpos Hb).
    pose proof (inject_Z_nonneg a Ha) as Ha'.
    rewrite Zle_Qle in Hab. rewrite Zlt_Qlt in Hb.
    change (inject_Z 0) with 0%Q in Hb.
    assert (H0 : (0 <= inject_Z a / inject_Z b)%Q).
    { apply Qle_shift_div_l; [exact Hb |]. nra. }
    assert (H1 : (inject_Z a / inject_Z b <= 1)%Q).
    { apply Qle_shift_div_r; [exact Hb |]. nra. }
    split; nra.
  - rewrite (Hzero Hb). split; discriminate.
Qed.


Lemma sum_Z_acc (l : list Z) (a : Z) : fold_left Z.add l a = a + Analytics.sum_Z l.
Proof.
  unfold Analytics.sum_Z. revert a.
  induction l as [| x l IH]; intros a; simpl; [lia |].
  rewrite (IH (a + x)), (IH (0 + x)). lia.
Qed.

Lemma sum_Z_cons (x : Z) (l : list Z) :
  Analytics.sum_Z (x :: l) = x + Analytics.sum_Z l.
Proof. unfold Analytics.sum_Z at 1. simpl. apply sum_Z_acc. Qed.

Lemma sum_Z_le {A} (f g : A -> Z) (l : list A) :
  Forall (fun x => f x <= g x) l ->
  Analytics.sum_Z (map f l) <= Analytics.sum_Z (map g l).
Proof.
  induction 1 as [| x l Hx _ IH]; [reflexivity |].
  simpl. rewrite !sum_Z_cons. lia.
Qed.

Lemma sum_Z_nonneg {A} (f : A -> Z) (l : list A) :
  Forall (fun x => 0 <= f x) l -> 0 <= Analytics.sum_Z (map f l).
Proof.
  induction 1 as [| x l Hx _ IH]; [reflexivity |].
  simpl. rewrite sum_Z_cons. lia.
Qed.

Lemma all_results_ordered (st : Store) :
  store_ok st -> Forall funnel_ordered (Analytics.all_results st).
Proof.
  intros Hok. apply Forall_forall. intros r Hr.
  unfold Analytics.all_results, Analytics.all_campaigns in Hr.
  apply list_elem_of_omap in Hr as (c & Hc & Hres).
  apply list_elem_of_fmap in Hc as ([k c'] & -> & Hkc).
  apply elem_of_map_to_list in Hkc. simpl in Hres.
  destruct (map_Forall_lookup_1 _ _ _ _ Hok Hkc) as [_ _ (r' & Hr' & _ & Hf & _) _ _ _].
  congruence.
Qed.

(** X17. The funnel of a store that satisfies [store_ok]: its six stages
    are Sent, Delivered, Opened, Clicked, Leads, Converted; the counts
    never increase from Sent to Leads, and the conversions are not more
    than the clicks; every percentage lies between 0 and 100; the Sent
    stage reports 100 percent, also when nothing was sent, in which case
    all the others report 0. *)
Theorem funnel_shape (st : Store) :
  store_ok st ->
  exists sent delivered opens clicks leads converted p2 p3 p4 p5 p6,
    Reports.get_conversion_funnel st
    = Ok [ Reports.mk_stage "Sent" sent 100%Q;
           Reports.mk_stage "Delivered" delivered p2;
           Reports.mk_stage "Opened" opens p3;
           Reports.mk_stage "Clicked" clicks p4;
           Reports.mk_stage "Leads" leads p5;
           Reports.mk_stage "Converted" converted p6 ]
    /\ 0 <= leads <= clicks /\ clicks <= opens /\ opens <= delivered
    /\ delivered <= sent /\ 0 <= converted <= clicks
    /\ Forall (fun p => (0 <= p)%Q /\ (p <= 100)%Q) [p2; p3; p4; p5; p6]
    /\ (sent <= 0 -> [p2; p3; p4; p5; p6] = [0%Q; 0%Q; 0%Q; 0%Q; 0%Q]).
Proof.
  intros Hok. pose proof (all_results_ordered st Hok) as Hall.
  unfold Reports.get_conversion_funnel.
  set (results := Analytics.all_results st) in *.
  assert (Hlc : 0 <= Analytics.sum_Z (map CampaignResult.leads_generated results)
                <= Analytics.sum_Z (map CampaignResult.clicks results)).
  { split; [apply sum_Z_nonneg | apply sum_Z_le];
      (eapply Forall_impl; [exact Hall |]); intros r [];
      cbn beta; lia. }
  assert (Hco : Analytics.sum_Z (map CampaignResult.clicks results)
                <= Analytics.sum_Z (map CampaignResult.opens results)).
  { apply sum_Z_le. eapply Forall_impl; [exact Hall |]. intros r []. assumption. }
  assert (Hod : Analytics.sum_Z (map CampaignResult.opens results)
                <= Analytics.sum_Z (map CampaignResult.delivered results)).
  { apply sum_Z_le. eapply Forall_impl; [exact Hall |]. intros r []. assumption. }
  assert (Hds : Analytics.sum_Z (map CampaignResult.delivered results)
                <= Analytics.sum_Z (map CampaignResult.total_sent results)).
  { apply sum_Z_le. eapply Forall_impl; [exact Hall |]. intros r []. assumption. }
  assert (Hcv : 0 <= Analytics.sum_Z (map CampaignResult.conversions results)
                <= Analytics.sum_Z (map CampaignResult.clicks results)).
  { split; [apply sum_Z_nonneg | apply sum_Z_le];
      (eapply Forall_impl; [exact Hall |]); intros r [];
      cbn beta; lia. }
  cbv zeta.
  set (sent := Analytics.sum_Z (map CampaignResult.total_sent results)) in *.
  destruct (ltb_guard sent
              (inject_Z (Analytics.sum_Z
                           (map CampaignResult.delivered results))))
    as (p2 & -> & G2).
  destruct (ltb_guard sent
              (inject_Z (Analytics.sum_Z (map CampaignResult.opens results))))
    as (p3 & -> & G3).
  destruct (ltb_guard sent
              (inject_Z (Analytics.sum_Z (map CampaignResult.clicks results))))
    as (p4 & -> & G4).
  destruct (ltb_guard sent
              (inject_Z (Analytics.sum_Z
                           (map CampaignResult.leads_generated results))))
    as (p5 & -> & G5).
  destruct (ltb_guard sent
              (inject_Z (Analytics.sum_Z
                           (map CampaignResult.conversions results))))
    as (p6 & -> & G6).
  do 11 eexists. split; [reflexivity |].
  repeat (split; [lia |]). split.
  - repeat (apply Forall_cons_2; [| try apply Forall_nil_2]).
    + eapply rate_bounds; [| exact (proj1 G2) | exact (proj2 G2)]. lia.
    + eapply rate_bounds; [| exact (proj1 G3) | exact (proj2 G3)]. lia.
    + eapply rate_bounds; [| exact (proj1 G4) | exact (proj2 G4)]. lia.
    + eapply rate_bounds; [| exact (proj1 G5) | exact (proj2 G5)]. lia.
    + eapply rate_bounds; [| exact (proj1 G6) | exact (proj2 G6)]. lia.
  - intros Hs.
    rewrite (proj2 G2 Hs), (proj2 G3 Hs), (proj2 G4 Hs), (proj2 G5 Hs),
      (proj2 G6 Hs).
    reflexivity.
Qed.

Lemma count_cons {A} (p : A -> bool) (x : A) (l : list A) :
  Analytics.count p (x :: l)
  = (if p x then 1 else 0) + Analytics.count p l.
Proof.
  unfold Analytics.count. rewrite filter_cons.
  destruct (decide (p x = true)) as [-> | Hn]; simpl length.
  - lia.
  - destruct (p x); [congruence | lia].
Qed.

Lemma status_partition (l : list Campaign.t) :
  Forall (fun c => In (Campaign.status c)
                     ["draft"; "active"; "paused"; "completed"]) l ->
  Z.of_nat (length l)
  = Analytics.count (Analytics.has_status "active") l
    + Analytics.count (Analytics.has_status "completed") l
    + Analytics.count (Analytics.has_status "draft") l
    + Analytics.count (Analytics.has_status "paused") l.
Proof.
  induction 1 as [| c l Hc _ IH]; [reflexivity |].
  rewrite !count_cons. simpl length. unfold Analytics.has_status in *.
  simpl in Hc.
  destruct Hc as [<- | [<- | [<- | [<- | []]]]]; simpl; lia.
Qed.

Lemma all_campaigns_ok (st : Store) :
  store_ok st ->
  Forall (fun c => campaign_ok (Campaign.id c) c) (Analytics.all_campaigns st).
Proof.
  intros Hok. apply Forall_forall. intros c Hc.
  unfold Analytics.all_campaigns in Hc.
  apply list_elem_of_fmap in Hc as ([k c'] & -> & Hkc).
  apply elem_of_map_to_list in Hkc. simpl.
  pose proof (map_Forall_lookup_1 _ _ _ _ Hok Hkc) as Hck.
  rewrite (key_is_id _ _ Hck). exact Hck.
Qed.

(** X18. The overview of a store that satisfies [store_ok]: the three
    status counts it reports and the number of paused campaigns, which it
    does not report, add up to [total_campaigns]; its open, click and
    conversion rates lie between 0 and 100; and its leads are not more
    than its customers. *)
Theorem overview_consistent (st : Store) :
  store_ok st ->
  exists o,
  Analytics.get_analytics_overview st = Ok o /\
  Analytics.total_campaigns o
  = Analytics.active_campaigns o + Analytics.completed_campaigns o
    + Analytics.draft_campaigns o
    + Analytics.count (Analytics.has_status "paused") (Analytics.all_campaigns st)
  /\ Forall (fun rate => (0 <= rate)%Q /\ (rate <= 100)%Q)
       [Analytics.overall_open_rate o; Analytics.overall_click_rate o;
        Analytics.overall_conversion_rate o]
  /\ 0 <= Analytics.total_leads o <= Analytics.total_customers o.
Proof.
  intros Hok. pose proof (all_results_ordered st Hok) as Hall.
  destruct (overview_returns st) as (q1 & q2 & q3 & q4 & Ho & G1 & G2 & G3 & _).
  cbv zeta in Ho, G1, G2, G3.
  eexists. split; [exact Ho |].
  cbn [Analytics.total_campaigns Analytics.active_campaigns
       Analytics.completed_campaigns Analytics.draft_campaigns
       Analytics.overall_open_rate Analytics.overall_click_rate
       Analytics.overall_conversion_rate Analytics.total_leads
       Analytics.total_customers].
  split; [| split].
  - apply status_partition.
    eapply Forall_impl; [apply all_campaigns_ok; exact Hok |].
    intros c Hc. apply (status_known _ _ Hc).
  - set (results := Analytics.all_results st) in *.
    assert (Hs : forall f g : CampaignResult.t -> Z,
               (forall r, funnel_ordered r -> 0 <= f r <= g r) ->
               0 <= Analytics.sum_Z (map f results)
               <= Analytics.sum_Z (map g results)).
    { intros f g Hfg. split; [apply sum_Z_nonneg | apply sum_Z_le];
        (eapply Forall_impl; [exact Hall |]); intros r Hr; apply (Hfg r Hr). }
    repeat (apply Forall_cons_2; [| try apply Forall_nil_2]).
    + eapply rate_bounds; [| exact (proj1 G1) | exact (proj2 G1)].
      apply Hs; intros r []; lia.
    + eapply rate_bounds; [| exact (proj1 G2) | exact (proj2 G2)].
      apply Hs; intros r []; lia.
    + eapply rate_bounds; [| exact (proj1 G3) | exact (proj2 G3)].
      apply Hs; intros r []; lia.
  - unfold Analytics.count. split; [lia |].
    apply inj_le, length_filter.
Qed.

(** *** Sorting by decreasing key *)

Section SortedDesc.
Context {A : Type} (key : A -> Q).

Lemma insert_desc_perm (x : A) (l : list A) :
  Permutation (insert_desc key x l) (x :: l).
Proof.
  induction l as [| y l IH]; simpl; [reflexivity |].
  destruct (Qle_bool (key y) (key x)); [reflexivity |].
  rewrite IH. apply perm_swap.
Qed.

Lemma sorted_desc_perm (l : list A) : Permutation (sorted_desc key l) l.
Proof.
  induction l as [| x l IH]; simpl; [reflexivity |].
  rewrite insert_desc_perm, IH. reflexivity.
Qed.

Lemma insert_desc_hd (y x : A) (l : list A) :
  key_ge key y x -> HdRel (key_ge key) y l ->
  HdRel (key_ge key) y (insert_desc key x l).
Proof.
  intros Hyx Hl. destruct l as [| z l]; simpl.
  - constructor. exact Hyx.
  - destruct (Qle_bool (key z) (key x)); constructor; [exact Hyx |].
    inversion Hl; assumption.
Qed.

Lemma insert_desc_sorted (x : A) (l : list A) :
  Sorted (key_ge key) l -> Sorted (key_ge key) (insert_desc key x l).
Proof.
  induction 1 as [| y l Hl IH Hhd]; simpl.
  - repeat constructor.
  - destruct (Qle_bool (key y) (key x)) eqn:E.
    + apply Qle_bool_iff in E. repeat constructor; assumption.
    + constructor; [exact IH |]. apply insert_desc_hd; [| exact Hhd].
      unfold key_ge. apply Qlt_le_weak, Qnot_le_lt.
      intros Hle. apply Qle_bool_iff in Hle. congruence.
Qed.

Lemma sorted_desc_sorted (l : list A) :
  StronglySorted (key_ge key) (sorted_desc key l).
Proof.
  apply Sorted_StronglySorted.
  - intros a b c Hab Hbc. unfold key_ge in *. eapply Qle_trans; eassumption.
  - induction l as [| x l IH]; simpl; [constructor |].
    apply insert_desc_sorted. exact IH.
Qed.

(** Rows with equal keys keep their order. *)
Lemma insert_desc_stable (q : Q) (x : A) (l : list A) :
  List.filter (fun a => Qeq_bool (key a) q) (insert_desc key x l)
  = List.filter (fun a => Qeq_bool (key a) q) (x :: l).
Proof.
  induction l as [| y l IH]; [reflexivity |].
  simpl insert_desc. destruct (Qle_bool (key y) (key x)) eqn:E; [reflexivity |].
  simpl in IH |- *. rewrite IH.
  destruct (Qeq_bool (key x) q) eqn:Ex; [| reflexivity].
  destruct (Qeq_bool (key y) q) eqn:Ey; [| reflexivity].
  exfalso. apply Qeq_bool_iff in Ex, Ey.
  assert (Hle : (key y <= key x)%Q) by (rewrite Ex, Ey; apply Qle_refl).
  apply Qle_bool_iff in Hle. congruence.
Qed.

Lemma sorted_desc_stable (q : Q) (l : list A) :
  List.filter (fun a => Qeq_bool (key a) q) (sorted_desc key l)
  = List.filter (fun a => Qeq_bool (key a) q) l.
Proof.
  induction l as [| x l IH]; [reflexivity |].
  simpl sorted_desc. rewrite insert_desc_stable. simpl. rewrite IH. reflexivity.
Qed.

End SortedDesc.



Lemma add_campaign_nonneg (l : list Campaign.t) (totals : Z * Q) :
  Forall (fun c => forall r, Campaign.results c = Some r -> funnel_ordered r) l ->
  0 <= totals.1 -> (0 <= totals.2)%Q ->
  0 <= (fold_left Reports.add_campaign l totals).1
  /\ (0 <= (fold_left Reports.add_campaign l totals).2)%Q.
Proof.
  intros Hl. revert totals.
  induction Hl as [| c l Hc _ IH]; intros totals H1 H2; simpl; [auto |].
  apply IH; unfold Reports.add_campaign;
    destruct (Campaign.results c) as [r |] eqn:Hr; simpl; try assumption.
  - destruct (Hc r eq_refl) as [_ _ _ _ _ [Hv _] _ _ _]. lia.
  - destruct (Hc r eq_refl) as [_ _ _ _ _ _ _ _ Hrev].
    simpl in H2 |- *. lra.
Qed.

(** X20. The segment performance report has one row for each active
    segment, and none for an inactive one; the rows are in order of
    decreasing revenue, ties in table order.  In a store that satisfies
    [store_ok] no row has a negative number of conversions or a negative
    revenue. *)
Theorem segment_performance_sorted (st : Store) :
  let rows :=
    map (Reports.segment_row_of st)
      (List.filter Segment.is_active (Analytics.all_segments st)) in
  let report := Reports.get_segment_performance st in
  Permutation report rows
  /\ StronglySorted
       (fun a b => (Reports.total_revenue b <= Reports.total_revenue a)%Q) report
  /\ (forall q,
        List.filter (fun row => Qeq_bool (Reports.total_revenue row) q) report
        = List.filter (fun row => Qeq_bool (Reports.total_revenue row) q) rows)
  /\ (store_ok st ->
      forall row, In row report ->
        0 <= Reports.total_campaigns row
        /\ 0 <= Reports.total_conversions row
        /\ (0 <= Reports.total_revenue row)%Q).
Proof.
  cbv zeta. unfold Reports.get_segment_performance.
  split; [apply sorted_desc_perm |].
  split; [apply (sorted_desc_sorted Reports.total_revenue) |].
  split; [intros q; apply sorted_desc_stable |].
  intros Hok row Hrow.
  apply (Permutation_in _ (sorted_desc_perm Reports.total_revenue _)) in Hrow.
  apply in_map_iff in Hrow as (segment & <- & _).
  unfold Reports.segment_row_of. simpl.
  split; [lia |].
  apply add_campaign_nonneg; [| reflexivity | discriminate].
  apply Forall_forall. intros c Hc r Hr.
  apply list_elem_of_In, filter_In in Hc as [Hc _].
  apply list_elem_of_In in Hc.
  pose proof (all_campaigns_ok st Hok) as Hall.
  rewrite Forall_forall in Hall.
  destruct (Hall c Hc) as [_ _ (r' & Hr' & _ & Hf & _) _ _ _].
  congruence.
Qed.

(** ** Accounts *)

Section AuthenticationFacts.
Context `{Sha256}.

Lemma find_none_app {A} (p : A -> bool) (l : list A) (x : A) :
  existsb p l = false -> List.find p (l ++ [x]) = List.find p [x].
Proof.
  induction l as [| y l IH]; simpl; [reflexivity |].
  destruct (p y); simpl; [discriminate | exact IH].
Qed.

(** X21. Signing in.  [authenticate_user] returns only a stored user
    whose name is the one given and whose stored hash is the hash of the
    password given.  Right after a [create_user] that commits, the same
    name and password authenticate as the new user, and a password with
    another hash is refused. *)
Theorem create_then_authenticate (new_id now : Z) (username password : string)
    (email : option string) (role : string) (users users' : list User.t)
    (user : User.t) :
  create_user new_id now username password email role users
  = Committed (users', user) ->
  authenticate_user username password users' = Some user
  /\ (forall other, hash_password other <> hash_password password ->
      authenticate_user username other users' = None)
  /\ (forall name pw u, authenticate_user name pw users' = Some u ->
      In u users' /\ User.username u = name
      /\ User.password_hash u = hash_password pw).
Proof.
  unfold create_user.
  destruct (username_taken users username) eqn:Hu; [discriminate |].
  destruct (email_taken users email); [discriminate |]. simpl.
  intros [= <- <-].
  assert (Hfind : first_by_username
            (users ++ [User.mk new_id username (hash_password password) email
                         role now]) username
          = Some (User.mk new_id username (hash_password password) email role now)).
  { unfold first_by_username. rewrite find_none_app by exact Hu.
    simpl. rewrite String.eqb_refl. reflexivity. }
  split; [| split].
  - unfold authenticate_user. rewrite Hfind. unfold verify_password. simpl.
    rewrite String.eqb_refl. reflexivity.
  - intros other Hne. unfold authenticate_user. rewrite Hfind.
    unfold verify_password. simpl.
    destruct (String.eqb_spec (hash_password other) (hash_password password));
      [contradiction | reflexivity].
  - intros name pw u. unfold authenticate_user, first_by_username.
    destruct (List.find _ _) as [found |] eqn:Hf; [| discriminate].
    apply find_some in Hf as [Hin Hname].
    unfold verify_password.
    destruct (String.eqb_spec (hash_password pw) (User.password_hash found));
      [| discriminate].
    intros [= <-]. apply String.eqb_eq in Hname. auto.
Qed.

Lemma username_taken_spec (users : list User.t) (username : string) :
  username_taken users username = true <-> In username (map User.username users).
Proof.
  unfold username_taken. rewrite existsb_exists, in_map_iff.
  split; intros (u & H1 & H2).
  - apply String.eqb_eq in H2. eauto.
  - exists u. split; [exact H2 | apply String.eqb_eq; exact H1].
Qed.

(** X22. User names stay unique.  [create_user] refuses a name that is
    taken, and a non-null e-mail that is taken, with an integrity error;
    when it commits, it has appended exactly the new user, and a table
    whose names were pairwise distinct still has pairwise distinct
    names. *)
Theorem create_user_keeps_names_unique (new_id now : Z)
    (username password : string) (email : option string) (role : string)
    (users : list User.t) :
  NoDup (map User.username users) ->
  (In username (map User.username users) ->
   create_user new_id now username password email role users = IntegrityError)
  /\ (forall e, email = Some e -> In (Some e) (map User.email users) ->
      create_user new_id now username password email role users = IntegrityError)
  /\ (forall users' user,
        create_user new_id now username password email role users
        = Committed (users', user) ->
        users' = users ++ [user]
        /\ User.username user = username
        /\ NoDup (map User.username users')).
Proof.
  intros Hnd. split; [| split].
  - intros Hin. apply username_taken_spec in Hin.
    unfold create_user. rewrite Hin. reflexivity.
  - intros e -> Hin. unfold create_user.
    assert (Ht : email_taken users (Some e) = true).
    { simpl. apply existsb_exists. apply in_map_iff in Hin as (u & Hu & Hin).
      exists u. split; [exact Hin |]. rewrite Hu. apply String.eqb_refl. }
    rewrite Ht, orb_true_r. reflexivity.
  - intros users' user. unfold create_user.
    destruct (username_taken users username) eqn:Hu; [discriminate |].
    destruct (email_taken users email); [discriminate |]. simpl.
    intros [= <- <-]. split; [reflexivity |]. split; [reflexivity |].
    rewrite map_app. simpl. apply NoDup_app. split; [exact Hnd |].
    split; [| apply NoDup_singleton].
    intros name Hname Hin. apply list_elem_of_In in Hname.
    apply list_elem_of_In in Hin. simpl in Hin. destruct Hin as [<- | []].
    apply username_taken_spec in Hname. congruence.
Qed.

End AuthenticationFacts.

(** ** Customers *)

Section CustomerFacts.
Context `{PyBuiltins} `{Customer.attributes} `{JsonEncoder}.

Lemma create_customer_inv (new_id created updated : Z) (name email : string)
    (phone : option string) (demographics : pyval) (status : string)
    (lead_source : option string) (st st' : Store) (c : Customer.t) :
  create_customer new_id created updated name email phone demographics status
    lead_source st = Committed (st', c) ->
  existsb (fun c' => String.eqb (Customer.email c') email) (customers st) = false
  /\ st' = set_customers st (customers st ++ [c])
  /\ Customer.id c = new_id /\ Customer.email c = email
  /\ Customer.status c = status
  /\ Customer.demographics c
     = (if py_truthy demographics then Some (json_dumps demographics) else None).
Proof.
  unfold create_customer.
  destruct (existsb _ (customers st)) eqn:He; [discriminate |].
  intros [= <- <-]. split; [reflexivity |]. split; [reflexivity |].
  destruct (py_truthy demographics); simpl; auto.
Qed.

(** X23. Demographics given at creation read back as given, with one
    exception: a value that Python takes as false (an empty object or
    list, 0, the empty string, false, null) is not stored at all, and
    reads back as the empty object.  The first half assumes of the JSON
    codec that the encoded value is not the empty text and decodes to the
    value. *)
Theorem create_customer_demographics_round_trip (new_id created updated : Z)
    (name email : string) (phone : option string) (demographics : pyval)
    (status : string) (lead_source : option string) (st st' : Store)
    (c : Customer.t) :
  create_customer new_id created updated name email phone demographics status
    lead_source st = Committed (st', c) ->
  (py_truthy demographics = true ->
   json_dumps demographics <> "" ->
   json_loads (json_dumps demographics) = Some demographics ->
   Customer.get_demographics c = Ok demographics)
  /\ (py_truthy demographics = false ->
      Customer.get_demographics c = Ok (PDict [])).
Proof.
  intros Hc. destruct (create_customer_inv _ _ _ _ _ _ _ _ _ _ _ _ Hc)
    as (_ & _ & _ & _ & _ & Hd).
  unfold Customer.get_demographics, loads_or. rewrite Hd.
  split; intros Ht; rewrite Ht.
  - intros Hne Hrt.
    destruct (String.eqb_spec (json_dumps demographics) ""); [contradiction |].
    rewrite Hrt. reflexivity.
  - reflexivity.
Qed.

Lemma email_taken_spec (cs : list Customer.t) (email : string) :
  existsb (fun c => String.eqb (Customer.email c) email) cs = true
  <-> In email (map Customer.email cs).
Proof.
  rewrite existsb_exists, in_map_iff.
  split; intros (c & Ha & Hb).
  - apply String.eqb_eq in Hb. eauto.
  - exists c. split; [exact Hb | apply String.eqb_eq; exact Ha].
Qed.

Lemma find_app_fresh {A} (p : A -> bool) (l : list A) (x : A) :
  existsb p l = false -> p x = true -> List.find p (l ++ [x]) = Some x.
Proof.
  intros Hl Hx. rewrite find_none_app by exact Hl. simpl. rewrite Hx. reflexivity.
Qed.

(** X24. E-mail addresses stay unique and a new customer can be fetched.
    [create_customer] refuses an address that a stored customer has, with
    an integrity error.  When it commits, the customer is appended, the
    segments and campaigns are as before, pairwise distinct addresses stay
    pairwise distinct, and, the key being new, [get_customer_by_id] finds
    the customer. *)
Theorem create_customer_keeps_emails_unique (new_id created updated : Z)
    (name email : string) (phone : option string) (demographics : pyval)
    (status : string) (lead_source : option string) (st : Store) :
  NoDup (map Customer.email (customers st)) ->
  (In email (map Customer.email (customers st)) ->
   create_customer new_id created updated name email phone demographics status
     lead_source st = IntegrityError)
  /\ (forall st' c,
        create_customer new_id created updated name email phone demographics
          status lead_source st = Committed (st', c) ->
        customers st' = customers st ++ [c]
        /\ segments st' = segments st /\ campaigns st' = campaigns st
        /\ NoDup (map Customer.email (customers st'))
        /\ (~ In new_id (map Customer.id (customers st)) ->
            get_customer_by_id new_id st' = Some c)).
Proof.
  intros Hnd. split.
  - intros Hin. apply email_taken_spec in Hin.
    unfold create_customer. rewrite Hin. reflexivity.
  - intros st' c Hc.
    destruct (create_customer_inv _ _ _ _ _ _ _ _ _ _ _ _ Hc)
      as (He & -> & Hid & Hem & _).
    simpl. split; [reflexivity |]. split; [reflexivity |]. split; [reflexivity |].
    split.
    + rewrite map_app. simpl. apply NoDup_app. split; [exact Hnd |].
      split; [| apply NoDup_singleton].
      intros e He1 He2. apply list_elem_of_In in He1.
      apply list_elem_of_In in He2. simpl in He2. destruct He2 as [<- | []].
      rewrite Hem in He1. apply email_taken_spec in He1. congruence.
    + intros Hfresh. unfold get_customer_by_id. simpl.
      apply find_app_fresh; [| rewrite Hid; apply Z.eqb_refl].
      destruct (existsb (fun c' => Z.eqb (Customer.id c') new_id) (customers st))
        eqn:E; [| reflexivity].
      exfalso. apply Hfresh. apply existsb_exists in E as (c' & Hin & Heq).
      apply Z.eqb_eq in Heq. apply in_map_iff. eauto.
Qed.

Lemma matching_customers_app (cs : list Customer.t) (c : Customer.t)
    (criteria : pyval) (l : list Customer.t) (b : bool) :
  matching_customers cs criteria = Ok l ->
  evaluate_segment_criteria c criteria = Ok b ->
  matching_customers (cs ++ [c]) criteria = Ok (l ++ if b then [c] else []).
Proof.
  intros Hl Hb. revert l Hl.
  induction cs as [| x cs IH]; intros l; simpl.
  - intros [= <-]. rewrite Hb. simpl. destruct b; reflexivity.
  - destruct (evaluate_segment_criteria x criteria) as [bx | e]; simpl;
      [| discriminate].
    destruct (matching_customers cs criteria) as [l' | e]; simpl;
      [| discriminate].
    intros [= <-]. rewrite (IH l' eq_refl). simpl. destruct bx; reflexivity.
Qed.

(** X25. A stored count goes stale, a refresh catches up.  After
    [create_customer] commits, the [customer_count] every segment stores
    is what it was, while the audience of a segment, computed from its
    criteria, has gained the new customer exactly when the criteria hold
    of the customer; so the next refresh writes the old audience size plus
    one or plus nothing. *)
Theorem new_customer_reaches_audience (new_id created updated stamp : Z)
    (name email : string) (phone : option string) (demographics : pyval)
    (status : string) (lead_source : option string) (st st' : Store)
    (c : Customer.t) (segment_id : Z) (segment : Segment.t) (criteria : pyval)
    (l : list Customer.t) (b : bool) :
  create_customer new_id created updated name email phone demographics status
    lead_source st = Committed (st', c) ->
  segments st !! segment_id = Some segment ->
  Segment.get_criteria segment = Ok criteria ->
  get_segment_customers st segment_id = Ok l ->
  evaluate_segment_criteria c criteria = Ok b ->
  segments st' !! segment_id = Some segment
  /\ get_segment_customers st' segment_id = Ok (l ++ if b then [c] else [])
  /\ exists st'' segment',
       refresh_segment stamp st' segment_id = Ok (st'', Some segment')
       /\ Segment.customer_count segment'
          = Z.of_nat (length l) + (if b then 1 else 0).
Proof.
  intros Hc Hs Hcr Hl Hb.
  destruct (create_customer_inv _ _ _ _ _ _ _ _ _ _ _ _ Hc) as (_ & -> & _).
  assert (Hl' : get_segment_customers
            (set_customers st (customers st ++ [c])) segment_id
          = Ok (l ++ if b then [c] else [])).
  { unfold get_segment_customers in Hl |- *. simpl. rewrite Hs in Hl |- *.
    rewrite Hcr in Hl |- *. simpl in Hl |- *.
    apply matching_customers_app; assumption. }
  split; [exact Hs |]. split; [exact Hl' |].
  unfold refresh_segment. simpl segments. rewrite Hs, Hl'.
  cbn [mbind result_bind].
  eexists _, _. split; [reflexivity |].
  rewrite refreshed_count, length_app. destruct b; simpl; lia.
Qed.

End CustomerFacts.

(** ** The scenarios, run on the concrete instance *)

#[local] Existing Instance Demo.builtins.
#[local] Existing Instance Demo.attributes.

Lemma demo_draws_in_range : draws_in_range Demo.draws.
Proof.
  constructor; unfold between, Qle, Qlt; simpl; lia.
Defined.

(** Launching campaign 8 of the demo store yields the row [Demo.overspent]. *)
Example launch_refund_campaign :
  Campaign.results <$> campaigns (Demo.after_launch Demo.with_campaigns 8) !! 8
  = Some (Some Demo.overspent).
Proof. vm_compute. reflexivity. Qed.

(** [to_dict] names a method, which [getattr] finds on every customer: it
    is not null, so the rule [to_dict neq lead] holds, and a segment with
    that rule has every customer of the store in its audience. *)
Example method_name_rule :
  evaluate_one (Demo.customer 1 "lead" None)
    (rule_doc (PStr "to_dict") (PStr "neq") (PStr "lead")) = Ok true
  /\ matching_customers (customers Demo.store)
       (PDict [("rules",
                PList [rule_doc (PStr "to_dict") (PStr "neq") (PStr "lead")])])
     = Ok (customers Demo.store).
Proof. split; vm_compute; reflexivity. Qed.

(** A null [phone] fails [phone neq 555-0100]. *)
Lemma null_value_never_matches_witness :
  py_get (rule_doc (PStr "phone") (PStr "neq") (PStr "555-0100")) "field" (PStr "")
  = Ok (PStr "phone")
  /\ get_nested_value (Demo.customer 1 "lead" None) (PStr "phone") = Ok PNone
  /\ evaluate_one (Demo.customer 1 "lead" None)
       (rule_doc (PStr "phone") (PStr "neq") (PStr "555-0100")) = Ok false.
Proof.
  split; [reflexivity | split; [reflexivity |]].
  apply (null_value_never_matches (Demo.customer 1 "lead" None)
           (rule_doc (PStr "phone") (PStr "neq") (PStr "555-0100"))
           (PStr "phone") (PStr "neq") (PStr "555-0100"));
    reflexivity.
Defined.


(** A text that is no JSON document matches everybody. *)
Lemma malformed_criteria_witness :
  json_loads "{rules: oops" = None
  /\ evaluate_segment_criteria (Demo.customer 2 "customer" None)
       (PStr "{rules: oops") = Ok true.
Proof.
  split; [reflexivity |].
  apply (malformed_criteria_match_everything (Demo.customer 2 "customer" None)
           "{rules: oops").
  reflexivity.
Defined.


(** The scenario of the "New Leads" segment: lead, customer, lead; the
    refresh is committed at time 50. *)
Lemma refresh_segment_witness :
  segments Demo.store !! 1 = Some Demo.new_leads
  /\ Segment.get_criteria Demo.new_leads = Ok Demo.lead_criteria
  /\ Forall (fun c => returns (evaluate_segment_criteria c Demo.lead_criteria))
       (customers Demo.store)
  /\ map Customer.status (customers Demo.store) = ["lead"; "customer"; "lead"]
  /\ (exists st' segment',
        refresh_segment 50 Demo.store 1 = Ok (st', Some segment')
        /\ segments st' !! 1 = Some segment'
        /\ Segment.name segment' = "New Leads"
        /\ Segment.criteria segment' = Demo.lead_text
        /\ customers st' = customers Demo.store
        /\ campaigns st' = campaigns Demo.store)
  /\ (exists st' segment',
        refresh_segment 50 Demo.store 1 = Ok (st', Some segment')
        /\ Segment.customer_count segment' = 2
        /\ segments st' !! 1 = Some segment').
Proof.
  assert (Hs : segments Demo.store !! 1 = Some Demo.new_leads)
    by (vm_compute; reflexivity).
  assert (Hc : Segment.get_criteria Demo.new_leads = Ok Demo.lead_criteria)
    by (vm_compute; reflexivity).
  assert (Hret : Forall (fun c => returns
            (evaluate_segment_criteria c Demo.lead_criteria)) (customers Demo.store)).
  { repeat constructor; eexists; vm_compute; reflexivity. }
  destruct (refresh_segment_counts 50 Demo.store 1 Demo.new_leads
              Demo.lead_criteria Hs Hc) as [Hgen Hscen].
  split; [exact Hs |]. split; [exact Hc |]. split; [exact Hret |].
  split; [reflexivity |]. split.
  - destruct (Hgen Hret)
      as (st' & segment' & Heq & Hlook & _ & _ & _ & Hname & _ & Hcrit & _ & _
          & _ & Hcust & Hcamp & _).
    exists st', segment'.
    split; [exact Heq |]. split; [exact Hlook |]. split; [exact Hname |].
    split; [exact Hcrit |]. split; [exact Hcust | exact Hcamp].
  - apply Hscen; reflexivity.
Defined.

(** C8, as stated, fails on that scenario: the refresh writes the count 2
    and, the count being new, the time of its commit into [updated_at],
    a column of the segment other than [customer_count]. *)
Lemma refresh_updated_at_counterexample :
  exists st' segment',
    refresh_segment 50 Demo.store 1 = Ok (st', Some segment')
    /\ segments Demo.store !! 1 = Some Demo.new_leads
    /\ segments st' !! 1 = Some segment'
    /\ Segment.customer_count segment' = 2
    /\ Segment.updated_at segment' <> Segment.updated_at Demo.new_leads.
Proof.
  eexists _, _. split; [vm_compute; reflexivity |].
  split; [vm_compute; reflexivity |].
  split; [vm_compute; reflexivity |].
  split; [reflexivity | discriminate].
Qed.


(** Campaign 8 targets a segment without customers. *)
Lemma launch_delivery_bounds_witness :
  draws_in_range Demo.draws
  /\ campaigns Demo.with_campaigns !! 8 = Some Demo.refund
  /\ Campaign.status Demo.refund = "draft"
  /\ Campaign.results Demo.refund = Some (CampaignResult.default 8 200)
  /\ get_segment_customers Demo.with_campaigns (Campaign.segment_id Demo.refund) = Ok []
  /\ exists st' campaign' results',
       launch_campaign 1000 1001 1001 Demo.draws 8 Demo.with_campaigns
       = Ok (st', Some campaign')
       /\ Campaign.results campaign' = Some results'
       /\ 100 <= CampaignResult.total_sent results' <= 500
       /\ CampaignResult.delivered results' <= CampaignResult.total_sent results'
       /\ CampaignResult.bounced results'
          = CampaignResult.total_sent results' - CampaignResult.delivered results'.
Proof.
  assert (Hc : campaigns Demo.with_campaigns !! 8 = Some Demo.refund)
    by (vm_compute; reflexivity).
  assert (Ha : get_segment_customers Demo.with_campaigns
                 (Campaign.segment_id Demo.refund) = Ok [])
    by (vm_compute; reflexivity).
  split; [exact demo_draws_in_range |]. split; [exact Hc |].
  split; [reflexivity |]. split; [reflexivity |]. split; [exact Ha |].
  destruct (launch_delivery_bounds 1000 1001 1001 Demo.draws
              Demo.with_campaigns 8
              Demo.refund (CampaignResult.default 8 200) []
              demo_draws_in_range Hc eq_refl eq_refl Ha)
    as (st' & campaign' & results' & Heq & _ & Hres & Hfb & Hle & Hb).
  exists st', campaign', results'.
  split; [exact Heq |]. split; [exact Hres |]. split; [exact (Hfb eq_refl) |].
  split; [exact Hle | exact Hb].
Defined.

(** Campaign 7, completed right after its creation. *)
Lemma complete_draft_campaign_witness :
  campaigns Demo.with_campaigns !! 7 = Some Demo.summer_sale
  /\ Campaign.status Demo.summer_sale = "draft"
  /\ Campaign.results Demo.summer_sale = Some (CampaignResult.default 7 100)
  /\ exists st' campaign',
       complete_campaign 2000 2001 7 Demo.with_campaigns = (st', Some campaign')
       /\ Campaign.status campaign' = "completed"
       /\ Campaign.end_date campaign' = Some 2000
       /\ Campaign.results campaign' = Some (CampaignResult.default 7 100).
Proof.
  assert (Hc : campaigns Demo.with_campaigns !! 7 = Some Demo.summer_sale)
    by (vm_compute; reflexivity).
  split; [exact Hc |]. split; [reflexivity |]. split; [reflexivity |].
  destruct (complete_draft_campaign 2000 2001 Demo.with_campaigns 7
              Demo.summer_sale 7 100 Hc eq_refl eq_refl)
    as (st' & campaign' & Heq & _ & Hst & Hed & Hres & _).
  exists st', campaign'. auto.
Defined.

(** The row [Demo.overspent]: a positive denominator and a negative one. *)
Lemma metrics_guarded_witness :
  0 < CampaignResult.total_sent Demo.overspent
  /\ (CampaignResult.total_cost Demo.overspent <= 0)%Q
  /\ exists m,
       CampaignResult.calculate_metrics Demo.overspent = Ok m
       /\ CampaignResult.delivery_rate m = (inject_Z 190 / inject_Z 200 * 100)%Q
       /\ CampaignResult.roi m = 0%Q.
Proof.
  destruct (metrics_guarded Demo.overspent)
    as (m & Hm & (Hdel & _) & _ & _ & _ & _ & (_ & Hroi)).
  assert (Hs : 0 < CampaignResult.total_sent Demo.overspent) by (simpl; lia).
  assert (Hc : (CampaignResult.total_cost Demo.overspent <= 0)%Q)
    by (unfold Qle; simpl; lia).
  split; [exact Hs |]. split; [exact Hc |].
  exists m. split; [exact Hm |]. split; [exact (Hdel Hs) | exact (Hroi Hc)].
Defined.

(** C5, as stated, fails on [Demo.overspent]: the cost is not zero, yet the
    ROI reported is 0 and not [(revenue - cost) / cost], which is about
    -120 percent. *)
Lemma metrics_roi_counterexample :
  ~ (CampaignResult.total_cost Demo.overspent == 0)%Q
  /\ exists m,
       CampaignResult.calculate_metrics Demo.overspent = Ok m
       /\ (CampaignResult.roi m == 0)%Q
       /\ ~ (CampaignResult.roi m
             == (CampaignResult.revenue_attributed Demo.overspent
                 - CampaignResult.total_cost Demo.overspent)
                / CampaignResult.total_cost Demo.overspent * 100)%Q.
Proof.
  split; [vm_compute; discriminate |].
  eexists. split; [vm_compute; reflexivity |].
  split; vm_compute; [reflexivity | discriminate].
Qed.

(** The overview of the demo store after the launch of campaign 8. *)
Lemma overview_rates_witness :
  exists o,
    Analytics.get_analytics_overview (Demo.after_launch Demo.with_campaigns 8)
    = Ok o
    /\ 0 < Analytics.total_sent o
    /\ Analytics.overall_open_rate o
       = (inject_Z (Analytics.total_opens o) / inject_Z (Analytics.total_sent o)
          * 100)%Q.
Proof.
  destruct (overview_rates (Demo.after_launch Demo.with_campaigns 8))
    as (o & Ho & (Hsent & _) & (Hopen & _) & _).
  assert (Hs : 0 < Analytics.total_sent o).
  { rewrite Hsent. vm_compute. reflexivity. }
  exists o. split; [exact Ho |]. split; [exact Hs | exact (Hopen Hs)].
Defined.

(** C7, as stated, fails on that store: 38 opens, 200 sent, 190 delivered;
    the overall open rate is 19 percent, not 38 / 190 = 20 percent. *)
Lemma overview_open_rate_counterexample :
  Analytics.total_delivered (Demo.after_launch Demo.with_campaigns 8) = 190
  /\ exists o,
       Analytics.get_analytics_overview (Demo.after_launch Demo.with_campaigns 8)
       = Ok o
       /\ Analytics.total_opens o = 38
       /\ (Analytics.overall_open_rate o == 19)%Q
       /\ ~ (Analytics.overall_open_rate o
             == inject_Z (Analytics.total_opens o)
                / inject_Z (Analytics.total_delivered
                              (Demo.after_launch Demo.with_campaigns 8)) * 100)%Q.
Proof.
  split; [vm_compute; reflexivity |].
  eexists. split; [vm_compute; reflexivity |].
  split; [reflexivity |].
  split; vm_compute; [reflexivity | discriminate].
Qed.

(** ** The further scenarios *)

#[local] Existing Instance Demo2.encoder.
#[local] Existing Instance Demo2.hasher.

(** [demographics.address.city] is read as [demographics.address]. *)
Lemma path_depth_ignored_witness :
  dot_free "demographics" /\ dot_free "address"
  /\ get_nested_value (Demo.customer 1 "lead" None)
       (PStr "demographics.address.city")
     = get_nested_value (Demo.customer 1 "lead" None) (PStr "demographics.address").
Proof.
  split; [reflexivity | split; [reflexivity |]].
  exact (proj1 (path_depth_ignored (Demo.customer 1 "lead" None)
                  "demographics" "address" "city" eq_refl eq_refl)).
Defined.

(** The two rules of [Demo.either_rules], swapped. *)
Lemma rule_order_irrelevant_witness :
  Permutation Demo.either_rules [Demo2.lead_rule; Demo2.customer_rule]
  /\ Forall (fun r => returns (evaluate_one (Demo.customer 2 "customer" None) r))
       Demo.either_rules
  /\ evaluate_segment_criteria (Demo.customer 2 "customer" None)
       (PDict Demo.either_criteria)
     = evaluate_segment_criteria (Demo.customer 2 "customer" None)
         (PDict [("rules", PList [Demo2.lead_rule; Demo2.customer_rule]);
                 ("match", PStr "any")]).
Proof.
  assert (Hp : Permutation Demo.either_rules [Demo2.lead_rule; Demo2.customer_rule])
    by apply perm_swap.
  assert (Hret : Forall (fun r => returns
                   (evaluate_one (Demo.customer 2 "customer" None) r))
                   Demo.either_rules).
  { repeat constructor; eexists; vm_compute; reflexivity. }
  split; [exact Hp | split; [exact Hret |]].
  exact (rule_order_irrelevant (Demo.customer 2 "customer" None)
           Demo.either_criteria
           [("rules", PList [Demo2.lead_rule; Demo2.customer_rule]);
            ("match", PStr "any")]
           Demo.either_rules [Demo2.lead_rule; Demo2.customer_rule] (PStr "any")
           eq_refl eq_refl eq_refl eq_refl Hp Hret).
Defined.

(** A lead matches [lead and lead], hence [lead]. *)
Lemma extra_rule_monotone_witness :
  evaluate_segment_criteria (Demo.customer 1 "lead" None)
    (PDict [("rules", PList [Demo2.lead_rule; Demo2.lead_rule]);
            ("match", PStr "all")]) = Ok true
  /\ evaluate_segment_criteria (Demo.customer 1 "lead" None)
       (PDict [("rules", PList [Demo2.lead_rule]); ("match", PStr "all")])
     = Ok true.
Proof.
  assert (H2 : evaluate_segment_criteria (Demo.customer 1 "lead" None)
                 (PDict [("rules", PList [Demo2.lead_rule; Demo2.lead_rule]);
                         ("match", PStr "all")]) = Ok true)
    by (vm_compute; reflexivity).
  split; [exact H2 |].
  exact (proj1 (extra_rule_monotone (Demo.customer 1 "lead" None)
                  [("rules", PList [Demo2.lead_rule; Demo2.lead_rule]);
                   ("match", PStr "all")]
                  [("rules", PList [Demo2.lead_rule]); ("match", PStr "all")]
                  Demo2.lead_rule [Demo2.lead_rule] (PStr "all")
                  eq_refl eq_refl eq_refl eq_refl) eq_refl H2).
Defined.

(** Refreshing "New Leads" twice, at times 50 and 60. *)
Lemma refresh_segment_idempotent_witness :
  refresh_segment 50 Demo.store 1
  = Ok (Demo2.after_refresh Demo.store 1,
        Some (refreshed 50 2 Demo.new_leads))
  /\ refresh_segment 60 (Demo2.after_refresh Demo.store 1) 1
     = Ok (Demo2.after_refresh Demo.store 1,
           Some (refreshed 50 2 Demo.new_leads)).
Proof.
  assert (H1 : refresh_segment 50 Demo.store 1
               = Ok (Demo2.after_refresh Demo.store 1,
                     Some (refreshed 50 2 Demo.new_leads)))
    by (vm_compute; reflexivity).
  split; [exact H1 |].
  exact (proj2 (refresh_segment_idempotent 50 60 Demo.store _ 1 _ H1)).
Defined.

(** Campaign 7 targets "New Leads": two leads, two messages. *)
Lemma launch_sends_refreshed_count_witness :
  refresh_segment 50 Demo.with_campaigns (Campaign.segment_id Demo.summer_sale)
  = Ok (Demo2.after_refresh Demo.with_campaigns 1,
        Some (refreshed 50 2 Demo.new_leads))
  /\ campaigns (Demo2.after_refresh Demo.with_campaigns 1) !! 7
     = Some Demo.summer_sale
  /\ exists st2 campaign' results',
       launch_campaign 1000 1001 1001 Demo.draws 7
         (Demo2.after_refresh Demo.with_campaigns 1)
       = Ok (st2, Some campaign')
       /\ Campaign.results campaign' = Some results'
       /\ CampaignResult.total_sent results' = 2.
Proof.
  assert (H1 : refresh_segment 50 Demo.with_campaigns
                 (Campaign.segment_id Demo.summer_sale)
               = Ok (Demo2.after_refresh Demo.with_campaigns 1,
                     Some (refreshed 50 2 Demo.new_leads)))
    by (vm_compute; reflexivity).
  assert (H2 : campaigns (Demo2.after_refresh Demo.with_campaigns 1) !! 7
               = Some Demo.summer_sale)
    by (vm_compute; reflexivity).
  split; [exact H1 | split; [exact H2 |]].
  exact (launch_sends_refreshed_count 1000 1001 1001 50 Demo.draws
           Demo.with_campaigns _ _ 7
           Demo.summer_sale (CampaignResult.default 7 100)
           H1 ltac:(simpl; lia) H2 eq_refl eq_refl).
Defined.

(** A segment created with the empty document counts the three customers. *)
Lemma create_ruleless_segment_witness :
  json_dumps (PDict []) <> ""
  /\ json_loads (PyBuiltins := Demo2.decoder) (json_dumps (PDict []))
     = Some (PDict [])
  /\ exists st' segment,
       create_segment (H := Demo2.decoder) 5 70 70 71 "Everyone" (PDict []) None
         "manual" Demo.store = (st', Ok segment)
       /\ Segment.customer_count segment = 3.
Proof.
  assert (Hne : json_dumps (PDict []) <> "") by (vm_compute; discriminate).
  split; [exact Hne | split; [reflexivity |]].
  destruct (create_ruleless_segment_counts_everyone (H := Demo2.decoder)
              5 70 70 71 "Everyone" [] (PList []) None "manual" Demo.store
              Hne eq_refl eq_refl eq_refl)
    as (st' & segment & Heq & Hcount & _).
  exists st', segment. split; [exact Heq | exact Hcount].
Defined.

(** A text that is no JSON document leaves its row behind. *)
Lemma create_segment_undecodable_witness :
  json_loads "{rules: oops" = None
  /\ exists st',
       create_segment 6 80 80 81 "Broken" (PStr "{rules: oops") None "manual"
         Demo.store
       = (st', Raise ValueError)
       /\ Segment.customer_count <$> segments st' !! 6 = Some 0.
Proof.
  split; [reflexivity |].
  destruct (create_segment_undecodable_text 6 80 80 81 "Broken" "{rules: oops" None
              "manual" Demo.store ltac:(discriminate) eq_refl)
    as (st' & Heq & Hrow & _).
  exists st'. split; [exact Heq |]. rewrite Hrow. reflexivity.
Defined.

(** The body [{"name": "VIP", "criteria": "big spenders"}]. *)
Lemma request_string_criteria_witness :
  py_get (PDict [("name", PStr "VIP"); ("criteria", PStr "big spenders")])
    "criteria" (PDict []) = Ok (PStr "big spenders")
  /\ exists criteria,
       request_criteria
         (PDict [("name", PStr "VIP"); ("criteria", PStr "big spenders")])
       = Ok criteria
       /\ evaluate_segment_criteria (Demo.customer 2 "customer" None) criteria
          = Ok true.
Proof.
  split; [reflexivity |].
  destruct (request_string_criteria_match_everyone
              (PDict [("name", PStr "VIP"); ("criteria", PStr "big spenders")])
              "big spenders" (Demo.customer 2 "customer" None) eq_refl)
    as (criteria & Heq & _ & _ & Hall).
  exists criteria. split; [exact Heq | exact Hall].
Defined.

(** Seven clicks at a rate of 10 percent: one conversion, coin or not. *)
Lemma conversions_ignore_coin_witness :
  between (5 # 100) (conversion Demo.draws) (20 # 100)
  /\ simulate (set_coin Demo.draws (1 # 4)) 200 Demo.refund
       (CampaignResult.default 8 200)
     = simulate Demo.draws 200 Demo.refund (CampaignResult.default 8 200)
  /\ CampaignResult.conversions
       (simulate Demo.draws 200 Demo.refund (CampaignResult.default 8 200))
     = Qceiling (inject_Z 7 * (10 # 100)).
Proof.
  split; [apply (conversion_range _ demo_draws_in_range) |].
  exact (conversions_ignore_coin Demo.draws (1 # 4) 200 Demo.refund
           (CampaignResult.default 8 200)
           (conversion_range _ demo_draws_in_range)).
Defined.


Lemma clicks_always_convert_witness :
  0 < CampaignResult.clicks
        (simulate Demo.draws 200 Demo.refund (CampaignResult.default 8 200))
  /\ 1 <= CampaignResult.conversions
            (simulate Demo.draws 200 Demo.refund (CampaignResult.default 8 200)).
Proof.
  assert (Hpos : 0 < CampaignResult.clicks
                       (simulate Demo.draws 200 Demo.refund
                          (CampaignResult.default 8 200)))
    by (vm_compute; reflexivity).
  split; [exact Hpos |].
  exact (proj1 (clicks_always_convert Demo.draws 200 Demo.refund
                  (CampaignResult.default 8 200) demo_draws_in_range Hpos)).
Defined.

(** Campaign 8, active after its launch, paused at time 1100 and resumed
    at time 1101. *)
Lemma pause_resume_round_trip_witness :
  campaigns (Demo.after_launch Demo.with_campaigns 8) !! 8
  = Some Demo2.launched_refund
  /\ Campaign.status Demo2.launched_refund = "active"
  /\ exists st' campaign',
       resume_campaign 1101 8
         (pause_campaign 1100 8 (Demo.after_launch Demo.with_campaigns 8)).1
       = (st', Some campaign')
       /\ campaigns st' !! 8 = Some campaign'
       /\ Campaign.status campaign' = "active"
       /\ Campaign.updated_at campaign' = 1101
       /\ Campaign.start_date campaign' = Some 1000
       /\ Campaign.results campaign' = Campaign.results Demo2.launched_refund.
Proof.
  assert (Hc : campaigns (Demo.after_launch Demo.with_campaigns 8) !! 8
               = Some Demo2.launched_refund)
    by (vm_compute; reflexivity).
  split; [exact Hc | split; [reflexivity |]].
  destruct (proj1 (pause_resume_round_trip 1100 1101 _ 8 _ Hc) eq_refl)
    as (st' & campaign' & Heq & Hlook & Hst & Hup & Hsame & _).
  exists st', campaign'.
  split; [exact Heq |]. split; [exact Hlook |]. split; [exact Hst |].
  split; [exact Hup |].
  split; [exact (same_start_date _ _ Hsame) | exact (same_results _ _ Hsame)].
Defined.

Lemma launch_idempotent_witness :
  launch_campaign 1000 1001 1001 Demo.draws 8 Demo.with_campaigns
  = Ok (Demo.after_launch Demo.with_campaigns 8, Some Demo2.launched_refund)
  /\ launch_campaign 2000 2001 2001 Demo.draws 8
       (Demo.after_launch Demo.with_campaigns 8)
     = Ok (Demo.after_launch Demo.with_campaigns 8, Some Demo2.launched_refund).
Proof.
  assert (H1 : launch_campaign 1000 1001 1001 Demo.draws 8 Demo.with_campaigns
               = Ok (Demo.after_launch Demo.with_campaigns 8,
                     Some Demo2.launched_refund))
    by (vm_compute; reflexivity).
  split; [exact H1 |].
  exact (launch_idempotent 1000 1001 1001 2000 2001 2001 Demo.draws Demo.draws
           8 _ _ _ H1).
Defined.

Lemma completed_is_final_witness :
  campaigns Demo.with_campaigns !! 7 = Some Demo.summer_sale
  /\ exists st' completed,
       complete_campaign 2000 2001 7 Demo.with_campaigns = (st', Some completed)
       /\ launch_campaign 3000 3001 3001 Demo.draws 7 st'
          = Ok (st', Some completed).
Proof.
  assert (Hc : campaigns Demo.with_campaigns !! 7 = Some Demo.summer_sale)
    by (vm_compute; reflexivity).
  split; [exact Hc |].
  destruct (completed_is_final 2000 2001 3000 3001 3001 Demo.draws
              Demo.with_campaigns 7 Demo.summer_sale Hc)
    as (st' & completed & H1 & H2 & _).
  exists st', completed. split; [exact H1 | exact H2].
Defined.

(** Two creations and one launch lead from the demo store to the store
    with campaign 8 active. *)
Lemma demo_steps :
  rtc step Demo.store (Demo.after_launch Demo.with_campaigns 8).
Proof.
  eapply rtc_l.
  { apply (step_create Demo.store 7 100 100 100 "Summer Sale" 1 "email" None
             None None 500 None).
    vm_compute. reflexivity. }
  eapply rtc_l.
  { apply (step_create Demo.with_campaign 8 200 200 200 "Refund" 99 "email"
             None None None (-1000) None).
    vm_compute. reflexivity. }
  eapply rtc_l; [| apply rtc_refl].
  apply (step_launch Demo.with_campaigns _ 1000 1001 1001 Demo.draws 8
           (Some Demo2.launched_refund) demo_draws_in_range).
  vm_compute. reflexivity.
Defined.

Lemma demo_store_ok : store_ok (Demo.after_launch Demo.with_campaigns 8).
Proof.
  apply (steps_keep_ok Demo.store); [| exact demo_steps].
  unfold store_ok. apply map_Forall_empty.
Defined.

Lemma reachable_store_ok_witness :
  campaigns Demo.store = ∅
  /\ rtc step Demo.store (Demo.after_launch Demo.with_campaigns 8)
  /\ store_ok (Demo.after_launch Demo.with_campaigns 8).
Proof.
  split; [reflexivity | split; [exact demo_steps |]].
  exact (proj1 (reachable_store_ok Demo.store _ eq_refl demo_steps)).
Defined.


Lemma funnel_shape_witness :
  store_ok (Demo.after_launch Demo.with_campaigns 8)
  /\ exists sent delivered opens clicks leads converted p2 p3 p4 p5 p6,
       Reports.get_conversion_funnel (Demo.after_launch Demo.with_campaigns 8)
       = Ok [ Reports.mk_stage "Sent" sent 100%Q;
              Reports.mk_stage "Delivered" delivered p2;
              Reports.mk_stage "Opened" opens p3;
              Reports.mk_stage "Clicked" clicks p4;
              Reports.mk_stage "Leads" leads p5;
              Reports.mk_stage "Converted" converted p6 ]
       /\ delivered <= sent.
Proof.
  split; [exact demo_store_ok |].
  destruct (funnel_shape _ demo_store_ok)
    as (sent & delivered & opens & clicks & leads & converted
        & p2 & p3 & p4 & p5 & p6 & Heq & _ & _ & _ & Hds & _).
  exists sent, delivered, opens, clicks, leads, converted, p2, p3, p4, p5, p6.
  split; [exact Heq | exact Hds].
Defined.

Lemma overview_consistent_witness :
  store_ok (Demo.after_launch Demo.with_campaigns 8)
  /\ exists o,
       Analytics.get_analytics_overview (Demo.after_launch Demo.with_campaigns 8)
       = Ok o
       /\ Analytics.total_campaigns o
          = Analytics.active_campaigns o + Analytics.completed_campaigns o
            + Analytics.draft_campaigns o
            + Analytics.count (Analytics.has_status "paused")
                (Analytics.all_campaigns
                   (Demo.after_launch Demo.with_campaigns 8)).
Proof.
  split; [exact demo_store_ok |].
  destruct (overview_consistent _ demo_store_ok) as (o & Ho & Hsum & _).
  exists o. split; [exact Ho | exact Hsum].
Defined.


Lemma segment_performance_witness :
  store_ok (Demo.after_launch Demo.with_campaigns 8)
  /\ Forall (fun row => 0 <= Reports.total_conversions row)
       (Reports.get_segment_performance (Demo.after_launch Demo.with_campaigns 8)).
Proof.
  split; [exact demo_store_ok |].
  destruct (segment_performance_sorted (Demo.after_launch Demo.with_campaigns 8))
    as (_ & _ & _ & Hnn).
  apply Forall_forall. intros row Hrow. apply list_elem_of_In in Hrow.
  exact (proj1 (proj2 (Hnn demo_store_ok row Hrow))).
Defined.

(** The first account, and signing in with it. *)
Lemma create_then_authenticate_witness :
  create_user 1 0 "admin" "admin123" (Some "admin@example.com") "admin" []
  = Committed ([Demo2.admin], Demo2.admin)
  /\ authenticate_user "admin" "admin123" [Demo2.admin] = Some Demo2.admin
  /\ authenticate_user "admin" "letmein" [Demo2.admin] = None.
Proof.
  assert (Hc : create_user 1 0 "admin" "admin123" (Some "admin@example.com")
                 "admin" []
               = Committed ([Demo2.admin], Demo2.admin))
    by reflexivity.
  destruct (create_then_authenticate 1 0 "admin" "admin123"
              (Some "admin@example.com") "admin" [] _ _ Hc)
    as (Hok & Hbad & _).
  split; [exact Hc | split; [exact Hok |]].
  apply Hbad. vm_compute. discriminate.
Defined.

(** A second account of the same name. *)
Lemma create_user_keeps_names_unique_witness :
  NoDup (map User.username [Demo2.admin])
  /\ In "admin" (map User.username [Demo2.admin])
  /\ create_user 2 0 "admin" "other" None "marketer" [Demo2.admin]
     = IntegrityError.
Proof.
  assert (Hnd : NoDup (map User.username [Demo2.admin])).
  { simpl. apply NoDup_singleton. }
  assert (Hin : In "admin" (map User.username [Demo2.admin]))
    by (simpl; left; reflexivity).
  split; [exact Hnd | split; [exact Hin |]].
  exact (proj1 (create_user_keeps_names_unique 2 0 "admin" "other" None
                  "marketer" [Demo2.admin] Hnd) Hin).
Defined.

Lemma create_grace :
  create_customer 4 10 10 "Grace" "grace@example.com" None Demo2.age_doc "lead"
    None Demo.store = Committed (Demo2.with_grace, Demo2.grace).
Proof. vm_compute. reflexivity. Defined.

(** A customer created with [{"age": 30}]. *)
Lemma create_customer_demographics_witness :
  py_truthy Demo2.age_doc = true
  /\ json_dumps Demo2.age_doc <> ""
  /\ json_loads (PyBuiltins := Demo2.decoder) (json_dumps Demo2.age_doc)
     = Some Demo2.age_doc
  /\ Customer.get_demographics (H := Demo2.decoder) Demo2.grace
     = Ok Demo2.age_doc.
Proof.
  assert (Hne : json_dumps Demo2.age_doc <> "") by (vm_compute; discriminate).
  assert (Hrt : json_loads (PyBuiltins := Demo2.decoder) (json_dumps Demo2.age_doc)
                = Some Demo2.age_doc)
    by (vm_compute; reflexivity).
  split; [reflexivity | split; [exact Hne | split; [exact Hrt |]]].
  exact (proj1 (create_customer_demographics_round_trip (H := Demo2.decoder)
                  4 10 10 "Grace" "grace@example.com" None Demo2.age_doc "lead"
                  None Demo.store _ _ create_grace) eq_refl Hne Hrt).
Defined.

Lemma demo_emails_distinct : NoDup (map Customer.email (customers Demo.store)).
Proof.
  apply (bool_decide_unpack _). vm_compute. reflexivity.
Defined.

(** Grace once more: refused; Grace the first time: stored and found. *)
Lemma create_customer_keeps_emails_unique_witness :
  NoDup (map Customer.email (customers Demo.store))
  /\ ~ In 4 (map Customer.id (customers Demo.store))
  /\ NoDup (map Customer.email (customers Demo2.with_grace))
  /\ get_customer_by_id 4 Demo2.with_grace = Some Demo2.grace.
Proof.
  assert (Hid : ~ In 4 (map Customer.id (customers Demo.store)))
    by (simpl; intros [? | [? | [? | []]]]; discriminate).
  destruct (proj2 (create_customer_keeps_emails_unique 4 10 10 "Grace"
                     "grace@example.com" None Demo2.age_doc "lead" None
                     Demo.store demo_emails_distinct) _ _ create_grace)
    as (_ & _ & _ & Hnd & Hget).
  split; [exact demo_emails_distinct | split; [exact Hid |]].
  split; [exact Hnd | exact (Hget Hid)].
Defined.

(** Grace is a lead: the audience of "New Leads" grows from 2 to 3, while
    the stored count is the one of the last refresh. *)
Lemma new_customer_reaches_audience_witness :
  segments Demo.store !! 1 = Some Demo.new_leads
  /\ Segment.get_criteria Demo.new_leads = Ok Demo.lead_criteria
  /\ get_segment_customers Demo.store 1
     = Ok [Demo.customer 1 "lead" None; Demo.customer 3 "lead" (Some "555-0100")]
  /\ evaluate_segment_criteria Demo2.grace Demo.lead_criteria = Ok true
  /\ exists st'' segment',
       refresh_segment 90 Demo2.with_grace 1 = Ok (st'', Some segment')
       /\ Segment.customer_count segment' = 3.
Proof.
  assert (Hs : segments Demo.store !! 1 = Some Demo.new_leads)
    by (vm_compute; reflexivity).
  assert (Hc : Segment.get_criteria Demo.new_leads = Ok Demo.lead_criteria)
    by (vm_compute; reflexivity).
  assert (Hl : get_segment_customers Demo.store 1
               = Ok [Demo.customer 1 "lead" None;
                     Demo.customer 3 "lead" (Some "555-0100")])
    by (vm_compute; reflexivity).
  assert (Hb : evaluate_segment_criteria Demo2.grace Demo.lead_criteria = Ok true)
    by (vm_compute; reflexivity).
  split; [exact Hs | split; [exact Hc | split; [exact Hl | split; [exact Hb |]]]].
  destruct (new_customer_reaches_audience 4 10 10 90 "Grace" "grace@example.com"
              None Demo2.age_doc "lead" None Demo.store _ _ 1 Demo.new_leads
              Demo.lead_criteria _ true create_grace Hs Hc Hl Hb)
    as (_ & _ & st'' & segment' & Heq & Hcount).
  exists st'', segment'. split; [exact Heq | exact Hcount].
Defined.
